(** * perf_client and ServerStatusManager: a shallow embedding

    This development embeds the measurement core of
    [src/clients/c++/perf_client.cc] (the [ConcurrencyManager] class with
    [Step], [Measure], [Summarize], and the reporting code of [Report] and
    [main]) and the statistics bookkeeping of [src/core/server_status.cc]
    ([InitForModel], [UpdateSuccessInferStats]).

    Conventions.
    - A [uint64_t] / [size_t] value is a [Z] in [0, 2^64); every C++
      operation on it is written with its wrap-around ([u64]).
    - [float] and [double] are IEEE-754 binary32 and binary64, taken from
      the specification of floating-point arithmetic in [SpecFloat].
    - protobuf maps and [std::map] are [gmap]s; [std::vector] is a list
      whose [push_back] appends at the end.
    - state that C++ mutates through a reference ([PerfStatus& summary])
      is passed in and returned. *)

From Stdlib Require Import ZArith List Lia Bool.
From Stdlib Require Import Floats.SpecFloat.
From stdpp Require Import base option list gmap strings.

Local Open Scope Z_scope.

(** ** Machine integers *)

Definition u64 (x : Z) : Z := x mod 2 ^ 64.
Definition u32 (x : Z) : Z := x mod 2 ^ 32.

(** [ni::NANOS_PER_SECOND] of [src/core/constants.h]. *)
Definition NANOS_PER_SECOND : Z := 1000000000.

(** ** IEEE-754 arithmetic *)

(** Truncation toward zero of a finite value, as done by a C++ cast of a
    floating value to an integer type. *)
Definition sf_trunc (x : spec_float) : option Z :=
  match x with
  | S754_zero _ => Some 0
  | S754_finite s m e =>
      let a := match e with
               | Zneg p => Z.pos m / 2 ^ Z.pos p
               | _ => Z.pos m * 2 ^ e
               end in
      Some (if s then - a else a)
  | _ => None
  end.

(** [float]. *)
Module F32.
Definition prec : Z := 24.
Definition emax : Z := 128.
Definition of_Z (z : Z) : spec_float := binary_normalize prec emax z 0 false.
Definition div : spec_float -> spec_float -> spec_float := SFdiv prec emax.

(** [(int) x].  The conversion is undefined in C++ when the truncated
    value does not fit an [int]; there the model gives the value the
    x86-64 conversion instruction produces, [INT_MIN]. *)
Definition to_int (x : spec_float) : Z :=
  match sf_trunc x with
  | Some z => if (- 2 ^ 31 <=? z) && (z <? 2 ^ 31) then z else - 2 ^ 31
  | None => - 2 ^ 31
  end.
End F32.

(** [double]. *)
Module F64.
Definition prec : Z := 53.
Definition emax : Z := 1024.
Definition of_Z (z : Z) : spec_float := binary_normalize prec emax z 0 false.
Definition add : spec_float -> spec_float -> spec_float := SFadd prec emax.
Definition sub : spec_float -> spec_float -> spec_float := SFsub prec emax.
Definition mul : spec_float -> spec_float -> spec_float := SFmul prec emax.
Definition div : spec_float -> spec_float -> spec_float := SFdiv prec emax.
Definition sqrt : spec_float -> spec_float := SFsqrt prec emax.
Definition ltb : spec_float -> spec_float -> bool := SFltb.

(** [(uint64_t) x].  Undefined in C++ for a negative or too large
    value; the model gives 0 there. *)
Definition to_u64 (x : spec_float) : Z :=
  match sf_trunc x with
  | Some z => if (0 <=? z) && (z <? 2 ^ 64) then z else 0
  | None => 0
  end.
End F64.

(** ** Data model *)

(** [struct timespec]. *)
Record timespec := { tv_sec : Z; tv_nsec : Z }.

(** An element of [TimestampVector]: the pair (start time, end time). *)
Definition Timestamp : Type := timespec * timespec.

(** [tv_sec * ni::NANOS_PER_SECOND + tv_nsec], evaluated in [uint64_t]. *)
Definition timespec_ns (t : timespec) : Z :=
  u64 (tv_sec t * NANOS_PER_SECOND + tv_nsec t).

(** [nic::InferContext::Stat]. *)
Record Stat := {
  completed_request_count : Z;
  cumulative_total_request_time_ns : Z;
  cumulative_send_time_ns : Z;
  cumulative_receive_time_ns : Z
}.

(** [StatDuration], [InferRequestStats], [ModelVersionStatus] and
    [ModelStatus] of the server-status protobuf, with the fields the two
    source files read or write. *)
Record StatDuration := { count : Z; total_time_ns : Z }.

Record InferRequestStats := {
  success : StatDuration;
  failed : StatDuration;
  compute : StatDuration;
  queue : StatDuration
}.

Inductive ModelReadyState :=
  | MODEL_UNKNOWN | MODEL_READY | MODEL_UNAVAILABLE | MODEL_LOADING
  | MODEL_UNLOADING.

Record ModelVersionStatus := {
  ready_state : ModelReadyState;
  model_execution_count : Z;
  model_inference_count : Z;
  infer_stats : gmap Z InferRequestStats
}.

Record ModelStatus (Config : Type) := {
  config : option Config;
  version_status : gmap Z ModelVersionStatus
}.
Arguments config {Config} _.
Arguments version_status {Config} _.
Arguments Build_ModelStatus {Config} _ _.

(** [PerfStatus]. *)
Record PerfStatus := {
  concurrency : Z;
  batch_size : Z;
  server_request_count : Z;
  server_cumm_time_ns : Z;
  server_queue_time_ns : Z;
  server_compute_time_ns : Z;
  client_request_count : Z;
  client_duration_ns : Z;
  client_min_latency_ns : Z;
  client_max_latency_ns : Z;
  client_avg_latency_ns : Z;
  std_us : Z;
  client_avg_request_time_ns : Z;
  client_avg_send_time_ns : Z;
  client_avg_receive_time_ns : Z;
  client_infer_per_sec : Z
}.

(** [nic::Error]: success, or a failure with its message. *)
Inductive Error :=
  | Success
  | Failure (msg : string).

Definition IsOk (e : Error) : bool :=
  match e with Success => true | Failure _ => false end.

(** ** The Sampler and the Summary Composer: [ConcurrencyManager::Summarize] *)

(** The members of [ConcurrencyManager] that [Summarize] reads. *)
Record SamplerConfig := {
  batch_size_ : Z;
  measurement_window_ms_ : Z;
  model_version_ : Z
}.

(** First loop of [Summarize]: start time of the first request and end
    time of the last request in the drained vector. *)
Definition scan_step (acc : Z * Z) (timestamp : Timestamp) : Z * Z :=
  let '(first_request_start_ns, last_request_end_ns) := acc in
  let request_start_time := timespec_ns (fst timestamp) in
  let request_end_time := timespec_ns (snd timestamp) in
  (if (first_request_start_ns >? request_start_time)
      || (first_request_start_ns =? 0)
   then request_start_time else first_request_start_ns,
   if (last_request_end_ns <? request_end_time)
      || (last_request_end_ns =? 0)
   then request_end_time else last_request_end_ns).

Definition scan_timestamps (current_timestamps : list Timestamp) : Z * Z :=
  fold_left scan_step current_timestamps (0, 0).

(** The measurement window [(client_start_ns, client_end_ns)]. *)
Definition measurement_window_ns (cfg : SamplerConfig) : Z :=
  u64 (measurement_window_ms_ cfg * 1000 * 1000).

Definition window_offset (cfg : SamplerConfig) (first_request_start_ns
    last_request_end_ns : Z) : Z :=
  let offset := u64 (first_request_start_ns + measurement_window_ns cfg) in
  if offset >? last_request_end_ns then 0
  else u64 (last_request_end_ns - offset) / 2.

Definition client_window (cfg : SamplerConfig)
    (current_timestamps : list Timestamp) : Z * Z :=
  let '(first_request_start_ns, last_request_end_ns) :=
    scan_timestamps current_timestamps in
  let offset :=
    window_offset cfg first_request_start_ns last_request_end_ns in
  let client_start_ns := u64 (first_request_start_ns + offset) in
  let client_end_ns := u64 (client_start_ns + measurement_window_ns cfg) in
  (client_start_ns, client_end_ns).

(** The test of the second loop: does the request count for the window? *)
Definition in_window (client_start_ns client_end_ns : Z)
    (timestamp : Timestamp) : bool :=
  let request_start_ns := timespec_ns (fst timestamp) in
  let request_end_ns := timespec_ns (snd timestamp) in
  (request_start_ns <=? request_end_ns)
  && ((request_end_ns >=? client_start_ns)
      && (request_end_ns <=? client_end_ns)).

(** Accumulators of the second loop. *)
Record Tally := {
  valid_timestamp_count : Z;
  min_latency_ns : Z;
  max_latency_ns : Z;
  tol_latency_ns : Z;
  tol_square_latency_us : Z
}.

Definition tally_init : Tally :=
  {| valid_timestamp_count := 0; min_latency_ns := 0; max_latency_ns := 0;
     tol_latency_ns := 0; tol_square_latency_us := 0 |}.

(** Body of the inner [if]: one counted request of latency
    [request_latency]. *)
Definition tally_request (acc : Tally) (request_latency : Z) : Tally :=
  {| valid_timestamp_count := u64 (valid_timestamp_count acc + 1);
     min_latency_ns :=
       if (request_latency <? min_latency_ns acc)
          || (min_latency_ns acc =? 0)
       then request_latency else min_latency_ns acc;
     max_latency_ns :=
       if (request_latency >? max_latency_ns acc)
          || (max_latency_ns acc =? 0)
       then request_latency else max_latency_ns acc;
     tol_latency_ns := u64 (tol_latency_ns acc + request_latency);
     tol_square_latency_us :=
       u64 (tol_square_latency_us acc
            + u64 (request_latency * request_latency) / (1000 * 1000)) |}.

Definition request_latency (timestamp : Timestamp) : Z :=
  u64 (timespec_ns (snd timestamp) - timespec_ns (fst timestamp)).

Definition tally_step (client_start_ns client_end_ns : Z) (acc : Tally)
    (timestamp : Timestamp) : Tally :=
  if in_window client_start_ns client_end_ns timestamp
  then tally_request acc (request_latency timestamp)
  else acc.

Definition tally_timestamps (client_start_ns client_end_ns : Z)
    (current_timestamps : list Timestamp) : Tally :=
  fold_left (tally_step client_start_ns client_end_ns) current_timestamps
    tally_init.

(** Client-side statistics written into [summary] once the window holds a
    valid request. *)
Definition client_infer_per_sec_of (valid_count batch duration_ns : Z) : Z :=
  let client_duration_sec :=
    F32.div (F32.of_Z duration_ns) (F32.of_Z NANOS_PER_SECOND) in
  F32.to_int (F32.div (F32.of_Z (u64 (valid_count * batch)))
                      client_duration_sec).

Definition std_us_of (t : Tally) (avg_latency_ns : Z) : Z :=
  let expected_square_latency_us :=
    tol_square_latency_us t / valid_timestamp_count t in
  let square_avg_latency_us :=
    u64 (avg_latency_ns * avg_latency_ns) / (1000 * 1000) in
  let var_us :=
    if expected_square_latency_us >? square_avg_latency_us
    then expected_square_latency_us - square_avg_latency_us
    else 0 in
  F64.to_u64 (F64.sqrt (F64.of_Z var_us)).

Definition summarize_client (cfg : SamplerConfig) (summary : PerfStatus)
    (client_duration_ns : Z) (t : Tally) (start_stat end_stat : Stat)
    : PerfStatus :=
  let avg_latency_ns := tol_latency_ns t / valid_timestamp_count t in
  let completed_count :=
    u64 (completed_request_count end_stat
         - completed_request_count start_stat) in
  let request_time_ns :=
    u64 (cumulative_total_request_time_ns end_stat
         - cumulative_total_request_time_ns start_stat) in
  let send_time_ns :=
    u64 (cumulative_send_time_ns end_stat
         - cumulative_send_time_ns start_stat) in
  let receive_time_ns :=
    u64 (cumulative_receive_time_ns end_stat
         - cumulative_receive_time_ns start_stat) in
  let guarded (fresh old : Z) :=
    if completed_count =? 0 then old else fresh in
  {| concurrency := concurrency summary;
     batch_size := batch_size_ cfg;
     server_request_count := server_request_count summary;
     server_cumm_time_ns := server_cumm_time_ns summary;
     server_queue_time_ns := server_queue_time_ns summary;
     server_compute_time_ns := server_compute_time_ns summary;
     client_request_count := valid_timestamp_count t;
     client_duration_ns := client_duration_ns;
     client_min_latency_ns := min_latency_ns t;
     client_max_latency_ns := max_latency_ns t;
     client_avg_latency_ns := avg_latency_ns;
     std_us := std_us_of t avg_latency_ns;
     client_avg_request_time_ns :=
       guarded (request_time_ns / completed_count)
               (client_avg_request_time_ns summary);
     client_avg_send_time_ns :=
       guarded (send_time_ns / completed_count)
               (client_avg_send_time_ns summary);
     client_avg_receive_time_ns :=
       guarded (receive_time_ns / completed_count)
               (client_avg_receive_time_ns summary);
     client_infer_per_sec :=
       client_infer_per_sec_of (valid_timestamp_count t) (batch_size_ cfg)
         client_duration_ns |}.

(** Server-side part of [Summarize].  With a negative [model_version_] the
    version is looked up in [end_status]: the loop starts from 0 and takes
    [std::max] with every key. *)
Definition resolve_version {C} (cfg : SamplerConfig)
    (end_status : ModelStatus C) : Z :=
  if model_version_ cfg <? 0 then
    map_fold (fun (version : Z) (_ : ModelVersionStatus) status_model_version
              => Z.max status_model_version version)
             0 (version_status end_status)
  else model_version_ cfg.

(** The start counters [(start_cnt, start_cumm_time_ns, start_queue_time_ns,
    start_compute_time_ns)], zero unless [start_status] has the entry. *)
Definition start_counters {C} (cfg : SamplerConfig)
    (start_status : ModelStatus C) (status_model_version : Z)
    : Z * Z * Z * Z :=
  match version_status start_status !! status_model_version with
  | Some vstart =>
      match infer_stats vstart !! u32 (batch_size_ cfg) with
      | Some start_itr =>
          (count (success start_itr), total_time_ns (success start_itr),
           total_time_ns (queue start_itr),
           total_time_ns (compute start_itr))
      | None => (0, 0, 0, 0)
      end
  | None => (0, 0, 0, 0)
  end.

Definition summarize_server {C} (cfg : SamplerConfig) (summary : PerfStatus)
    (start_status end_status : ModelStatus C) : Error * PerfStatus :=
  let status_model_version := resolve_version cfg end_status in
  match version_status end_status !! status_model_version with
  | None => (Failure "missing model version status", summary)
  | Some vend =>
      match infer_stats vend !! u32 (batch_size_ cfg) with
      | None => (Failure "missing inference stats", summary)
      | Some end_itr =>
          let '(start_cnt, start_cumm_time_ns, start_queue_time_ns,
                start_compute_time_ns) :=
            start_counters cfg start_status status_model_version in
          (Success,
           {| concurrency := concurrency summary;
              batch_size := batch_size summary;
              server_request_count :=
                u64 (count (success end_itr) - start_cnt);
              server_cumm_time_ns :=
                u64 (total_time_ns (success end_itr) - start_cumm_time_ns);
              server_queue_time_ns :=
                u64 (total_time_ns (queue end_itr) - start_queue_time_ns);
              server_compute_time_ns :=
                u64 (total_time_ns (compute end_itr)
                     - start_compute_time_ns);
              client_request_count := client_request_count summary;
              client_duration_ns := client_duration_ns summary;
              client_min_latency_ns := client_min_latency_ns summary;
              client_max_latency_ns := client_max_latency_ns summary;
              client_avg_latency_ns := client_avg_latency_ns summary;
              std_us := std_us summary;
              client_avg_request_time_ns :=
                client_avg_request_time_ns summary;
              client_avg_send_time_ns := client_avg_send_time_ns summary;
              client_avg_receive_time_ns :=
                client_avg_receive_time_ns summary;
              client_infer_per_sec := client_infer_per_sec summary |})
      end
  end.

Definition no_valid_requests : string :=
  "No valid requests recorded within time interval. Please use a larger time window.".

(** [Summarize]: [current_timestamps] is the vector swapped out of the
    shared [request_timestamps_]; the result is the returned error and
    the state of [summary] on return. *)
Definition Summarize {C} (cfg : SamplerConfig) (summary : PerfStatus)
    (current_timestamps : list Timestamp)
    (start_status end_status : ModelStatus C) (start_stat end_stat : Stat)
    : Error * PerfStatus :=
  let '(client_start_ns, client_end_ns) :=
    client_window cfg current_timestamps in
  let client_duration_ns := u64 (client_end_ns - client_start_ns) in
  let t := tally_timestamps client_start_ns client_end_ns
             current_timestamps in
  if valid_timestamp_count t =? 0 then (Failure no_valid_requests, summary)
  else
    summarize_server cfg
      (summarize_client cfg summary client_duration_ns t start_stat end_stat)
      start_status end_status.



(** ** Measurement: [GetAccumulatedContextStat] and [Measure] *)

Definition Stat_zero : Stat :=
  {| completed_request_count := 0; cumulative_total_request_time_ns := 0;
     cumulative_send_time_ns := 0; cumulative_receive_time_ns := 0 |}.

(** [GetAccumulatedContextStat], applied to a default-constructed [Stat]:
    the sum of the cells of [threads_context_stat_]. *)
Definition GetAccumulatedContextStat (threads_context_stat : list Stat)
    : Stat :=
  fold_left
    (fun contexts_stat context_stat =>
       {| completed_request_count :=
            u64 (completed_request_count contexts_stat
                 + completed_request_count context_stat);
          cumulative_total_request_time_ns :=
            u64 (cumulative_total_request_time_ns contexts_stat
                 + cumulative_total_request_time_ns context_stat);
          cumulative_send_time_ns :=
            u64 (cumulative_send_time_ns contexts_stat
                 + cumulative_send_time_ns context_stat);
          cumulative_receive_time_ns :=
            u64 (cumulative_receive_time_ns contexts_stat
                 + cumulative_receive_time_ns context_stat) |})
    threads_context_stat Stat_zero.

(** What one pass of the measurement loop observes of the rest of the
    system: the health of the worker threads at the check, the two answers
    of the status service ([inl msg] when [GetModelStatus] fails), the
    cells of [threads_context_stat_] before and after the sleep, the
    timestamps found in [request_timestamps_] when [Summarize] swaps it
    out, and the value of [early_exit] read after the pass. *)
Record Window (C : Type) := {
  threads_ok : bool;
  start_status : string + ModelStatus C;
  stat_cells_before : list Stat;
  stat_cells_after : list Stat;
  end_status : string + ModelStatus C;
  drained : list Timestamp;
  early_exit : bool
}.
Arguments threads_ok {C} _.
Arguments start_status {C} _.
Arguments stat_cells_before {C} _.
Arguments stat_cells_after {C} _.
Arguments end_status {C} _.
Arguments drained {C} _.
Arguments early_exit {C} _.

(** [Measure], with server profiling off ([profile_ = false]). *)
Definition Measure {C} (cfg : SamplerConfig) (status_summary : PerfStatus)
    (w : Window C) : Error * PerfStatus :=
  match start_status w with
  | inl msg => (Failure msg, status_summary)
  | inr start =>
      let start_stat := GetAccumulatedContextStat (stat_cells_before w) in
      let end_stat := GetAccumulatedContextStat (stat_cells_after w) in
      match end_status w with
      | inl msg => (Failure msg, status_summary)
      | inr en =>
          Summarize cfg status_summary (drained w) start en start_stat
            end_stat
      end
  end.

(** ** The Concurrency Controller: [ConcurrencyManager::Step] *)

(** A worker thread: [Infer] started with its [thread_index], or
    [AsyncInfer]. *)
Inductive Worker :=
  | SyncWorker (thread_index : Z)
  | AsyncWorker.

Record Manager := {
  sampler : SamplerConfig;
  stable_offset_ : spec_float;
  max_measurement_count_ : Z;
  async_ : bool;
  threads_ : list Worker;
  pause_index_ : Z
}.

(** [while (concurrent_request_count > threads_.size())]: launch a thread
    whose index is the current size.  [fuel] bounds the number of passes. *)
Fixpoint launch_threads (fuel : nat) (concurrent_request_count : Z)
    (threads : list Worker) : list Worker :=
  match fuel with
  | O => threads
  | S fuel' =>
      if concurrent_request_count >? Z.of_nat (length threads) then
        let new_thread_index := Z.of_nat (length threads) in
        launch_threads fuel' concurrent_request_count
          (threads ++ [SyncWorker new_thread_index])
      else threads
  end.

(** The first part of [Step]: set [*pause_index_] and create the threads
    that are missing. *)
Definition adjust_concurrency (m : Manager) (concurrent_request_count : Z)
    : Manager :=
  {| sampler := sampler m;
     stable_offset_ := stable_offset_ m;
     max_measurement_count_ := max_measurement_count_ m;
     async_ := async_ m;
     threads_ :=
       if negb (async_ m) then
         launch_threads (Z.to_nat concurrent_request_count)
           concurrent_request_count (threads_ m)
       else if Z.of_nat (length (threads_ m)) =? 0
            then threads_ m ++ [AsyncWorker]
            else threads_ m;
     pause_index_ := concurrent_request_count |}.

(** A thread running [Infer] pauses after a request when
    [thread_index >= *pause_index]; [AsyncInfer] never waits there. *)
Definition sends_requests (pause_index : Z) (w : Worker) : bool :=
  match w with
  | SyncWorker thread_index => thread_index <? pause_index
  | AsyncWorker => true
  end.

(** *** The stability detector *)

Definition recent_k : Z := 3.

(** Local variables of the measurement loop. *)
Record Stability := {
  infer_per_sec : list Z;
  latencies : list Z;
  stable : bool;
  avg_ips : spec_float;
  avg_latency : Z
}.

Definition Stability_init : Stability :=
  {| infer_per_sec := []; latencies := []; stable := true;
     avg_ips := S754_zero false; avg_latency := 0 |}.

(** [(x < avg * (1 - stable_offset_)) || (x > avg * (1 + stable_offset_))]
    evaluated in [double]. *)
Definition out_of_band (stable_offset x avg : spec_float) : bool :=
  F64.ltb x (F64.mul avg (F64.sub (F64.of_Z 1) stable_offset))
  || F64.ltb (F64.mul avg (F64.add (F64.of_Z 1) stable_offset)) x.

(** The body of the loop after [Measure] succeeded: push the sample,
    update the running means, and re-evaluate [stable] once [recent_k]
    samples exist. *)
Definition record_measurement (stable_offset : spec_float) (st : Stability)
    (ips lat : Z) : Stability :=
  let infer_per_sec' := infer_per_sec st ++ [ips] in
  let latencies' := latencies st ++ [lat] in
  let avg_ips1 :=
    F64.add (avg_ips st) (F64.div (F64.of_Z ips) (F64.of_Z recent_k)) in
  let avg_latency1 := u64 (avg_latency st + lat / recent_k) in
  let size := Z.of_nat (length infer_per_sec') in
  if size >=? recent_k then
    let idx := Z.to_nat (size - recent_k) in
    let avg_ips2 :=
      if size >? recent_k then
        F64.sub avg_ips1
          (F64.div (F64.of_Z (nth (idx - 1) infer_per_sec' 0))
                   (F64.of_Z recent_k))
      else avg_ips1 in
    let avg_latency2 :=
      if size >? recent_k then
        u64 (avg_latency1 - nth (idx - 1) latencies' 0 / recent_k)
      else avg_latency1 in
    {| infer_per_sec := infer_per_sec';
       latencies := latencies';
       stable :=
         forallb
           (fun i =>
              negb (out_of_band stable_offset
                      (F64.of_Z (nth i infer_per_sec' 0)) avg_ips2)
              && negb (out_of_band stable_offset
                         (F64.of_Z (nth i latencies' 0))
                         (F64.of_Z avg_latency2)))
           (seq idx (length infer_per_sec' - idx));
       avg_ips := avg_ips2;
       avg_latency := avg_latency2 |}
  else
    {| infer_per_sec := infer_per_sec';
       latencies := latencies';
       stable := stable st;
       avg_ips := avg_ips1;
       avg_latency := avg_latency1 |}.

Definition failed_to_maintain : string :=
  "Failed to maintain concurrency level requested. Worker thread(s) failed to generate concurrent requests.".

(** The [do ... while] loop of [Step] and the code after it.  Each pass
    consumes one [Window]; [None] means the list ran out before the loop
    ended.  The result is the returned error, [status_summary], and the
    final value of [stable] (when it is [false] on a successful return the
    warning is printed). *)
Fixpoint measure_until_stable {C} (m : Manager) (windows : list (Window C))
    (st : Stability) (status_summary : PerfStatus)
    : option (Error * PerfStatus * bool) :=
  match windows with
  | [] => None
  | w :: rest =>
      if negb (threads_ok w) then
        Some (Failure failed_to_maintain, status_summary, stable st)
      else
        let '(err, status_summary') :=
          Measure (sampler m) status_summary w in
        if negb (IsOk err) then Some (err, status_summary', stable st)
        else
          let st' :=
            record_measurement (stable_offset_ m) st
              (client_infer_per_sec status_summary')
              (client_avg_latency_ns status_summary') in
          let size := Z.of_nat (length (infer_per_sec st')) in
          let finish :=
            Some (if early_exit w then Failure "Received exit signal."
                  else err,
                  status_summary', stable st') in
          if (size >=? recent_k) && stable st' then finish
          else if negb (early_exit w)
                  && (size <? max_measurement_count_ m)
          then measure_until_stable m rest st' status_summary'
          else finish
  end.

Definition set_concurrency (status_summary : PerfStatus) (c : Z)
    : PerfStatus :=
  {| concurrency := u32 c;
     batch_size := batch_size status_summary;
     server_request_count := server_request_count status_summary;
     server_cumm_time_ns := server_cumm_time_ns status_summary;
     server_queue_time_ns := server_queue_time_ns status_summary;
     server_compute_time_ns := server_compute_time_ns status_summary;
     client_request_count := client_request_count status_summary;
     client_duration_ns := client_duration_ns status_summary;
     client_min_latency_ns := client_min_latency_ns status_summary;
     client_max_latency_ns := client_max_latency_ns status_summary;
     client_avg_latency_ns := client_avg_latency_ns status_summary;
     std_us := std_us status_summary;
     client_avg_request_time_ns := client_avg_request_time_ns status_summary;
     client_avg_send_time_ns := client_avg_send_time_ns status_summary;
     client_avg_receive_time_ns := client_avg_receive_time_ns status_summary;
     client_infer_per_sec := client_infer_per_sec status_summary |}.

(** [Step]: the manager after the call, and the outcome of the
    measurement loop. *)
Definition Step {C} (m : Manager) (status_summary : PerfStatus)
    (concurrent_request_count : Z) (windows : list (Window C))
    : Manager * option (Error * PerfStatus * bool) :=
  let status_summary := set_concurrency status_summary
                          concurrent_request_count in
  let m' := adjust_concurrency m concurrent_request_count in
  (m', measure_until_stable m' windows Stability_init status_summary).

(** *** The asynchronous worker: the request loops of [AsyncInfer] *)

(** State of the worker between requests: the [requests_start_time] map
    and the id the context gives to the next request (the context numbers
    its requests consecutively). *)
Record AsyncState := {
  requests_start_time : gmap Z timespec;
  next_request_id : Z
}.

Section AsyncInfer.
(** Reading of the monotonic clock when the request with a given id is
    created. *)
Variable clock_gettime : Z -> timespec.

(** [while (requests_start_time.size() < *pause_index)]: record the
    start time, [AsyncRun], and remember the start time under the id of
    the request.  [fuel] bounds the number of passes. *)
Fixpoint issue_requests (fuel : nat) (pause_index : Z) (s : AsyncState)
    : AsyncState :=
  match fuel with
  | O => s
  | S fuel' =>
      if Z.of_nat (size (requests_start_time s)) <? pause_index then
        let start_time := clock_gettime (next_request_id s) in
        issue_requests fuel' pause_index
          {| requests_start_time :=
               match requests_start_time s !! next_request_id s with
               | Some _ => requests_start_time s
               | None => <[next_request_id s := start_time]>
                           (requests_start_time s)
               end;
             next_request_id := next_request_id s + 1 |}
      else s
  end.

(** One completed request taken in the inner loop: its start time is
    looked up and erased, and the pair of times is what the worker
    appends to [request_timestamps_]. *)
Definition complete_request (id : Z) (end_time : timespec) (s : AsyncState)
    : option (AsyncState * Timestamp) :=
  match requests_start_time s !! id with
  | Some start_time =>
      Some ({| requests_start_time := delete id (requests_start_time s);
               next_request_id := next_request_id s |},
            (start_time, end_time))
  | None => None
  end.
End AsyncInfer.

(** ** Reporting: [Report] and the CSV rows written by [main] *)

(** Unsigned division as the hardware does it: no result for a zero
    divisor. *)
Definition udiv (a b : Z) : option Z :=
  if b =? 0 then None else Some (a / b).

(** The server-side numbers [Report] prints. *)
Record ServerReport := {
  report_request_count : Z;
  cumm_avg_us : Z;
  queue_avg_us : Z;
  compute_avg_us : Z;
  overhead_us : Z
}.

(** [Report]: [None] when one of its divisions has a zero divisor. *)
Definition Report (summary : PerfStatus) : option ServerReport :=
  let cnt := server_request_count summary in
  let cumm_time_us := server_cumm_time_ns summary / 1000 in
  cumm_avg ← udiv cumm_time_us cnt;
  let queue_time_us := server_queue_time_ns summary / 1000 in
  queue_avg ← udiv queue_time_us cnt;
  let compute_time_us := server_compute_time_ns summary / 1000 in
  compute_avg ← udiv compute_time_us cnt;
  Some {| report_request_count := cnt;
          cumm_avg_us := cumm_avg;
          queue_avg_us := queue_avg;
          compute_avg_us := compute_avg;
          overhead_us := u64 (u64 (cumm_avg - queue_avg) - compute_avg) |}.

(** One row of the CSV file: concurrency, inferences/second, client send,
    network + server send/recv, server queue, server compute, client
    recv. *)
Definition csv_row (status : PerfStatus) : option (list Z) :=
  avg_queue_ns ← udiv (server_queue_time_ns status)
                      (server_request_count status);
  avg_compute_ns ← udiv (server_compute_time_ns status)
                        (server_request_count status);
  let avg_network_misc_ns :=
    u64 (u64 (u64 (u64 (client_avg_latency_ns status - avg_queue_ns)
                   - avg_compute_ns)
              - client_avg_send_time_ns status)
         - client_avg_receive_time_ns status) in
  Some [concurrency status; client_infer_per_sec status;
        client_avg_send_time_ns status / 1000;
        avg_network_misc_ns / 1000; avg_queue_ns / 1000;
        avg_compute_ns / 1000; client_avg_receive_time_ns status / 1000].

(** How a run of the fixed-concurrency branch of [main] ends. *)
Inductive RunOutcome :=
  | Exit (code : Z)
  | DivisionByZero
  | OutOfWindows.

(** [main] without [-d]: one [Step], and [Report] when it succeeded. *)
Definition main_fixed {C} (m : Manager) (status_summary : PerfStatus)
    (concurrent_request_count : Z) (windows : list (Window C))
    : RunOutcome :=
  match snd (Step m status_summary concurrent_request_count windows) with
  | None => OutOfWindows
  | Some (err, status_summary', _) =>
      if IsOk err then
        match Report status_summary' with
        | Some _ => Exit 0
        | None => DivisionByZero
        end
      else Exit 1
  end.

(** ** The server side: [ServerStatusManager] *)

(** The part of [server_status_] the functions below touch is its
    [model_status] map, a [gmap string (ModelStatus C)]. *)

Definition ModelStatus_default {C} : ModelStatus C :=
  {| config := None; version_status := ∅ |}.

Definition StatDuration_default : StatDuration :=
  {| count := 0; total_time_ns := 0 |}.

Section ServerStatusManager.
Context {C : Type}.
(** [ModelRepositoryManager::GetModelConfig]: the configuration of a
    model, or an error status. *)
Variable GetModelConfig : string -> string + C.

(** [InitForModel]: the returned status ([Success] for [Status::OK]) and
    the map afterwards. *)
Definition InitForModel (model_name : string)
    (ms : gmap string (ModelStatus C))
    : Error * gmap string (ModelStatus C) :=
  match GetModelConfig model_name with
  | inl msg => (Failure msg, ms)
  | inr model_config =>
      let ms1 :=
        match ms !! model_name with
        | None => ms
        | Some _ => <[model_name := ModelStatus_default]> ms
        end in
      let entry := default ModelStatus_default (ms1 !! model_name) in
      (Success,
       <[model_name := {| config := Some model_config;
                          version_status := version_status entry |}]>
         ms1)
  end.
End ServerStatusManager.

(** The statistics of a batch size on its first successful request. *)
Definition new_infer_stats (request_duration_ns run_duration_ns
    compute_duration_ns : Z) : InferRequestStats :=
  {| success := {| count := 1; total_time_ns := request_duration_ns |};
     failed := StatDuration_default;
     compute := {| count := 1; total_time_ns := compute_duration_ns |};
     queue := {| count := 1;
                 total_time_ns :=
                   u64 (run_duration_ns - compute_duration_ns) |} |}.

(** The statistics of a batch size after one more successful request. *)
Definition add_infer_stats (stats : InferRequestStats)
    (request_duration_ns run_duration_ns compute_duration_ns : Z)
    : InferRequestStats :=
  {| success :=
       {| count := u64 (count (success stats) + 1);
          total_time_ns :=
            u64 (total_time_ns (success stats) + request_duration_ns) |};
     failed := failed stats;
     compute :=
       {| count := u64 (count (compute stats) + 1);
          total_time_ns :=
            u64 (total_time_ns (compute stats) + compute_duration_ns) |};
     queue :=
       {| count := u64 (count (queue stats) + 1);
          total_time_ns :=
            u64 (total_time_ns (queue stats)
                 + u64 (run_duration_ns - compute_duration_ns)) |} |}.

(** [UpdateSuccessInferStats]. *)
Definition UpdateSuccessInferStats {C} (model_name : string)
    (model_version batch_size execution_cnt request_duration_ns
     run_duration_ns compute_duration_ns : Z)
    (ms : gmap string (ModelStatus C)) : gmap string (ModelStatus C) :=
  match ms !! model_name with
  | None => ms
  | Some status =>
      if batch_size =? 0 then ms
      else
        let mvs := version_status status in
        let version_status' :=
          match mvs !! model_version with
          | None =>
              {| ready_state := MODEL_UNKNOWN;
                 model_execution_count := execution_cnt;
                 model_inference_count := batch_size;
                 infer_stats :=
                   {[ u32 batch_size :=
                        new_infer_stats request_duration_ns run_duration_ns
                          compute_duration_ns ]} |}
          | Some vs =>
              {| ready_state := ready_state vs;
                 model_execution_count :=
                   u64 (model_execution_count vs + execution_cnt);
                 model_inference_count :=
                   u64 (model_inference_count vs + batch_size);
                 infer_stats :=
                   match infer_stats vs !! u32 batch_size with
                   | None =>
                       <[u32 batch_size :=
                           new_infer_stats request_duration_ns
                             run_duration_ns compute_duration_ns]>
                         (infer_stats vs)
                   | Some stats =>
                       <[u32 batch_size :=
                           add_infer_stats stats request_duration_ns
                             run_duration_ns compute_duration_ns]>
                         (infer_stats vs)
                   end |}
          end in
        <[model_name :=
            {| config := config status;
               version_status := <[model_version := version_status']> mvs |}]>
          ms
  end.

(** The one-model [Get] on a manager that holds no servable-state monitor
    ([monitor == nullptr]), reduced to what the client reads of it: the
    entry of [model_status] copied into the answer, or the error for a
    model the manager does not track.  With a monitor the copied entry
    also goes through [SetModelVersionReadyState]. *)
Definition Get {C} (model_name : string) (ms : gmap string (ModelStatus C))
    : string + ModelStatus C :=
  match ms !! model_name with
  | None =>
      inl ("no status available for unknown model '" +:+ model_name +:+ "'")
  | Some status => inr status
  end.

(** * The rest of the two files *)

(** ** [ServerStatusManager]: failed requests *)

(** The statistics of a batch size created by a failed request. *)
Definition new_failed_stats (request_duration_ns : Z) : InferRequestStats :=
  {| success := StatDuration_default;
     failed := {| count := 1; total_time_ns := request_duration_ns |};
     compute := StatDuration_default;
     queue := StatDuration_default |}.

(** The statistics of a batch size after one more failed request. *)
Definition add_failed_stats (stats : InferRequestStats)
    (request_duration_ns : Z) : InferRequestStats :=
  {| success := success stats;
     failed :=
       {| count := u64 (count (failed stats) + 1);
          total_time_ns :=
            u64 (total_time_ns (failed stats) + request_duration_ns) |};
     compute := compute stats;
     queue := queue stats |}.

(** A default-constructed [ModelVersionStatus]. *)
Definition ModelVersionStatus_default : ModelVersionStatus :=
  {| ready_state := MODEL_UNKNOWN; model_execution_count := 0;
     model_inference_count := 0; infer_stats := ∅ |}.

(** [UpdateFailedInferStats]. *)
Definition UpdateFailedInferStats {C} (model_name : string)
    (model_version batch_size request_duration_ns : Z)
    (ms : gmap string (ModelStatus C)) : gmap string (ModelStatus C) :=
  match ms !! model_name with
  | None => ms
  | Some status =>
      let mvs := version_status status in
      let version_status' :=
        match mvs !! model_version with
        | None =>
            {| ready_state := MODEL_UNKNOWN;
               model_execution_count := 0;
               model_inference_count := 0;
               infer_stats :=
                 {[ u32 batch_size :=
                      new_failed_stats request_duration_ns ]} |}
        | Some vs =>
            {| ready_state := ready_state vs;
               model_execution_count := model_execution_count vs;
               model_inference_count := model_inference_count vs;
               infer_stats :=
                 match infer_stats vs !! u32 batch_size with
                 | None =>
                     <[u32 batch_size :=
                         new_failed_stats request_duration_ns]>
                       (infer_stats vs)
                 | Some stats =>
                     <[u32 batch_size :=
                         add_failed_stats stats request_duration_ns]>
                       (infer_stats vs)
                 end |}
        end in
      <[model_name :=
          {| config := config status;
             version_status := <[model_version := version_status']> mvs |}]>
        ms
  end.

(** ** [ServerStatusManager]: the server status and its snapshots *)

(** [ServerStatus]: the fields the file reads or writes.  [ready_state]
    is the value of the [ServerReadyState] enum; each of [status_stats],
    [profile_stats] and [health_stats] is the [success] duration of the
    message of that name. *)
Record ServerStatus (Config : Type) := {
  server_id : string;
  version : string;
  server_ready_state : Z;
  uptime_ns : Z;
  model_status : gmap string (ModelStatus Config);
  status_stats : StatDuration;
  profile_stats : StatDuration;
  health_stats : StatDuration
}.
Arguments server_id {Config} _.
Arguments version {Config} _.
Arguments server_ready_state {Config} _.
Arguments uptime_ns {Config} _.
Arguments model_status {Config} _.
Arguments status_stats {Config} _.
Arguments profile_stats {Config} _.
Arguments health_stats {Config} _.
Arguments Build_ServerStatus {Config} _ _ _ _ _ _ _ _.

(** A cleared [ServerStatus]. *)
Definition ServerStatus_default {C} : ServerStatus C :=
  {| server_id := ""; version := ""; server_ready_state := 0;
     uptime_ns := 0; model_status := ∅;
     status_stats := StatDuration_default;
     profile_stats := StatDuration_default;
     health_stats := StatDuration_default |}.

(** The states of a servable that [SetModelVersionReadyState] tells
    apart: the three its [switch] names, and any other. *)
Inductive ManagerState := kLoading | kUnloading | kAvailable | kOtherState.

(** What the function asks of a [ServableStateMonitor]:
    [GetVersionStates], the state of each version of a model. *)
Definition Monitor : Type := string -> gmap Z ManagerState.

(** The [switch] of [SetModelVersionReadyState]. *)
Definition ready_state_of (manager_state : ManagerState) : ModelReadyState :=
  match manager_state with
  | kLoading => MODEL_LOADING
  | kUnloading => MODEL_UNLOADING
  | kAvailable => MODEL_READY
  | kOtherState => MODEL_UNAVAILABLE
  end.

Definition ModelReadyState_eqb (a b : ModelReadyState) : bool :=
  match a, b with
  | MODEL_UNKNOWN, MODEL_UNKNOWN | MODEL_READY, MODEL_READY
  | MODEL_UNAVAILABLE, MODEL_UNAVAILABLE | MODEL_LOADING, MODEL_LOADING
  | MODEL_UNLOADING, MODEL_UNLOADING => true
  | _, _ => false
  end.

(** [set_ready_state] of a [ModelVersionStatus]. *)
Definition set_ready_state (r : ModelReadyState) (vs : ModelVersionStatus)
    : ModelVersionStatus :=
  {| ready_state := r;
     model_execution_count := model_execution_count vs;
     model_inference_count := model_inference_count vs;
     infer_stats := infer_stats vs |}.

Section Snapshots.
Context {C : Type}.
(** [ModelConfig::name]. *)
Variable config_name : C -> string.

(** [SetModelVersionReadyState]: every version is set to unavailable,
    then the versions the monitor knows get their state; [mvs[version]]
    creates the entry of a version that has none. *)
Definition SetModelVersionReadyState (monitor : Monitor)
    (ms : ModelStatus C) : ModelStatus C :=
  let model_name := from_option config_name "" (config ms) in
  let unavailable :=
    set_ready_state MODEL_UNAVAILABLE <$> version_status ms in
  let versions_and_states := monitor model_name in
  {| config := config ms;
     version_status :=
       map_fold
         (fun (version : Z) (manager_state : ManagerState)
              (mvs : gmap Z ModelVersionStatus) =>
            let ready_state := ready_state_of manager_state in
            if negb (ModelReadyState_eqb ready_state MODEL_UNKNOWN) then
              <[version :=
                  set_ready_state ready_state
                    (default ModelVersionStatus_default (mvs !! version))]>
                mvs
            else mvs)
         unavailable versions_and_states |}.

(** [Get] of the whole server status: the returned status and
    [*server_status]. *)
Definition Get_all (server_status_ : ServerStatus C) (id : string)
    (ready uptime : Z) (monitor : option Monitor)
    : Error * ServerStatus C :=
  (Success,
   {| server_id := id;
      version := version server_status_;
      server_ready_state := ready;
      uptime_ns := uptime;
      model_status :=
        match monitor with
        | Some mon =>
            SetModelVersionReadyState mon <$> model_status server_status_
        | None => model_status server_status_
        end;
      status_stats := status_stats server_status_;
      profile_stats := profile_stats server_status_;
      health_stats := health_stats server_status_ |}).

Definition unknown_model (model_name : string) : string :=
  "no status available for unknown model '" +:+ model_name +:+ "'".

(** [Get] of the status of one model. *)
Definition Get_model (server_status_ : ServerStatus C) (id : string)
    (ready uptime : Z) (model_name : string) (monitor : option Monitor)
    : Error * ServerStatus C :=
  let cleared (ms : gmap string (ModelStatus C)) : ServerStatus C :=
    {| server_id := id;
       version := version server_status_;
       server_ready_state := ready;
       uptime_ns := uptime;
       model_status := ms;
       status_stats := StatDuration_default;
       profile_stats := StatDuration_default;
       health_stats := StatDuration_default |} in
  match model_status server_status_ !! model_name with
  | None => (Failure (unknown_model model_name), cleared ∅)
  | Some status =>
      (Success,
       cleared
         {[ model_name :=
              match monitor with
              | Some mon => SetModelVersionReadyState mon status
              | None => status
              end ]})
  end.
End Snapshots.

(** ** [ServerStatusManager]: request timers of the server itself *)

(** [ServerStatTimerScoped::Kind]. *)
Inductive Kind := STATUS | PROFILE | HEALTH.

(** One more request of [duration] nanoseconds. *)
Definition add_duration (d : StatDuration) (duration : Z) : StatDuration :=
  {| count := u64 (count d + 1);
     total_time_ns := u64 (total_time_ns d + duration) |}.

(** [UpdateServerStat]. *)
Definition UpdateServerStat {C} (duration : Z) (kind : Kind)
    (server_status_ : ServerStatus C) : ServerStatus C :=
  {| server_id := server_id server_status_;
     version := version server_status_;
     server_ready_state := server_ready_state server_status_;
     uptime_ns := uptime_ns server_status_;
     model_status := model_status server_status_;
     status_stats :=
       match kind with
       | STATUS => add_duration (status_stats server_status_) duration
       | _ => status_stats server_status_
       end;
     profile_stats :=
       match kind with
       | PROFILE => add_duration (profile_stats server_status_) duration
       | _ => profile_stats server_status_
       end;
     health_stats :=
       match kind with
       | HEALTH => add_duration (health_stats server_status_) duration
       | _ => health_stats server_status_
       end |}.

(** [(start_ns > end_ns) ? 0 : end_ns - start_ns] of two clock
    readings. *)
Definition elapsed_ns (start_time end_time : timespec) : Z :=
  let start_ns := timespec_ns start_time in
  let end_ns := timespec_ns end_time in
  if start_ns >? end_ns then 0 else end_ns - start_ns.

Module ServerStatTimerScoped.
Record t := { enabled_ : bool; start_ : timespec; kind_ : Kind }.

(** The destructor; [end_time] is the reading of the monotonic clock. *)
Definition destroy {C} (timer : t) (end_time : timespec)
    (server_status_ : ServerStatus C) : ServerStatus C :=
  if enabled_ timer then
    UpdateServerStat (elapsed_ns (start_ timer) end_time) (kind_ timer)
      server_status_
  else server_status_.
End ServerStatTimerScoped.

(** ** [ModelInferStats] and its [ScopedTimer] *)

Module ModelInferStats.

(** The duration a timer reports to. *)
Inductive Duration := RequestDuration | RunDuration | ComputeDuration.

(** The members the destructor reads; [model_servable_] holds
    [model_servable_->Version()] when the pointer is not null. *)
Record t := {
  model_name_ : string;
  requested_model_version_ : Z;
  model_servable_ : option Z;
  batch_size_ : Z;
  execution_count_ : Z;
  failed_ : bool;
  request_duration_ns_ : Z;
  run_duration_ns_ : Z;
  compute_duration_ns_ : Z
}.

(** [*duration_ptr = value]. *)
Definition set_duration (which : Duration) (value : Z) (s : t) : t :=
  {| model_name_ := model_name_ s;
     requested_model_version_ := requested_model_version_ s;
     model_servable_ := model_servable_ s;
     batch_size_ := batch_size_ s;
     execution_count_ := execution_count_ s;
     failed_ := failed_ s;
     request_duration_ns_ :=
       match which with
       | RequestDuration => value
       | _ => request_duration_ns_ s
       end;
     run_duration_ns_ :=
       match which with RunDuration => value | _ => run_duration_ns_ s end;
     compute_duration_ns_ :=
       match which with
       | ComputeDuration => value
       | _ => compute_duration_ns_ s
       end |}.

(** The destructor, as far as the status manager is concerned (the
    metrics of the servable are not part of the model). *)
Definition destroy {C} (s : t) (ms : gmap string (ModelStatus C))
    : gmap string (ModelStatus C) :=
  let model_version :=
    match model_servable_ s with
    | Some servable_version => servable_version
    | None => requested_model_version_ s
    end in
  if failed_ s then
    UpdateFailedInferStats (model_name_ s) model_version (batch_size_ s)
      (request_duration_ns_ s) ms
  else
    UpdateSuccessInferStats (model_name_ s) model_version (batch_size_ s)
      (execution_count_ s) (request_duration_ns_ s) (run_duration_ns_ s)
      (compute_duration_ns_ s) ms.

Module ScopedTimer.
Record t := {
  start_ : timespec;
  cummulative_duration_ns_ : Z;
  duration_ptr_ : option Duration
}.

(** The constructor. *)
Definition new : t :=
  {| start_ := {| tv_sec := 0; tv_nsec := 0 |};
     cummulative_duration_ns_ := 0;
     duration_ptr_ := None |}.

(** [Start]; [now] is the reading of the monotonic clock. *)
Definition Start (now : timespec) (timer : t) : t :=
  {| start_ := now;
     cummulative_duration_ns_ := cummulative_duration_ns_ timer;
     duration_ptr_ := duration_ptr_ timer |}.

(** [Stop]. *)
Definition Stop (now : timespec) (timer : t) : t :=
  if negb (tv_sec (start_ timer) =? 0) then
    {| start_ := {| tv_sec := 0; tv_nsec := 0 |};
       cummulative_duration_ns_ :=
         u64 (cummulative_duration_ns_ timer
              + elapsed_ns (start_ timer) now);
       duration_ptr_ := duration_ptr_ timer |}
  else timer.

(** The destructor: the statistics object the timer points into, after
    the write. *)
Definition destroy (now : timespec) (timer : t) (s : ModelInferStats.t)
    : ModelInferStats.t :=
  match duration_ptr_ timer with
  | Some which =>
      set_duration which (cummulative_duration_ns_ (Stop now timer)) s
  | None => s
  end.
End ScopedTimer.

(** [StartRequestTimer], [StartRunTimer] and [StartComputeTimer]. *)
Definition StartTimer (which : Duration) (now : timespec)
    (timer : ScopedTimer.t) : ScopedTimer.t :=
  ScopedTimer.Start now
    {| ScopedTimer.start_ := ScopedTimer.start_ timer;
       ScopedTimer.cummulative_duration_ns_ :=
         ScopedTimer.cummulative_duration_ns_ timer;
       ScopedTimer.duration_ptr_ := Some which |}.

Definition StartRequestTimer := StartTimer RequestDuration.
Definition StartRunTimer := StartTimer RunDuration.
Definition StartComputeTimer := StartTimer ComputeDuration.

End ModelInferStats.

(** ** [ConcurrencyManager]: creation, destruction and the status request *)

(** Conversion to [int32_t]. *)
Definition s32 (x : Z) : Z := (x + 2 ^ 31) mod 2 ^ 32 - 2 ^ 31.

(** [Create] (with the constructor): the members of the new manager.
    The constructor takes the batch size and the measurement window as
    [int32_t] and stores them in a [size_t] and a [uint64_t]. *)
Definition Create (batch_size : Z) (stable_offset : spec_float)
    (measurement_window_ms max_measurement_count : Z) (async : bool)
    (model_version : Z) : Manager :=
  {| sampler :=
       {| batch_size_ := u64 batch_size;
          measurement_window_ms_ := u64 (s32 measurement_window_ms);
          model_version_ := model_version |};
     stable_offset_ := stable_offset;
     max_measurement_count_ := max_measurement_count;
     async_ := async;
     threads_ := [];
     pause_index_ := 0 |}.

(** The destructor up to the point where it joins the threads:
    [*pause_index_ = threads_.size()]. *)
Definition wake_all (m : Manager) : Manager :=
  {| sampler := sampler m;
     stable_offset_ := stable_offset_ m;
     max_measurement_count_ := max_measurement_count_ m;
     async_ := async_ m;
     threads_ := threads_ m;
     pause_index_ := Z.of_nat (length (threads_ m)) |}.

(** [GetModelStatus]: [create] is the result of creating the status
    context, [answer] the result of [GetServerStatus] and the status it
    filled in.  The result is the returned error, or the status copied
    into [*model_status]. *)
Definition GetModelStatus {C} (model_name_ : string) (create : Error)
    (answer : Error * ServerStatus C) : string + ModelStatus C :=
  match create with
  | Failure msg => inl msg
  | Success =>
      match fst answer with
      | Failure msg => inl msg
      | Success =>
          match model_status (snd answer) !! model_name_ with
          | None => inl "unable to find status for model"
          | Some status => inr status
          end
      end
  end.

(** ** Worker threads: the input buffer *)

(** The loop over [ctx->Inputs()] that sizes the buffer of random input
    values; an input is its name and its [ByteSize].  The result is the
    error the thread stops with, or [max_input_byte_size]. *)
Fixpoint max_input_byte_size_from (model : string)
    (max_input_byte_size : Z) (inputs : list (string * Z)) : string + Z :=
  match inputs with
  | [] => inr max_input_byte_size
  | (name, bs) :: rest =>
      if bs <? 0 then
        inl ("input '" +:+ name
             +:+ "' has variable-size shape, unable to create input values for model '"
             +:+ model +:+ "'")
      else
        max_input_byte_size_from model (Z.max max_input_byte_size (u64 bs))
          rest
  end.

Definition max_input_byte_size (model : string)
    (inputs : list (string * Z)) : string + Z :=
  max_input_byte_size_from model 0 inputs.

(** ** [main] with [-d]: the search over concurrency levels *)

(** How the [for] loop of the dynamic mode ends: it is left with the
    value of [err] and the vector [summary]; [Report] divides by zero; or
    the windows given do not suffice. *)
Inductive SearchOutcome :=
  | SearchDone (err : Error) (summary : list PerfStatus)
  | SearchDivisionByZero
  | SearchOutOfWindows.

(** The loop from the test of its condition on; every [Step] takes its
    windows from the head of [runs]. *)
Fixpoint search_concurrency {C} (m : Manager) (status_summary : PerfStatus)
    (count max_concurrency latency_threshold_ms : Z) (err : Error)
    (summary : list PerfStatus) (runs : list (list (Window C)))
    : SearchOutcome :=
  if (count <=? max_concurrency) || (max_concurrency =? 0) then
    match runs with
    | [] => SearchOutOfWindows
    | windows :: rest =>
        match Step m status_summary count windows with
        | (_, None) => SearchOutOfWindows
        | (m', Some (err', status_summary', _)) =>
            if IsOk err' then
              match Report status_summary' with
              | None => SearchDivisionByZero
              | Some _ =>
                  let summary' := summary ++ [status_summary'] in
                  let avg_latency_ms :=
                    client_avg_latency_ns status_summary' / (1000 * 1000) in
                  if avg_latency_ms >=? latency_threshold_ms then
                    SearchDone Success summary'
                  else
                    search_concurrency m' status_summary' (u64 (count + 1))
                      max_concurrency latency_threshold_ms Success summary'
                      rest
              end
            else SearchDone err' summary
        end
    end
  else SearchDone err summary.
(** * Specification vocabulary *)

(** ** The Sampler *)

Definition start_ns (t : Timestamp) : Z := timespec_ns (fst t).
Definition end_ns (t : Timestamp) : Z := timespec_ns (snd t).

Definition minimum_of (x : Z) (l : list Z) : Prop :=
  In x l /\ Forall (fun y => x <= y) l.
Definition maximum_of (x : Z) (l : list Z) : Prop :=
  In x l /\ Forall (fun y => y <= x) l.

(** Readings of the monotonic clock as the workers record them: a start
    time is a positive number of nanoseconds, and both times are far from
    the 64-bit limit. *)
Definition clock_reading (t : Timestamp) : Prop :=
  0 < start_ns t < 2 ^ 63 /\ end_ns t < 2 ^ 63.

(** The requests the second loop counts, in the order of the vector. *)
Definition counted (client_start_ns client_end_ns : Z)
    (l : list Timestamp) : list Timestamp :=
  List.filter (in_window client_start_ns client_end_ns) l.

(** The server-side part leaves every client-side field as it found it. *)
Definition same_client_fields (a b : PerfStatus) : Prop :=
  concurrency a = concurrency b
  /\ batch_size a = batch_size b
  /\ client_request_count a = client_request_count b
  /\ client_duration_ns a = client_duration_ns b
  /\ client_min_latency_ns a = client_min_latency_ns b
  /\ client_max_latency_ns a = client_max_latency_ns b
  /\ client_avg_latency_ns a = client_avg_latency_ns b
  /\ std_us a = std_us b
  /\ client_avg_request_time_ns a = client_avg_request_time_ns b
  /\ client_avg_send_time_ns a = client_avg_send_time_ns b
  /\ client_avg_receive_time_ns a = client_avg_receive_time_ns b
  /\ client_infer_per_sec a = client_infer_per_sec b.

Definition Zsum (l : list Z) : Z := fold_right Z.add 0 l.

(** Canonical normal values of a binary format: a mantissa of [prec]
    digits and an exponent within the format. *)
Definition canonical (prec emax : Z) (m : positive) (e : Z) : Prop :=
  Z.pos (digits2_pos m) = prec /\ 3 - emax - prec <= e <= emax - prec.

(** The claim that the count can be read back from the rate:
    [infer_per_sec * window_seconds / batch_size] is within 1 of [n],
    written without fractions (both sides multiplied by
    [batch_size * 10^9]; [window_seconds = window_ms / 1000]). *)
Definition reconstructs_count (window_ms : Z) (out : PerfStatus) (n : Z)
    : Prop :=
  Z.abs (client_infer_per_sec out * (window_ms * 1000000)
         - n * batch_size out * NANOS_PER_SECOND)
  <= batch_size out * NANOS_PER_SECOND.

(** The variance and standard deviation as the specification words them:
    [variance_us = max(0, sum(latency_us^2) / n - avg_latency_us^2)] and
    [std_us = floor(sqrt(variance_us))], over unbounded integers, with
    [latency_us = latency_ns / 1000]. *)
Definition spec_variance_us (latencies_ns : list Z) : Z :=
  let n := Z.of_nat (length latencies_ns) in
  let avg_latency_us := Zsum latencies_ns / n / 1000 in
  Z.max 0 (Zsum (map (fun x => (x / 1000) ^ 2) latencies_ns) / n
           - avg_latency_us ^ 2).

Definition spec_std_us (latencies_ns : list Z) : Z :=
  Z.sqrt (spec_variance_us latencies_ns).

(** ** The stability detector *)

(** The detector run over a sequence of samples
    [(infer_per_sec, avg_latency_ns)]: the loop body applied to each. *)
Definition detector (stable_offset : spec_float) (samples : list (Z * Z))
    : Stability :=
  fold_left (fun st sample =>
               record_measurement stable_offset st (fst sample) (snd sample))
    samples Stability_init.

Definition scale_samples (c : Z) (samples : list (Z * Z)) : list (Z * Z) :=
  map (fun sample => (c * fst sample, c * snd sample)) samples.

(** The rule as the specification and the usage text word it, in exact
    arithmetic: with at least three samples, each of the last three
    values of both quantities lies within [percent]% of the mean of those
    three ([x] is within the band of the mean [sum / 3] when
    [(100 - percent) * sum <= 300 * x <= (100 + percent) * sum]). *)
Definition spec_within (percent sum x : Z) : bool :=
  ((100 - percent) * sum <=? 300 * x) && (300 * x <=? (100 + percent) * sum).

Definition spec_stable (percent : Z) (samples : list (Z * Z)) : bool :=
  match rev samples with
  | c :: b :: a :: _ =>
      let sum_ips := fst a + fst b + fst c in
      let sum_lat := snd a + snd b + snd c in
      forallb (fun s => spec_within percent sum_ips (fst s)
                        && spec_within percent sum_lat (snd s))
              [a; b; c]
  | _ => false
  end.

(** [stable_offset = atof("10") / 100], the default tolerance of 10%. *)
Definition ten_percent : spec_float := F64.div (F64.of_Z 10) (F64.of_Z 100).

(** *** Scaling by a power of two *)

(** [scale2 j x] is [x * 2^j] for a finite [x]. *)
Definition scale2 (j : Z) (x : spec_float) : spec_float :=
  match x with
  | S754_finite s m e => S754_finite s m (e + j)
  | _ => x
  end.

(** [x * 2^j] as a binary64 operation returns it: infinity when the
    exponent leaves the format. *)
Definition scale2_overflow (j : Z) (x : spec_float) : spec_float :=
  match x with
  | S754_finite s m e =>
      if e + j <=? 1024 - 53 then S754_finite s m (e + j)
      else S754_infinity s
  | _ => x
  end.

(** A binary64 value with room on both sides: zero, or a finite value of
    at most 53 digits whose exponent, also after adding [j], stays within
    [-400, 400] (no overflow, and no subnormal result in the operations
    it takes part in). *)
Definition roomy (j : Z) (x : spec_float) : bool :=
  match x with
  | S754_zero _ => true
  | S754_finite _ m e =>
      (Z.pos (digits2_pos m) <=? 53) && (-400 <=? e) && (e + j <=? 400)
  | _ => false
  end.

(** One pass of the loop body is exact under scaling by [2^j]: the sample
    is non-negative, its latency is a multiple of 3, the scaled sample
    fits ([int] for the rate, 53 bits for the latency mean), the integer
    mean does not wrap, and every [double] the pass computes is
    [roomy]. *)
Definition pass_exact (j : Z) (stable_offset : spec_float) (st : Stability)
    (ips lat : Z) : bool :=
  let infer_per_sec' := infer_per_sec st ++ [ips] in
  let latencies' := latencies st ++ [lat] in
  let third := F64.div (F64.of_Z ips) (F64.of_Z recent_k) in
  let avg_ips1 := F64.add (avg_ips st) third in
  let avg_latency1 := avg_latency st + lat / recent_k in
  let size := Z.of_nat (length infer_per_sec') in
  let idx := Z.to_nat (size - recent_k) in
  let old_ips := nth (idx - 1) infer_per_sec' 0 in
  let old_lat := nth (idx - 1) latencies' 0 in
  let old_third := F64.div (F64.of_Z old_ips) (F64.of_Z recent_k) in
  let avg_ips2 :=
    if size >? recent_k then F64.sub avg_ips1 old_third else avg_ips1 in
  let avg_latency2 :=
    if size >? recent_k then avg_latency1 - old_lat / recent_k
    else avg_latency1 in
  let low := F64.sub (F64.of_Z 1) stable_offset in
  let high := F64.add (F64.of_Z 1) stable_offset in
  (0 <=? ips) && (2 ^ j * ips <? 2 ^ 31)
  && (0 <=? lat) && (lat mod 3 =? 0) && (2 ^ j * lat <? 2 ^ 53)
  && (0 <=? avg_latency st) && (2 ^ j * avg_latency1 <? 2 ^ 53)
  && (0 <=? avg_latency2)
  && roomy j (avg_ips st) && roomy j (F64.of_Z ips) && roomy j third
  && roomy j avg_ips1 && roomy j (F64.of_Z old_ips) && roomy j old_third
  && roomy j avg_ips2 && roomy 0 low && roomy 0 high
  && roomy j (F64.mul avg_ips2 low) && roomy j (F64.mul avg_ips2 high)
  && roomy j (F64.of_Z avg_latency2)
  && roomy j (F64.mul (F64.of_Z avg_latency2) low)
  && roomy j (F64.mul (F64.of_Z avg_latency2) high).

(** Every pass of the detector over [samples], from state [st] on, is
    exact under scaling by [2^j]. *)
Fixpoint run_exact (j : Z) (stable_offset : spec_float) (st : Stability)
    (samples : list (Z * Z)) : bool :=
  match samples with
  | [] => true
  | sample :: rest =>
      pass_exact j stable_offset st (fst sample) (snd sample)
      && run_exact j stable_offset
           (record_measurement stable_offset st (fst sample) (snd sample))
           rest
  end.

(** The state of the scaled run that corresponds to a state of the
    run. *)
Definition scale_state (j : Z) (st : Stability) : Stability :=
  {| infer_per_sec := map (Z.mul (2 ^ j)) (infer_per_sec st);
     latencies := map (Z.mul (2 ^ j)) (latencies st);
     stable := stable st;
     avg_ips := scale2 j (avg_ips st);
     avg_latency := 2 ^ j * avg_latency st |}.

(** The samples already taken are non-negative, their latencies multiples
    of 3, and their scaled values fit 53 bits. *)
Definition samples_fit (j : Z) (st : Stability) : Prop :=
  Forall (fun x => 0 <= x /\ 2 ^ j * x < 2 ^ 53) (infer_per_sec st)
  /\ Forall (fun x => 0 <= x /\ x mod 3 = 0 /\ 2 ^ j * x < 2 ^ 53)
       (latencies st).

(** ** The controller *)

(** Every thread of a synchronous manager was launched with its position
    as index. *)
Definition well_indexed (threads : list Worker) : Prop :=
  forall (i : nat) (w : Worker),
    threads !! i = Some w -> w = SyncWorker (Z.of_nat i).

(** The ids still in the map are below the next id to be handed out. *)
Definition fresh_ids (s : AsyncState) : Prop :=
  forall id : Z,
    is_Some (requests_start_time s !! id) -> id < next_request_id s.

(** ** Server counters *)



(** The entry of (model, version, batch size). *)
Definition lookup_stats {C} (ms : gmap string (ModelStatus C))
    (model_name : string) (model_version batch : Z)
    : option InferRequestStats :=
  status ← ms !! model_name;
  vs ← version_status status !! model_version;
  infer_stats vs !! batch.

(** The entry of (version, batch size) in a snapshot of one model. *)
Definition snapshot_stats {C} (status : ModelStatus C)
    (model_version batch : Z) : option InferRequestStats :=
  vs ← version_status status !! model_version;
  infer_stats vs !! batch.


(** ** Concrete runs *)

Module Scenario.

Definition at_ns (sec nsec : Z) : timespec :=
  {| tv_sec := sec; tv_nsec := nsec |}.

Definition blank : PerfStatus :=
  {| concurrency := 0; batch_size := 0; server_request_count := 0;
     server_cumm_time_ns := 0; server_queue_time_ns := 0;
     server_compute_time_ns := 0; client_request_count := 0;
     client_duration_ns := 0; client_min_latency_ns := 0;
     client_max_latency_ns := 0; client_avg_latency_ns := 0;
     std_us := 0; client_avg_request_time_ns := 0;
     client_avg_send_time_ns := 0; client_avg_receive_time_ns := 0;
     client_infer_per_sec := 0 |}.

Definition stats (cnt cumm_ns queue_ns compute_ns : Z)
    : InferRequestStats :=
  {| success := {| count := cnt; total_time_ns := cumm_ns |};
     failed := StatDuration_default;
     compute := {| count := cnt; total_time_ns := compute_ns |};
     queue := {| count := cnt; total_time_ns := queue_ns |} |}.

(** A model status with one version that has statistics for one batch
    size. *)
Definition status_of (version batch : Z) (s : InferRequestStats)
    : ModelStatus unit :=
  {| config := Some tt;
     version_status :=
       {[ version := {| ready_state := MODEL_READY;
                        model_execution_count := count (success s);
                        model_inference_count := count (success s) * batch;
                        infer_stats := {[ batch := s ]} |} ]} |}.

Definition cell (completed request_ns send_ns receive_ns : Z) : Stat :=
  {| completed_request_count := completed;
     cumulative_total_request_time_ns := request_ns;
     cumulative_send_time_ns := send_ns;
     cumulative_receive_time_ns := receive_ns |}.

(** *** A five-second window, batch size 1 *)

Definition five_seconds : SamplerConfig :=
  {| batch_size_ := 1; measurement_window_ms_ := 5000;
     model_version_ := 1 |}.

(** One worker, five requests of 1.2 s each, back to back from
    t = 100 s. *)
Definition slow_requests : list Timestamp :=
  [(at_ns 100 0, at_ns 101 200000000);
   (at_ns 101 200000000, at_ns 102 400000000);
   (at_ns 102 400000000, at_ns 103 600000000);
   (at_ns 103 600000000, at_ns 104 800000000);
   (at_ns 104 800000000, at_ns 106 0)].

Definition slow_summary : Error * PerfStatus :=
  Summarize five_seconds blank slow_requests
    (status_of 1 1 (stats 10 10000 2000 7000))
    (status_of 1 1 (stats 15 16000 3000 12000))
    (cell 10 12000000000 1000 1000) (cell 15 18000000000 1500 1500).

(** *** A ten-second window with latencies of 1 s and 5 s *)

Definition ten_seconds : SamplerConfig :=
  {| batch_size_ := 1; measurement_window_ms_ := 10000;
     model_version_ := 1 |}.

Definition one_and_five : list Timestamp :=
  [(at_ns 100 0, at_ns 101 0); (at_ns 101 0, at_ns 106 0)].

Definition one_and_five_summary : Error * PerfStatus :=
  Summarize ten_seconds blank one_and_five
    (status_of 1 1 (stats 10 10000 2000 7000))
    (status_of 1 1 (stats 12 16000 3000 12000))
    (cell 10 12000000000 1000 1000) (cell 12 18000000000 1500 1500).

(** *** A window during which no request completes *)

(** Two workers whose requests take between 5 s and 10 s.  The drained
    vector holds the two requests that ended before the first snapshot
    of the window; during the sleep of 6 s both workers wait for their
    next answer, so neither the context statistics nor the server
    counters move. *)
Definition stalled_requests : list Timestamp :=
  [(at_ns 90 0, at_ns 95 0); (at_ns 90 500000000, at_ns 100 0)].

Definition stalled_cells : list Stat :=
  [cell 8 60000000000 160000 240000; cell 7 58000000000 140000 210000].

Definition stalled_status : ModelStatus unit :=
  status_of 1 1 (stats 15 118000000000 3000000 110000000000).

(** [summary] still holds the averages of the previous window. *)
Definition previous : PerfStatus :=
  {| concurrency := 2; batch_size := 1; server_request_count := 4;
     server_cumm_time_ns := 30000000000;
     server_queue_time_ns := 1000000;
     server_compute_time_ns := 29000000000; client_request_count := 3;
     client_duration_ns := 5000000000;
     client_min_latency_ns := 5000000000;
     client_max_latency_ns := 9500000000;
     client_avg_latency_ns := 7500000000; std_us := 1870828;
     client_avg_request_time_ns := 7400000000;
     client_avg_send_time_ns := 20000;
     client_avg_receive_time_ns := 30000;
     client_infer_per_sec := 0 |}.

Definition idle_summary : Error * PerfStatus :=
  Summarize five_seconds previous stalled_requests
    stalled_status stalled_status
    (GetAccumulatedContextStat stalled_cells)
    (GetAccumulatedContextStat stalled_cells).

(** *** Version lookup *)

(** The start snapshot has version 1, the end snapshot only version 2. *)
Definition start_v1 : ModelStatus unit :=
  status_of 1 1 (stats 15 16000 3000 12000).
Definition end_v2 : ModelStatus unit :=
  status_of 2 1 (stats 3 3000 1000 2000).

Definition version_gone : Error * PerfStatus :=
  summarize_server five_seconds blank start_v1 end_v2.

(** *** A model re-added between two snapshots *)

Definition repository (model_name : string) : string + unit := inr tt.

Definition served (n : nat) (ms : gmap string (ModelStatus unit))
    : gmap string (ModelStatus unit) :=
  Nat.iter n (UpdateSuccessInferStats "m" 1 1 1 1000 800 600) ms.

Definition before_readd : gmap string (ModelStatus unit) :=
  served 5 (snd (InitForModel repository "m" ∅)).



(** *** Three windows for the stability detector *)

(** Average latencies of about 1 ms at a steady 1000 inferences per
    second, and the same run with every sample multiplied by 3. *)
Definition near_band : list (Z * Z) :=
  [(1000, 1000001); (1000, 1000001); (1000, 1157895)].

(** Rates of 30, 34 and 36 inferences per second at a constant latency of
    3 ms: the first rate is exactly 90% of the mean of the three. *)
Definition band_edge : list (Z * Z) :=
  [(30, 3000000); (34, 3000000); (36, 3000000)].

(** *** A run of the fixed-concurrency mode over such a window *)

Definition two_workers : Manager :=
  {| sampler := five_seconds; stable_offset_ := ten_percent;
     max_measurement_count_ := 1; async_ := false; threads_ := [];
     pause_index_ := 0 |}.

Definition stalled_window : Window unit :=
  {| threads_ok := true;
     start_status := inr stalled_status;
     stat_cells_before := stalled_cells;
     stat_cells_after := stalled_cells;
     end_status := inr stalled_status;
     drained := stalled_requests;
     early_exit := false |}.

End Scenario.

Module Witness.

(** A one-second window holding three requests of 250 ms. *)
Definition one_second : SamplerConfig :=
  {| batch_size_ := 1; measurement_window_ms_ := 1000;
     model_version_ := -1 |}.

Definition quick_requests : list Timestamp :=
  [(Scenario.at_ns 100 0, Scenario.at_ns 100 250000000);
   (Scenario.at_ns 100 250000000, Scenario.at_ns 100 500000000);
   (Scenario.at_ns 100 500000000, Scenario.at_ns 100 750000000)].

(** A window of 300 ms, and one worker that answers nine requests of
    30 ms each, back to back from t = 100 s. *)
Definition short_window : SamplerConfig :=
  {| batch_size_ := 1; measurement_window_ms_ := 300;
     model_version_ := 1 |}.

Definition short_requests : list Timestamp :=
  map (fun k : Z =>
         (Scenario.at_ns 100 (k * 30000000),
          Scenario.at_ns 100 ((k + 1) * 30000000)))
      [0; 1; 2; 3; 4; 5; 6; 7; 8].

(** A server that has answered 15 requests of model "m", version 1,
    batch size 1. *)
Definition tracked : gmap string (ModelStatus unit) :=
  {[ "m" := Scenario.stalled_status ]}.

Definition later_status : ModelStatus unit :=
  Scenario.status_of 1 1
    (Scenario.stats 16 126000000000 3200000 117000000000).

(** A synchronous manager with two threads, and an asynchronous one with
    its worker. *)
Definition sync_manager : Manager :=
  {| sampler := Scenario.five_seconds; stable_offset_ := ten_percent;
     max_measurement_count_ := 10; async_ := false;
     threads_ := [SyncWorker 0; SyncWorker 1]; pause_index_ := 2 |}.

Definition async_manager : Manager :=
  {| sampler := Scenario.five_seconds; stable_offset_ := ten_percent;
     max_measurement_count_ := 10; async_ := true;
     threads_ := [AsyncWorker]; pause_index_ := 4 |}.

(** Four windows at about 1000 inferences per second and 3 ms. *)
Definition steady_run : list (Z * Z) :=
  [(1000, 3000000); (1020, 3000300); (990, 2999700); (1005, 3000003)].

End Witness.

(** ** Proof automation *)

Ltac split_andb :=
  repeat match goal with
         | H : (_ && _)%bool = true |- _ =>
             let H1 := fresh H in
             let H2 := fresh H in
             apply andb_true_iff in H; destruct H as [H1 H2]
         end.

Ltac bool_to_Z :=
  repeat match goal with
         | H : (_ <=? _) = true |- _ => apply Z.leb_le in H
         | H : (_ <? _) = true |- _ => apply Z.ltb_lt in H
         | H : (_ =? _) = true |- _ => apply Z.eqb_eq in H
         end.

(** * Vocabulary for the rest of the two files *)

(** ** Updates of the server statistics *)

(** The statistics of a batch size after a failed request, from what
    was there. *)
Definition failed_stats (request_duration_ns : Z)
    (o : option InferRequestStats) : InferRequestStats :=
  match o with
  | None => new_failed_stats request_duration_ns
  | Some stats => add_failed_stats stats request_duration_ns
  end.

(** The statistics of a batch size after a successful request. *)
Definition success_stats (request_duration_ns run_duration_ns
    compute_duration_ns : Z) (o : option InferRequestStats)
    : InferRequestStats :=
  match o with
  | None =>
      new_infer_stats request_duration_ns run_duration_ns
        compute_duration_ns
  | Some stats =>
      add_infer_stats stats request_duration_ns run_duration_ns
        compute_duration_ns
  end.

(** The status of a version after a failed request. *)
Definition failed_version (batch_size request_duration_ns : Z)
    (o : option ModelVersionStatus) : ModelVersionStatus :=
  let vs := default ModelVersionStatus_default o in
  {| ready_state := ready_state vs;
     model_execution_count := model_execution_count vs;
     model_inference_count := model_inference_count vs;
     infer_stats :=
       partial_alter (fun s => Some (failed_stats request_duration_ns s))
         (u32 batch_size) (infer_stats vs) |}.

(** The status of a version after a successful request. *)
Definition success_version (batch_size execution_cnt request_duration_ns
    run_duration_ns compute_duration_ns : Z)
    (o : option ModelVersionStatus) : ModelVersionStatus :=
  {| ready_state := ready_state (default ModelVersionStatus_default o);
     model_execution_count :=
       match o with
       | None => execution_cnt
       | Some vs => u64 (model_execution_count vs + execution_cnt)
       end;
     model_inference_count :=
       match o with
       | None => batch_size
       | Some vs => u64 (model_inference_count vs + batch_size)
       end;
     infer_stats :=
       partial_alter
         (fun s => Some (success_stats request_duration_ns run_duration_ns
                           compute_duration_ns s))
         (u32 batch_size)
         (infer_stats (default ModelVersionStatus_default o)) |}.

(** A status with one version changed. *)
Definition with_version {C} (model_version : Z)
    (f : option ModelVersionStatus -> ModelVersionStatus)
    (status : ModelStatus C) : ModelStatus C :=
  {| config := config status;
     version_status :=
       partial_alter (fun o => Some (f o)) model_version
         (version_status status) |}.

(** The inferences the per-batch statistics of a version ([infer_stats])
    account for: the sum over the batch sizes of batch size times
    successful requests. *)
Definition accounted_inferences (stats : gmap Z InferRequestStats) : Z :=
  map_fold (fun (batch : Z) (s : InferRequestStats) (acc : Z) =>
              acc + batch * count (success s))
    0 stats.

(** The calls a server makes on its status manager. *)
Inductive ServerCall :=
  | CallInitForModel (model_name : string)
  | CallUpdateSuccess (model_name : string)
      (model_version batch_size execution_cnt request_duration_ns
       run_duration_ns compute_duration_ns : Z)
  | CallUpdateFailed (model_name : string)
      (model_version batch_size request_duration_ns : Z).

Definition call {C} (GetModelConfig : string -> string + C)
    (ms : gmap string (ModelStatus C)) (c : ServerCall)
    : gmap string (ModelStatus C) :=
  match c with
  | CallInitForModel model_name =>
      snd (InitForModel GetModelConfig model_name ms)
  | CallUpdateSuccess model_name v b e request_ns run_ns compute_ns =>
      UpdateSuccessInferStats model_name v b e request_ns run_ns
        compute_ns ms
  | CallUpdateFailed model_name v b request_ns =>
      UpdateFailedInferStats model_name v b request_ns ms
  end.

(** The model statuses of a manager after a sequence of calls. *)
Definition calls {C} (GetModelConfig : string -> string + C)
    (cs : list ServerCall) : gmap string (ModelStatus C) :=
  fold_left (call GetModelConfig) cs ∅.

(** The batch sizes of the calls fit the 32-bit key of the statistics. *)
Definition batch_fits (c : ServerCall) : bool :=
  match c with
  | CallUpdateSuccess _ _ b _ _ _ _ => (0 <=? b) && (b <? 2 ^ 32)
  | _ => true
  end.

(** A call that starts tracking [model_name]. *)
Definition initialises {C} (GetModelConfig : string -> string + C)
    (model_name : string) (c : ServerCall) : bool :=
  match c with
  | CallInitForModel n =>
      bool_decide (n = model_name)
      && match GetModelConfig n with inr _ => true | inl _ => false end
  | _ => false
  end.

(** ** Timers of the server *)

(** The status after the destructors of a sequence of timers, each with
    the clock reading at its end. *)
Definition timers_done {C}
    (timers : list (ServerStatTimerScoped.t * timespec))
    (server_status_ : ServerStatus C) : ServerStatus C :=
  fold_left
    (fun st timer =>
       ServerStatTimerScoped.destroy (fst timer) (snd timer) st)
    timers server_status_.

Definition Kind_eqb (a b : Kind) : bool :=
  match a, b with
  | STATUS, STATUS | PROFILE, PROFILE | HEALTH, HEALTH => true
  | _, _ => false
  end.

Definition stats_of {C} (kind : Kind) (st : ServerStatus C) : StatDuration :=
  match kind with
  | STATUS => status_stats st
  | PROFILE => profile_stats st
  | HEALTH => health_stats st
  end.

(** The enabled timers of a kind. *)
Definition timers_of (kind : Kind)
    (timers : list (ServerStatTimerScoped.t * timespec))
    : list (ServerStatTimerScoped.t * timespec) :=
  List.filter
    (fun timer =>
       ServerStatTimerScoped.enabled_ (fst timer)
       && Kind_eqb (ServerStatTimerScoped.kind_ (fst timer)) kind)
    timers.

(** ** The manager over several steps *)

(** The manager after [Step] was called with each of the targets. *)
Definition stepped (m : Manager) (targets : list Z) : Manager :=
  fold_left adjust_concurrency targets m.

(** The number of measurements a call of [Step] makes at most. *)
Definition measurement_bound (m : Manager) : nat :=
  Z.to_nat (Z.max 1 (max_measurement_count_ m)).

(** ** Timers of a request *)

(** A timer started and stopped over each of the intervals in turn. *)
Definition timed (intervals : list (timespec * timespec))
    (timer : ModelInferStats.ScopedTimer.t) : ModelInferStats.ScopedTimer.t :=
  fold_left
    (fun t interval =>
       ModelInferStats.ScopedTimer.Stop (snd interval)
         (ModelInferStats.ScopedTimer.Start (fst interval) t))
    intervals timer.

(** The time a timer adds for an interval: nothing when the interval
    starts at a clock reading with [tv_sec = 0]. *)
Definition counted_ns (interval : timespec * timespec) : Z :=
  if tv_sec (fst interval) =? 0 then 0
  else elapsed_ns (fst interval) (snd interval).

(** ** Requests between two snapshots *)

(** A call that records a successful request in the entry of
    (model, version, batch size). *)
Definition counts_for (model_name : string) (model_version batch : Z)
    (c : ServerCall) : bool :=
  match c with
  | CallUpdateSuccess n v b _ _ _ _ =>
      bool_decide (n = model_name) && (v =? model_version)
      && (u32 b =? batch) && negb (b =? 0)
  | _ => false
  end.

(** The success count of an entry, 0 when there is none. *)
Definition success_count {C} (ms : gmap string (ModelStatus C))
    (model_name : string) (model_version batch : Z) : Z :=
  from_option (fun s => count (success s)) 0
    (lookup_stats ms model_name model_version batch).

(** ** More concrete runs *)

Module Example.

(** A session of a server: model "m" is loaded, answers a request of
    batch size 4, fails one, answers another of batch size 4 and one of
    batch size 8. *)
Definition session : list ServerCall :=
  [CallInitForModel "m";
   CallUpdateSuccess "m" 1 4 1 8000 7000 6000;
   CallUpdateFailed "m" 1 4 300;
   CallUpdateSuccess "m" 1 4 1 9000 8000 6500;
   CallUpdateSuccess "m" 1 8 2 12000 11000 9000].

Definition session_status : ModelStatus unit :=
  Eval vm_compute in
    default ModelStatus_default (calls Scenario.repository session !! "m").

Definition session_version : ModelVersionStatus :=
  Eval vm_compute in
    default ModelVersionStatus_default
      (version_status session_status !! 1).

Definition session_entry : InferRequestStats :=
  Eval vm_compute in
    default (new_failed_stats 0)
      (lookup_stats (calls Scenario.repository session) "m" 1 4).

(** Between two snapshots of the server that has answered 15 requests:
    one more request answered and one failed. *)
Definition between : list ServerCall :=
  [CallUpdateSuccess "m" 1 1 1 8000000000 7200000000 7000000000;
   CallUpdateFailed "m" 1 1 100].

Definition after_status : ModelStatus unit :=
  Eval vm_compute in
    default ModelStatus_default
      (fold_left (call Scenario.repository) between Witness.tracked !! "m").

(** The server around those calls: its status before and after them, a
    monitor that reports version 1 of every model as available, and a
    client that measures the latest version. *)
Definition the_name (config : unit) : string := "m".

Definition server_before : ServerStatus unit :=
  {| server_id := "inference:0"; version := "0.11.0";
     server_ready_state := 1; uptime_ns := 1000;
     model_status := Witness.tracked;
     status_stats := {| count := 3; total_time_ns := 900 |};
     profile_stats := StatDuration_default;
     health_stats := StatDuration_default |}.

Definition server_after : ServerStatus unit :=
  {| server_id := "inference:0"; version := "0.11.0";
     server_ready_state := 1; uptime_ns := 6000;
     model_status :=
       fold_left (call Scenario.repository) between Witness.tracked;
     status_stats := {| count := 4; total_time_ns := 1200 |};
     profile_stats := StatDuration_default;
     health_stats := StatDuration_default |}.

Definition version_1_available : Monitor :=
  fun model_name => {[ 1 := kAvailable ]}.

Definition latest_version : SamplerConfig :=
  {| batch_size_ := 1; measurement_window_ms_ := 5000;
     model_version_ := -1 |}.

(** A successful request of batch size 1 for version 1 of model "m",
    timed from 100 s to 100.000005 s. *)
Definition request : ModelInferStats.t :=
  {| ModelInferStats.model_name_ := "m";
     ModelInferStats.requested_model_version_ := -1;
     ModelInferStats.model_servable_ := Some 1;
     ModelInferStats.batch_size_ := 1;
     ModelInferStats.execution_count_ := 1;
     ModelInferStats.failed_ := false;
     ModelInferStats.request_duration_ns_ := 0;
     ModelInferStats.run_duration_ns_ := 4000;
     ModelInferStats.compute_duration_ns_ := 3000 |}.

(** A window of one second with three requests of 250 ms, during which
    the server answers one request. *)
Definition quick_window : Window unit :=
  {| threads_ok := true;
     start_status := inr Scenario.stalled_status;
     stat_cells_before := [Scenario.cell 15 18000000000 1500 1500];
     stat_cells_after := [Scenario.cell 18 18750000000 1800 1800];
     end_status := inr Witness.later_status;
     drained := Witness.quick_requests;
     early_exit := false |}.

(** A new synchronous manager that measures once per step. *)
Definition single_shot : Manager :=
  Create 1 ten_percent 1000 1 false (-1).

(** The outcome of a step over a window in which nothing moves. *)
Definition stalled_out : PerfStatus :=
  Eval vm_compute in
    match snd (Step Scenario.two_workers Scenario.blank 2
                 [Scenario.stalled_window]) with
    | Some (_, out, _) => out
    | None => Scenario.blank
    end.

(** The levels reported by a search from 1 to 2 under a threshold of
    300 ms, and by a search with the threshold 0. *)
Definition levels : list PerfStatus :=
  Eval vm_compute in
    match search_concurrency single_shot Scenario.blank 1 2 300 Success []
            [[quick_window]; [quick_window]] with
    | SearchDone _ summary => summary
    | _ => []
    end.

Definition second_level : PerfStatus :=
  Eval vm_compute in default Scenario.blank (levels !! 1%nat).

Definition first_only : list PerfStatus :=
  Eval vm_compute in
    match search_concurrency single_shot Scenario.blank 1 0 0 Success []
            [[quick_window]; [quick_window]] with
    | SearchDone _ summary => summary
    | _ => []
    end.

(** The inputs of a model: 64 and 16 bytes. *)
Definition two_inputs : list (string * Z) := [("INPUT0", 64); ("INPUT1", 16)].

(** A clock that reads 100 s plus the request id in nanoseconds, and a
    worker with nothing in flight. *)
Definition clock (id : Z) : timespec := Scenario.at_ns 100 id.

Definition idle : AsyncState :=
  {| requests_start_time := ∅; next_request_id := 0 |}.

End Example.
(** * Properties *)

(** ** Machine-integer facts *)

Lemma u64_small (x : Z) : 0 <= x < 2 ^ 64 -> u64 x = x.
Proof. intros H. unfold u64. apply Z.mod_small. exact H. Qed.

Lemma u64_range (x : Z) : 0 <= u64 x < 2 ^ 64.
Proof. unfold u64. apply Z.mod_pos_bound. lia. Qed.

Lemma timespec_ns_range (t : timespec) : 0 <= timespec_ns t < 2 ^ 64.
Proof. apply u64_range. Qed.

(** ** Window selection *)

Lemma minimum_of_snoc (x y : Z) (l : list Z) :
  minimum_of x l -> minimum_of (Z.min x y) (l ++ [y]).
Proof.
  intros [Hin Hall]. split.
  - apply in_or_app. destruct (Z.min_spec x y) as [[_ ->] | [_ ->]].
    + left; exact Hin.
    + right; left; reflexivity.
  - apply Forall_app. split.
    + eapply Forall_impl; [exact Hall |]. simpl. intros; lia.
    + constructor; [lia | constructor].
Qed.

Lemma maximum_of_snoc (x y : Z) (l : list Z) :
  maximum_of x l -> maximum_of (Z.max x y) (l ++ [y]).
Proof.
  intros [Hin Hall]. split.
  - apply in_or_app. destruct (Z.max_spec x y) as [[_ ->] | [_ ->]].
    + right; left; reflexivity.
    + left; exact Hin.
  - apply Forall_app. split.
    + eapply Forall_impl; [exact Hall |]. simpl. intros; lia.
    + constructor; [lia | constructor].
Qed.

Lemma scan_timestamps_snoc (l : list Timestamp) (t : Timestamp) :
  scan_timestamps (l ++ [t]) = scan_step (scan_timestamps l) t.
Proof. unfold scan_timestamps. rewrite fold_left_app. reflexivity. Qed.

Lemma scan_timestamps_extrema (l : list Timestamp) :
  Forall clock_reading l -> l <> [] ->
  minimum_of (fst (scan_timestamps l)) (map start_ns l)
  /\ maximum_of (snd (scan_timestamps l)) (map end_ns l).
Proof.
  induction l as [| t l IH] using rev_ind; [congruence |].
  intros Hall _. apply Forall_app in Hall as [Hl Ht].
  apply Forall_inv in Ht. destruct Ht as [[Hs0 _] _].
  rewrite scan_timestamps_snoc, !map_app. simpl map.
  destruct l as [| t' l'].
  - cbn. rewrite !orb_true_r. fold (start_ns t) (end_ns t).
    split; (split; [left; reflexivity | repeat constructor; lia]).
  - destruct IH as [Hmin Hmax]; [exact Hl | congruence |].
    destruct (scan_timestamps (t' :: l')) as [f la]. simpl fst in *.
    simpl snd in *. unfold scan_step. fold (start_ns t) (end_ns t).
    pose proof (timespec_ns_range (snd t)) as He. fold (end_ns t) in He.
    assert (Hf : 0 < f).
    { destruct Hmin as [Hin _]. apply in_map_iff in Hin as [x [<- Hx]].
      rewrite List.Forall_forall in Hl. apply Hl in Hx. apply Hx. }
    assert (Hla : 0 <= la).
    { destruct Hmax as [Hin _]. apply in_map_iff in Hin as [x [<- Hx]].
      apply timespec_ns_range. }
    simpl fst. simpl snd. split.
    + replace (if (f >? start_ns t) || (f =? 0) then start_ns t else f)
        with (Z.min f (start_ns t)).
      * apply minimum_of_snoc; exact Hmin.
      * destruct (Z.gtb_spec f (start_ns t)), (Z.eqb_spec f 0);
          simpl; lia.
    + replace (if (la <? end_ns t) || (la =? 0) then end_ns t else la)
        with (Z.max la (end_ns t)).
      * apply maximum_of_snoc; exact Hmax.
      * destruct (Z.ltb_spec la (end_ns t)), (Z.eqb_spec la 0);
          simpl; lia.
Qed.

Lemma window_offset_spec (cfg : SamplerConfig) (t0 tN : Z) :
  0 < measurement_window_ms_ cfg < 2 ^ 31 ->
  0 <= t0 < 2 ^ 63 -> 0 <= tN < 2 ^ 63 ->
  measurement_window_ns cfg = measurement_window_ms_ cfg * 1000000
  /\ window_offset cfg t0 tN
     = Z.max 0 ((tN - (t0 + measurement_window_ms_ cfg * 1000000)) / 2).
Proof.
  intros HW Ht0 HtN.
  assert (HWns : measurement_window_ns cfg
                 = measurement_window_ms_ cfg * 1000000).
  { unfold measurement_window_ns. rewrite u64_small; lia. }
  split; [exact HWns |].
  unfold window_offset. rewrite HWns.
  set (W := measurement_window_ms_ cfg * 1000000) in *.
  rewrite (u64_small (t0 + W)) by lia.
  destruct (Z.gtb_spec (t0 + W) tN) as [Hgt | Hle].
  - assert ((tN - (t0 + W)) / 2 < 0) by (apply Z.div_lt_upper_bound; lia).
    lia.
  - rewrite u64_small by lia.
    assert (0 <= (tN - (t0 + W)) / 2) by (apply Z.div_pos; lia). lia.
Qed.

Lemma tally_timestamps_counted (cs ce : Z) (l : list Timestamp) :
  tally_timestamps cs ce l
  = fold_left tally_request (map request_latency (counted cs ce l))
      tally_init.
Proof.
  unfold tally_timestamps. generalize tally_init.
  induction l as [| t l IH]; intros acc; [reflexivity |].
  simpl. unfold counted in *. simpl. unfold tally_step at 2.
  destruct (in_window cs ce t); simpl; apply IH.
Qed.

Lemma tally_count (lats : list Z) (acc : Tally) :
  0 <= valid_timestamp_count acc ->
  valid_timestamp_count acc + Z.of_nat (length lats) < 2 ^ 64 ->
  valid_timestamp_count (fold_left tally_request lats acc)
  = valid_timestamp_count acc + Z.of_nat (length lats).
Proof.
  revert acc. induction lats as [| x lats IH]; intros acc H0 Hlt.
  - simpl. lia.
  - simpl fold_left. rewrite IH.
    + simpl. rewrite u64_small; simpl length in *; lia.
    + simpl. apply u64_range.
    + simpl. rewrite u64_small; simpl length in *; lia.
Qed.

Lemma counted_length (cs ce : Z) (l : list Timestamp) :
  (length (counted cs ce l) <= length l)%nat.
Proof. apply List.filter_length_le. Qed.

Lemma valid_timestamp_count_counted (cs ce : Z) (l : list Timestamp) :
  Z.of_nat (length l) < 2 ^ 64 ->
  valid_timestamp_count (tally_timestamps cs ce l)
  = Z.of_nat (length (counted cs ce l)).
Proof.
  intros Hlen. rewrite tally_timestamps_counted, tally_count.
  - simpl. rewrite length_map. reflexivity.
  - simpl; lia.
  - simpl. rewrite length_map. pose proof (counted_length cs ce l). lia.
Qed.

Lemma in_window_spec (cs ce : Z) (t : Timestamp) :
  in_window cs ce t = true
  <-> start_ns t <= end_ns t /\ cs <= end_ns t <= ce.
Proof.
  unfold in_window, start_ns, end_ns.
  rewrite !andb_true_iff, Z.leb_le, Z.geb_le, Z.leb_le. lia.
Qed.

Lemma same_client_fields_refl (a : PerfStatus) : same_client_fields a a.
Proof. repeat split. Qed.

Lemma summarize_server_frame {C} (cfg : SamplerConfig) (s : PerfStatus)
    (start_status end_status : ModelStatus C) :
  same_client_fields (snd (summarize_server cfg s start_status end_status)) s.
Proof.
  unfold summarize_server.
  destruct (version_status end_status !! _) as [vend |];
    [| apply same_client_fields_refl].
  destruct (infer_stats vend !! _) as [e |];
    [| apply same_client_fields_refl].
  destruct (start_counters _ _ _) as [[[a b] c] d]. repeat split.
Qed.

(** What [Summarize] returns when the window holds a valid request. *)
Lemma Summarize_unfold {C} (cfg : SamplerConfig) (summary : PerfStatus)
    (l : list Timestamp) (start_status end_status : ModelStatus C)
    (start_stat end_stat : Stat) :
  let cs := fst (client_window cfg l) in
  let ce := snd (client_window cfg l) in
  let t := tally_timestamps cs ce l in
  Summarize cfg summary l start_status end_status start_stat end_stat
  = if valid_timestamp_count t =? 0 then (Failure no_valid_requests, summary)
    else summarize_server cfg
           (summarize_client cfg summary (u64 (ce - cs)) t start_stat
              end_stat)
           start_status end_status.
Proof.
  unfold Summarize. destruct (client_window cfg l) as [cs ce]. reflexivity.
Qed.

(** [C1] Window selection of the Sampler.  For a drained snapshot of
    clock readings (non-empty, start times positive, all times below
    2^63 ns) and a window of [W] nanoseconds, [Summarize] takes [t0] = the
    minimum start time and [tN] = the maximum end time, places the window
    at [offset = max(0, (tN - (t0 + W)) / 2)], [client_start = t0 + offset],
    [client_end = client_start + W], and counts a timestamp [(s, e)]
    exactly when [s <= e] and [client_start <= e <= client_end]: when no
    timestamp is counted it returns the error for an empty window and
    leaves the summary as it was, and otherwise the summary it returns
    holds the number of counted timestamps and the duration [W], and the
    error it returns is not the one for an empty window. *)
Theorem sampler_window_selection {C} (cfg : SamplerConfig)
    (l : list Timestamp) :
  l <> [] ->
  Forall clock_reading l ->
  Z.of_nat (length l) < 2 ^ 64 ->
  0 < measurement_window_ms_ cfg < 2 ^ 31 ->
  exists t0 tN : Z,
    minimum_of t0 (map start_ns l)
    /\ maximum_of tN (map end_ns l)
    /\ let W := measurement_window_ms_ cfg * 1000000 in
       let offset := Z.max 0 ((tN - (t0 + W)) / 2) in
       let client_start := t0 + offset in
       let client_end := client_start + W in
       client_window cfg l = (client_start, client_end)
       /\ (forall t : Timestamp,
             in_window client_start client_end t = true
             <-> start_ns t <= end_ns t
                 /\ client_start <= end_ns t <= client_end)
       /\ valid_timestamp_count (tally_timestamps client_start client_end l)
          = Z.of_nat (length (counted client_start client_end l))
       /\ forall (summary : PerfStatus)
            (start_status end_status : ModelStatus C)
            (start_stat end_stat : Stat),
            let result :=
              Summarize cfg summary l start_status end_status start_stat
                end_stat in
            (counted client_start client_end l = [] ->
             result = (Failure no_valid_requests, summary))
            /\ (counted client_start client_end l <> [] ->
                fst result <> Failure no_valid_requests
                /\ client_request_count (snd result)
                   = Z.of_nat (length (counted client_start client_end l))
                /\ client_duration_ns (snd result) = W).
Proof.
  intros Hne Hall Hlen HW.
  destruct (scan_timestamps_extrema l Hall Hne) as [Hmin Hmax].
  destruct (scan_timestamps l) as [t0 tN] eqn:Hscan. simpl in Hmin, Hmax.
  exists t0, tN. split; [exact Hmin |]. split; [exact Hmax |].
  assert (Ht0 : 0 < t0 < 2 ^ 63).
  { destruct Hmin as [Hin _]. apply in_map_iff in Hin as [x [<- Hx]].
    rewrite List.Forall_forall in Hall. apply Hall in Hx. apply Hx. }
  assert (HtN : 0 <= tN < 2 ^ 63).
  { destruct Hmax as [Hin _]. apply in_map_iff in Hin as [x [<- Hx]].
    rewrite List.Forall_forall in Hall. apply Hall in Hx.
    destruct Hx as [_ Hx]. pose proof (timespec_ns_range (snd x)).
    unfold end_ns in *. lia. }
  destruct (window_offset_spec cfg t0 tN HW) as [HWns Hoff]; [lia | lia |].
  cbv zeta.
  set (W := measurement_window_ms_ cfg * 1000000) in *.
  set (offset := Z.max 0 ((tN - (t0 + W)) / 2)) in *.
  assert (Hoff_range : 0 <= offset < 2 ^ 62).
  { unfold offset.
    assert ((tN - (t0 + W)) / 2 < 2 ^ 62)
      by (apply Z.div_lt_upper_bound; lia).
    lia. }
  assert (Hwin : client_window cfg l = (t0 + offset, t0 + offset + W)).
  { unfold client_window. rewrite Hscan, Hoff, HWns.
    rewrite (u64_small (t0 + offset)) by lia.
    rewrite u64_small by lia. reflexivity. }
  pose proof (valid_timestamp_count_counted (t0 + offset) (t0 + offset + W)
                l Hlen) as Hcount.
  split; [exact Hwin |].
  split; [intros t; apply in_window_spec |].
  split; [exact Hcount |].
  intros summary start_status end_status start_stat end_stat.
  rewrite Summarize_unfold, Hwin. simpl fst. simpl snd.
  rewrite Hcount.
  split.
  - intros Hnone. rewrite Hnone. reflexivity.
  - intros Hsome.
    destruct (Z.of_nat (length (counted (t0 + offset) (t0 + offset + W) l))
              =? 0) eqn:Hz.
    { apply Z.eqb_eq in Hz.
      destruct (counted (t0 + offset) (t0 + offset + W) l);
        [congruence | simpl in Hz; lia]. }
    split.
    + unfold summarize_server.
      destruct (version_status end_status !! _) as [vend |];
        [| simpl; discriminate].
      destruct (infer_stats vend !! _) as [e |]; [| simpl; discriminate].
      destruct (start_counters _ _ _) as [[[a b] c] d]. simpl. discriminate.
    + pose proof (summarize_server_frame cfg
                    (summarize_client cfg summary
                       (u64 (t0 + offset + W - (t0 + offset)))
                       (tally_timestamps (t0 + offset) (t0 + offset + W) l)
                       start_stat end_stat) start_status end_status) as Hfr.
      destruct Hfr as (_ & _ & Hcnt & Hdur & _).
      rewrite Hcnt, Hdur. simpl.
      split; [exact Hcount |].
      rewrite u64_small by lia. lia.
Qed.

(** ** Latency statistics of the window *)

Lemma Zsum_snoc (l : list Z) (x : Z) : Zsum (l ++ [x]) = Zsum l + x.
Proof. induction l as [| y l IH]; simpl; lia. Qed.

Lemma Zsum_bounds (lo hi : Z) (l : list Z) :
  Forall (fun x => lo <= x <= hi) l ->
  Z.of_nat (length l) * lo <= Zsum l <= Z.of_nat (length l) * hi.
Proof.
  induction 1 as [| x l Hx _ IH]; [simpl; lia |].
  change (Zsum (x :: l)) with (x + Zsum l).
  rewrite length_cons, Nat2Z.inj_succ. lia.
Qed.

Lemma Zsum_nonneg (l : list Z) : Forall (fun x => 0 < x) l -> 0 <= Zsum l.
Proof. induction 1; simpl; lia. Qed.

(** State of the accumulators after a run of positive latencies whose sum
    fits 64 bits. *)
Lemma tally_latencies (lats : list Z) :
  Forall (fun x => 0 < x) lats ->
  Zsum lats < 2 ^ 64 ->
  Z.of_nat (length lats) < 2 ^ 64 ->
  let t := fold_left tally_request lats tally_init in
  valid_timestamp_count t = Z.of_nat (length lats)
  /\ tol_latency_ns t = Zsum lats
  /\ Forall (fun x => min_latency_ns t <= x <= max_latency_ns t) lats
  /\ (lats <> [] -> 0 < min_latency_ns t).
Proof.
  induction lats as [| x lats IH] using rev_ind; intros Hpos Hsum Hlen.
  - simpl. repeat split; [constructor | congruence].
  - apply Forall_app in Hpos as [Hpos Hx]. apply Forall_inv in Hx.
    rewrite Zsum_snoc in Hsum. rewrite length_app in Hlen. simpl in Hlen.
    pose proof (Zsum_nonneg lats Hpos) as Hnn.
    destruct IH as (Hc & Ht & Hmm & Hmin); [exact Hpos | lia | lia |].
    cbv zeta. rewrite fold_left_app. simpl fold_left.
    set (t := fold_left tally_request lats tally_init) in *.
    unfold tally_request at 1. simpl.
    rewrite Hc, Ht, Zsum_snoc, length_app. simpl length.
    rewrite !u64_small by lia.
    split; [lia |]. split; [reflexivity |].
    assert (Hcases : (lats = [] /\ min_latency_ns t = 0)
                     \/ 0 < min_latency_ns t).
    { destruct lats; [left; split; reflexivity |].
      right; apply Hmin; congruence. }
    assert (Hmin' :
      (if (x <? min_latency_ns t) || (min_latency_ns t =? 0)
       then x else min_latency_ns t) <= x
      /\ 0 < (if (x <? min_latency_ns t) || (min_latency_ns t =? 0)
              then x else min_latency_ns t)
      /\ (lats <> [] ->
          (if (x <? min_latency_ns t) || (min_latency_ns t =? 0)
           then x else min_latency_ns t) <= min_latency_ns t)).
    { destruct (Z.ltb_spec x (min_latency_ns t)),
        (Z.eqb_spec (min_latency_ns t) 0); simpl;
        destruct Hcases as [[Hnil ?] | ?]; try lia; repeat split;
        try lia; try congruence. }
    assert (Hmax' :
      x <= (if (x >? max_latency_ns t) || (max_latency_ns t =? 0)
            then x else max_latency_ns t)
      /\ max_latency_ns t
         <= (if (x >? max_latency_ns t) || (max_latency_ns t =? 0)
             then x else max_latency_ns t)).
    { destruct (Z.gtb_spec x (max_latency_ns t)),
        (Z.eqb_spec (max_latency_ns t) 0); simpl; lia. }
    split; [| intros _; lia].
    apply Forall_app. split.
    + destruct lats as [| y lats']; [constructor |].
      eapply Forall_impl; [exact Hmm |]. simpl. intros z Hz.
      destruct Hmin' as (_ & _ & Hle). specialize (Hle ltac:(congruence)).
      lia.
    + constructor; [lia | constructor].
Qed.

(** [min <= avg <= max] for the quotient the Sampler reports. *)
Lemma tally_min_avg_max (lats : list Z) :
  lats <> [] ->
  Forall (fun x => 0 < x) lats ->
  Zsum lats < 2 ^ 64 ->
  Z.of_nat (length lats) < 2 ^ 64 ->
  let t := fold_left tally_request lats tally_init in
  min_latency_ns t <= tol_latency_ns t / valid_timestamp_count t
                   <= max_latency_ns t.
Proof.
  intros Hne Hpos Hsum Hlen. cbv zeta.
  destruct (tally_latencies lats Hpos Hsum Hlen) as (Hc & Ht & Hmm & _).
  rewrite Hc, Ht.
  pose proof (Zsum_bounds _ _ _ Hmm) as [Hlo Hhi].
  assert (Hn : 0 < Z.of_nat (length lats)).
  { destruct lats; [congruence | simpl length; lia]. }
  split.
  - apply Z.div_le_lower_bound; lia.
  - apply Z.div_le_upper_bound; lia.
Qed.

(** The latencies have to be non-zero for that: 0 doubles as the mark of
    a minimum not yet set, so after latencies of 5, 0 and 7 ns the minimum
    is 7, above the average 4. *)
Lemma zero_latency_resets_minimum :
  let t := fold_left tally_request [5; 0; 7] tally_init in
  min_latency_ns t = 7 /\ tol_latency_ns t / valid_timestamp_count t = 4.
Proof. vm_compute. split; reflexivity. Qed.

Lemma to_u64_range (x : spec_float) : 0 <= F64.to_u64 x < 2 ^ 64.
Proof.
  unfold F64.to_u64. destruct (sf_trunc x) as [z |]; [| lia].
  destruct (Z.leb_spec 0 z), (Z.ltb_spec z (2 ^ 64)); simpl; lia.
Qed.

(** ** Binary floating-point facts *)

Lemma iter_xO_mul (p q : positive) :
  Z.pos (Pos.iter xO p q) = Z.pos p * 2 ^ Z.pos q.
Proof.
  induction q as [| q IH] using Pos.peano_ind.
  - simpl. lia.
  - rewrite Pos.iter_succ, Pos2Z.inj_xO, IH, Pos2Z.inj_succ,
      Z.pow_succ_r by lia. lia.
Qed.

Lemma digits2_pos_bounds (p : positive) :
  2 ^ (Z.pos (digits2_pos p) - 1) <= Z.pos p < 2 ^ Z.pos (digits2_pos p).
Proof.
  induction p as [p IH | p IH |]; simpl digits2_pos.
  - rewrite Pos2Z.inj_succ, (Pos2Z.inj_xI p).
    replace (Z.succ (Z.pos (digits2_pos p)) - 1)
      with (Z.succ (Z.pos (digits2_pos p) - 1)) by lia.
    rewrite !Z.pow_succ_r by lia.
    generalize dependent (2 ^ (Z.pos (digits2_pos p) - 1)).
    generalize (2 ^ Z.pos (digits2_pos p)). intros; lia.
  - rewrite Pos2Z.inj_succ, (Pos2Z.inj_xO p).
    replace (Z.succ (Z.pos (digits2_pos p)) - 1)
      with (Z.succ (Z.pos (digits2_pos p) - 1)) by lia.
    rewrite !Z.pow_succ_r by lia.
    generalize dependent (2 ^ (Z.pos (digits2_pos p) - 1)).
    generalize (2 ^ Z.pos (digits2_pos p)). intros; lia.
  - simpl. lia.
Qed.

Lemma digits2_pos_unique (p : positive) (d : Z) :
  2 ^ (d - 1) <= Z.pos p < 2 ^ d -> Z.pos (digits2_pos p) = d.
Proof.
  intros [Hlo Hhi]. pose proof (digits2_pos_bounds p) as [Hlo' Hhi'].
  assert (Hd : 0 < d).
  { destruct (Z.lt_ge_cases 0 d) as [| Hle]; [assumption |].
    assert (2 ^ d <= 1).
    { destruct (Z.eq_dec d 0) as [-> |]; [simpl; lia |].
      rewrite Z.pow_neg_r; lia. }
    lia. }
  destruct (Z.lt_trichotomy (Z.pos (digits2_pos p)) d) as [H | [H | H]];
    [| exact H |].
  - assert (2 ^ Z.pos (digits2_pos p) <= 2 ^ (d - 1))
      by (apply Z.pow_le_mono_r; lia). lia.
  - assert (2 ^ d <= 2 ^ (Z.pos (digits2_pos p) - 1))
      by (apply Z.pow_le_mono_r; lia). lia.
Qed.

(** ** Canonical values and exact conversions *)

Section Canonical.
Variables prec emax : Z.
Hypothesis prec_pos : 0 < prec.
Hypothesis prec_lt_emax : prec < emax.

Lemma shr_fexp_canonical (m : positive) (e : Z) (l : location) :
  canonical prec emax m e ->
  shr_fexp prec emax (Z.pos m) e l = (shr_record_of_loc (Z.pos m) l, e).
Proof.
  intros [Hd He]. unfold shr_fexp, Zdigits2. rewrite Hd.
  unfold fexp, emin.
  replace (Z.max (prec + e - prec) (3 - emax - prec) - e) with 0 by lia.
  reflexivity.
Qed.

Lemma binary_round_aux_canonical (s : bool) (m : positive) (e : Z) :
  canonical prec emax m e ->
  binary_round_aux prec emax s (Z.pos m) e loc_Exact = S754_finite s m e.
Proof.
  intros Hc. unfold binary_round_aux.
  rewrite shr_fexp_canonical by exact Hc. simpl.
  rewrite shr_fexp_canonical by exact Hc. simpl.
  destruct Hc as [_ He].
  destruct (Z.leb_spec e (emax - prec)); [reflexivity | lia].
Qed.

(** Conversion of a positive integer below [2^prec] is exact. *)
Lemma binary_normalize_exact (k : Z) :
  0 < k < 2 ^ prec ->
  exists (m : positive) (e : Z),
    binary_normalize prec emax k 0 false = S754_finite false m e
    /\ canonical prec emax m e /\ 1 - prec <= e <= 0
    /\ Z.pos m = k * 2 ^ (- e).
Proof.
  intros Hk. destruct k as [| p | p]; try lia.
  unfold binary_normalize, binary_round.
  pose proof (digits2_pos_bounds p) as Hb.
  set (d := Z.pos (digits2_pos p)) in *.
  assert (Hd : 1 <= d <= prec).
  { split; [unfold d; lia |].
    destruct (Z.le_gt_cases d prec) as [| Hgt]; [assumption |].
    assert (2 ^ prec <= 2 ^ (d - 1)) by (apply Z.pow_le_mono_r; lia).
    lia. }
  unfold fexp, emin.
  replace (Z.max (d + 0 - prec) (3 - emax - prec)) with (d - prec) by lia.
  unfold shl_align.
  destruct (d - prec - 0) as [| q | q] eqn:Hq; try lia.
  - assert (E : d = prec) by lia.
    exists p, 0.
    rewrite binary_round_aux_canonical by (split; [exact E | lia]).
    repeat split; try lia; try exact E.
  - assert (Hm : Z.pos (Pos.iter xO p q) = Z.pos p * 2 ^ (prec - d)).
    { rewrite iter_xO_mul. f_equal. f_equal. lia. }
    assert (Hc : canonical prec emax (Pos.iter xO p q) (d - prec)).
    { split; [| lia]. apply digits2_pos_unique. rewrite Hm.
      replace (2 ^ (prec - 1)) with (2 ^ (d - 1) * 2 ^ (prec - d))
        by (rewrite <- Z.pow_add_r by lia; f_equal; lia).
      replace (2 ^ prec) with (2 ^ d * 2 ^ (prec - d))
        by (rewrite <- Z.pow_add_r by lia; f_equal; lia).
      assert (0 < 2 ^ (prec - d)) by (apply Z.pow_pos_nonneg; lia).
      split; [apply Z.mul_le_mono_nonneg_r; lia |].
      apply Z.mul_lt_mono_pos_r; lia. }
    exists (Pos.iter xO p q), (d - prec).
    rewrite binary_round_aux_canonical by exact Hc.
    repeat split; try lia; try apply Hc.
    rewrite Hm. f_equal. f_equal. lia.
Qed.

End Canonical.

(** ** Binary32 facts behind [client_infer_per_sec] *)

(** Conversion of a positive integer below 2^24 is exact. *)
Lemma F32_of_Z_exact (k : Z) :
  0 < k < 2 ^ 24 ->
  exists (m : positive) (e : Z),
    F32.of_Z k = S754_finite false m e
    /\ canonical 24 128 m e /\ -23 <= e <= 0 /\ Z.pos m = k * 2 ^ (- e).
Proof.
  intros Hk. unfold F32.of_Z, F32.prec, F32.emax.
  destruct (binary_normalize_exact 24 128 ltac:(lia) ltac:(lia) k Hk)
    as (m & e & Hn & Hc & He & Hm).
  exists m, e. repeat split; try assumption; try apply Hc; lia.
Qed.

Lemma div_eucl_div_mod (a b : Z) : Z.div_eucl a b = (a / b, a mod b).
Proof. unfold Z.div, Z.modulo. destruct (Z.div_eucl a b); reflexivity. Qed.

(** Dividing a canonical binary32 value by a power of two [2^(ey + 23)]
    only moves the exponent. *)
Lemma F32_div_pow2 (m : positive) (e ey : Z) :
  canonical 24 128 m e -> -148 <= e - ey - 23 <= 104 ->
  F32.div (S754_finite false m e) (S754_finite false 8388608 ey)
  = S754_finite false m (e - ey - 23).
Proof.
  intros [Hd He] Hr.
  unfold F32.div, F32.prec, F32.emax, SFdiv, SFdiv_core_binary, Zdigits2.
  rewrite Hd. change (Z.pos (digits2_pos 8388608)) with 24.
  unfold fexp, emin.
  replace (Z.min (Z.max (24 + e - (24 + ey) - 24) (3 - 128 - 24)) (e - ey))
    with (e - ey - 24) by lia.
  replace (e - ey - (e - ey - 24)) with 24 by lia. cbv beta iota.
  rewrite div_eucl_div_mod, Z.shiftl_mul_pow2 by lia.
  replace (Z.pos m * 2 ^ 24) with (Z.pos m~0 * 8388608) by lia.
  rewrite Z.div_mul, Z.mod_mul by lia.
  change (new_location 8388608 0) with loc_Exact.
  change (xorb false false) with false.
  unfold binary_round_aux, shr_fexp at 1, Zdigits2.
  simpl digits2_pos. rewrite Pos2Z.inj_succ, Hd. unfold fexp, emin.
  replace (Z.max (Z.succ 24 + (e - ey - 24) - 24) (3 - 128 - 24)
           - (e - ey - 24)) with 1 by lia.
  simpl shr. cbv beta iota. simpl shr_m. simpl loc_of_shr_record.
  simpl round_nearest_even.
  replace (e - ey - 24 + 1) with (e - ey - 23) by lia.
  rewrite (shr_fexp_canonical 24 128) by (split; [exact Hd | lia]).
  simpl shr_m.
  destruct (Z.leb_spec (e - ey - 23) (128 - 24)); [reflexivity | lia].
Qed.

(** Truncation of a positive binary32 value with a non-positive exponent
    that fits an [int]. *)
Lemma F32_to_int_floor (m : positive) (e : Z) :
  e <= 0 -> Z.pos m / 2 ^ (- e) < 2 ^ 31 ->
  F32.to_int (S754_finite false m e) = Z.pos m / 2 ^ (- e).
Proof.
  intros He Hk. unfold F32.to_int, sf_trunc.
  assert (Hv : match e with
               | Z.neg p => Z.pos m / 2 ^ Z.pos p
               | _ => Z.pos m * 2 ^ e
               end = Z.pos m / 2 ^ (- e)).
  { destruct e as [| p | p]; try lia; [| reflexivity].
    change (- 0) with 0. rewrite Z.pow_0_r, Z.div_1_r. lia. }
  rewrite Hv.
  assert (0 <= Z.pos m / 2 ^ (- e)).
  { apply Z.div_pos; [lia |]. apply Z.pow_pos_nonneg; lia. }
  destruct (Z.leb_spec (- 2 ^ 31) (Z.pos m / 2 ^ (- e))),
    (Z.ltb_spec (Z.pos m / 2 ^ (- e)) (2 ^ 31)); simpl; lia.
Qed.

(** ** Rounding to the nearest binary value *)

Lemma shr_1_m (mrs : shr_record) :
  0 <= shr_m mrs -> shr_m (shr_1 mrs) = shr_m mrs / 2.
Proof.
  destruct mrs as [m r s]. simpl shr_m. intros Hm.
  destruct m as [| [p | p |] | p]; try lia; simpl shr_m.
  - reflexivity.
  - apply (Z.div_unique _ _ _ 1); lia.
  - apply (Z.div_unique _ _ _ 0); lia.
  - reflexivity.
Qed.

Lemma iter_shr_1_m (p : positive) (mrs : shr_record) :
  0 <= shr_m mrs ->
  shr_m (SpecFloat.iter_pos shr_1 p mrs) = shr_m mrs / 2 ^ Z.pos p.
Proof.
  revert mrs. induction p as [p IH | p IH |]; intros mrs Hm; simpl SpecFloat.iter_pos.
  - assert (H1 : 0 <= shr_m (shr_1 mrs)).
    { rewrite shr_1_m by exact Hm. apply Z.div_pos; lia. }
    assert (H2 : 0 <= shr_m (SpecFloat.iter_pos shr_1 p (shr_1 mrs))).
    { rewrite IH by exact H1. apply Z.div_pos; lia. }
    rewrite IH, IH, shr_1_m by assumption.
    rewrite !Z.div_div by lia. f_equal.
    replace (Z.pos p~1) with (1 + Z.pos p + Z.pos p) by lia.
    rewrite !Z.pow_add_r by lia. change (2 ^ 1) with 2. ring.
  - assert (H2 : 0 <= shr_m (SpecFloat.iter_pos shr_1 p mrs)).
    { rewrite IH by exact Hm. apply Z.div_pos; lia. }
    rewrite IH, IH by assumption.
    rewrite Z.div_div by lia. f_equal.
    replace (Z.pos p~0) with (Z.pos p + Z.pos p) by lia.
    rewrite Z.pow_add_r by lia. ring.
  - rewrite shr_1_m by exact Hm. reflexivity.
Qed.

(** [shr] by [n >= 0] digits divides the mantissa by [2^n], rounding
    down, and adds [n] to the exponent. *)
Lemma shr_shift (mrs : shr_record) (e n : Z) :
  0 <= shr_m mrs -> 0 <= n ->
  snd (shr mrs e n) = e + n
  /\ shr_m (fst (shr mrs e n)) = shr_m mrs / 2 ^ n.
Proof.
  intros Hm Hn. unfold shr. destruct n as [| p | p]; try lia.
  - simpl. rewrite Z.div_1_r. lia.
  - simpl fst. simpl snd. split; [reflexivity |].
    apply iter_shr_1_m. exact Hm.
Qed.

Lemma shr_m_of_loc (m : Z) (l : location) :
  shr_m (shr_record_of_loc m l) = m.
Proof. destruct l as [| []]; reflexivity. Qed.

Lemma round_nearest_even_step (mx : Z) (lx : location) :
  mx <= round_nearest_even mx lx <= mx + 1.
Proof.
  unfold round_nearest_even. destruct lx as [| []]; try lia.
  destruct (Z.even mx); lia.
Qed.

Lemma pow2_split (a b : Z) : 0 <= a -> 0 <= b -> 2 ^ (a + b) = 2 ^ a * 2 ^ b.
Proof. intros. apply Z.pow_add_r; assumption. Qed.

(** A value within one unit of a mantissa [t >= a] is within the
    fraction [1/a] of it. *)
Lemma faithful_relative (a t X M : Z) :
  0 < a <= t -> 0 <= X ->
  (t - 1) * X <= M -> M <= (t + 1) * X ->
  (a - 1) * (t * X) <= a * M <= (a + 1) * (t * X).
Proof.
  intros Ha HX Hlo Hhi.
  assert (0 <= (t - a) * X) by (apply Z.mul_nonneg_nonneg; lia).
  assert (a * ((t - 1) * X) <= a * M)
    by (apply Z.mul_le_mono_nonneg_l; lia).
  assert (a * M <= a * ((t + 1) * X))
    by (apply Z.mul_le_mono_nonneg_l; lia).
  split; lia.
Qed.

Lemma div_floor_bounds (a b : Z) :
  0 < b -> a / b * b <= a < (a / b + 1) * b.
Proof.
  intros Hb. pose proof (Z.div_mod a b ltac:(lia)).
  pose proof (Z.mod_pos_bound a b Hb). lia.
Qed.

(** The quotient [q / n] rounded down or up, against [q] itself. *)
Lemma rounded_quotient_bounds (q n t : Z) :
  0 < n -> q / n <= t <= q / n + 1 ->
  (t - 1) * n <= q /\ q + 1 <= (t + 1) * n.
Proof.
  intros Hn Ht. pose proof (div_floor_bounds q n Hn) as Hfl.
  split.
  - transitivity (q / n * n); [apply Z.mul_le_mono_nonneg_r; lia | lia].
  - transitivity ((q / n + 1) * n);
      [lia | apply Z.mul_le_mono_nonneg_r; lia].
Qed.

(** Both sides of a two-sided bound multiplied by a non-negative
    factor. *)
Lemma scale_bounds (a1 a a2 V M c : Z) :
  0 <= c -> a1 * V <= a * M <= a2 * V ->
  a1 * (V * c) <= a * (M * c) <= a2 * (V * c).
Proof.
  intros Hc [Hlo Hhi]. rewrite !Z.mul_assoc.
  split; apply Z.mul_le_mono_nonneg_r; assumption.
Qed.

Section Faithful.
Variables prec emax : Z.
Hypothesis prec_pos : 0 < prec.
Hypothesis prec_lt_emax : prec < emax.

(** The shift of a mantissa of [d >= prec] digits to the canonical
    exponent, in the normal range. *)
Lemma shr_fexp_normal (mx : positive) (ex : Z) (lx : location) :
  let d := Z.pos (digits2_pos mx) in
  prec <= d -> 3 - emax - prec <= ex + (d - prec) ->
  exists mrs : shr_record,
    shr_fexp prec emax (Z.pos mx) ex lx = (mrs, ex + (d - prec))
    /\ shr_m mrs = Z.pos mx / 2 ^ (d - prec).
Proof.
  intros d Hd Hlo. unfold shr_fexp, Zdigits2. fold d. unfold fexp, emin.
  replace (Z.max (d + ex - prec) (3 - emax - prec) - ex) with (d - prec)
    by lia.
  destruct (shr_shift (shr_record_of_loc (Z.pos mx) lx) ex (d - prec))
    as [He1 Hm1]; [rewrite shr_m_of_loc; lia | lia |].
  destruct (shr (shr_record_of_loc (Z.pos mx) lx) ex (d - prec))
    as [mrs1 e1]. simpl in He1, Hm1. subst e1.
  rewrite shr_m_of_loc in Hm1. exists mrs1. split; [reflexivity | exact Hm1].
Qed.

(** Rounding a mantissa of at least [prec] digits in the normal range:
    the result is canonical, and in units of [2^(ex + d - prec)] it is
    the shifted mantissa or its successor. *)
Lemma binary_round_aux_faithful (s : bool) (mx : positive) (ex : Z)
    (lx : location) :
  let d := Z.pos (digits2_pos mx) in
  let u := ex + (d - prec) in
  prec <= d -> 3 - emax - prec <= u -> u < emax - prec ->
  exists (m : positive) (e : Z),
    binary_round_aux prec emax s (Z.pos mx) ex lx = S754_finite s m e
    /\ canonical prec emax m e
    /\ u <= e <= u + 1
    /\ Z.pos mx / 2 ^ (d - prec) <= Z.pos m * 2 ^ (e - u)
       <= Z.pos mx / 2 ^ (d - prec) + 1.
Proof.
  intros d u Hd Hlo Hhi.
  pose proof (digits2_pos_bounds mx) as Hmx. fold d in Hmx.
  unfold binary_round_aux.
  destruct (shr_fexp_normal mx ex lx Hd Hlo) as (mrs1 & -> & Hm1).
  fold d in Hm1 |- *. fold u.
  set (m1 := Z.pos mx / 2 ^ (d - prec)) in *.
  assert (Hp : 0 < 2 ^ (d - prec)) by (apply Z.pow_pos_nonneg; lia).
  assert (Hm1r : 2 ^ (prec - 1) <= m1 < 2 ^ prec).
  { unfold m1. split.
    - apply Z.div_le_lower_bound; [lia |].
      rewrite <- pow2_split by lia.
      replace (d - prec + (prec - 1)) with (d - 1) by lia. lia.
    - apply Z.div_lt_upper_bound; [lia |].
      rewrite <- pow2_split by lia.
      replace (d - prec + prec) with d by lia. lia. }
  pose proof (round_nearest_even_step (shr_m mrs1)
                (loc_of_shr_record mrs1)) as Hr.
  rewrite Hm1 in Hr |- *.
  assert (Hpp : 0 < 2 ^ (prec - 1)) by (apply Z.pow_pos_nonneg; lia).
  assert (Hpow : 2 ^ prec = 2 * 2 ^ (prec - 1)).
  { replace prec with (1 + (prec - 1)) at 1 by lia.
    rewrite pow2_split by lia. reflexivity. }
  destruct (round_nearest_even m1 (loc_of_shr_record mrs1))
    as [| p2 | p2]; try lia.
  destruct (Z.eq_dec (Z.pos p2) (2 ^ prec)) as [Hcarry | Hnocarry].
  - (* the rounding carried into a new digit *)
    assert (Hd2 : Z.pos (digits2_pos p2) = prec + 1).
    { apply digits2_pos_unique. rewrite Hcarry.
      replace (prec + 1 - 1) with prec by lia.
      rewrite (pow2_split prec 1) by lia. change (2 ^ 1) with 2. lia. }
    destruct (shr_fexp_normal p2 u loc_Exact) as (mrs2 & -> & Hm2);
      [lia | lia |].
    rewrite Hd2 in Hm2 |- *.
    replace (prec + 1 - prec) with 1 in Hm2 |- * by lia.
    rewrite Hcarry, Hpow in Hm2. change (2 ^ 1) with 2 in Hm2.
    rewrite Z.mul_comm, Z.div_mul in Hm2 by lia.
    rewrite Hm2.
    destruct (2 ^ (prec - 1)) as [| q | q] eqn:Hq; try lia.
    destruct (Z.leb_spec (u + 1) (emax - prec)); [| lia].
    exists q, (u + 1). split; [reflexivity |].
    split.
    { split; [| lia]. apply digits2_pos_unique. rewrite <- Hq.
      rewrite Hpow. lia. }
    split; [lia |].
    replace (u + 1 - u) with 1 by lia. change (2 ^ 1) with 2. lia.
  - assert (Hd2 : Z.pos (digits2_pos p2) = prec).
    { apply digits2_pos_unique. lia. }
    rewrite (shr_fexp_canonical prec emax) by (split; [exact Hd2 | lia]).
    simpl shr_m.
    destruct (Z.leb_spec u (emax - prec)); [| lia].
    exists p2, u. split; [reflexivity |].
    split; [split; [exact Hd2 | lia] |].
    split; [lia |].
    rewrite Z.sub_diag. change (2 ^ 0) with 1. lia.
Qed.


(** Conversion of an integer of more than [prec] digits. *)
Lemma binary_normalize_faithful (z D : Z) :
  2 ^ prec <= z < 2 ^ D -> D < emax ->
  exists (m : positive) (e : Z),
    binary_normalize prec emax z 0 false = S754_finite false m e
    /\ canonical prec emax m e
    /\ 1 <= e <= D - prec + 1
    /\ (2 ^ (prec - 1) - 1) * (Z.pos m * 2 ^ e) <= 2 ^ (prec - 1) * z
       <= (2 ^ (prec - 1) + 1) * (Z.pos m * 2 ^ e).
Proof.
  intros Hz HD.
  assert (Hpp : 0 < 2 ^ prec) by (apply Z.pow_pos_nonneg; lia).
  destruct z as [| p | p]; try lia.
  pose proof (digits2_pos_bounds p) as Hb.
  set (d := Z.pos (digits2_pos p)) in *.
  assert (Hd : prec + 1 <= d <= D).
  { split.
    - destruct (Z.lt_ge_cases prec d) as [| Hle]; [lia |].
      assert (2 ^ d <= 2 ^ prec) by (apply Z.pow_le_mono_r; lia). lia.
    - destruct (Z.le_gt_cases d D) as [| Hgt]; [assumption |].
      assert (2 ^ D <= 2 ^ (d - 1)) by (apply Z.pow_le_mono_r; lia). lia. }
  unfold binary_normalize, binary_round. fold d. unfold fexp, emin.
  replace (Z.max (d + 0 - prec) (3 - emax - prec)) with (d - prec) by lia.
  unfold shl_align.
  destruct (d - prec - 0) as [| q | q] eqn:Hq; try lia.
  destruct (binary_round_aux_faithful false p 0 loc_Exact)
    as (m & e & Hr & Hc & He & Hm); fold d; [lia | lia | lia |].
  fold d in He, Hm. rewrite Z.add_0_l in He, Hm.
  exists m, e. split; [exact Hr |]. split; [exact Hc |]. split; [lia |].
  assert (Hu : 0 < 2 ^ (d - prec)) by (apply Z.pow_pos_nonneg; lia).
  assert (Hpe : 0 < 2 ^ (e - (d - prec))) by (apply Z.pow_pos_nonneg; lia).
  assert (Hsplit : Z.pos m * 2 ^ e
                   = Z.pos m * 2 ^ (e - (d - prec)) * 2 ^ (d - prec)).
  { rewrite <- Z.mul_assoc, <- pow2_split by lia. do 2 f_equal. lia. }
  rewrite Hsplit.
  destruct (rounded_quotient_bounds (Z.pos p) (2 ^ (d - prec))
              (Z.pos m * 2 ^ (e - (d - prec))) Hu Hm) as [Hlow Hupp].
  destruct Hc as [Hdm _]. pose proof (digits2_pos_bounds m) as Hmb.
  rewrite Hdm in Hmb.
  apply faithful_relative.
  - split; [apply Z.pow_pos_nonneg; lia |].
    transitivity (Z.pos m * 1); [lia |].
    apply Z.mul_le_mono_nonneg_l; lia.
  - lia.
  - exact Hlow.
  - lia.
Qed.

(** Division of two canonical values whose quotient is in the normal
    range. *)
Lemma SFdiv_faithful (mx my : positive) (ex ey : Z) :
  canonical prec emax mx ex -> canonical prec emax my ey ->
  3 - emax - prec <= ex - ey - prec -> ex - ey + 1 < emax ->
  exists (m : positive) (e : Z),
    SFdiv prec emax (S754_finite false mx ex) (S754_finite false my ey)
    = S754_finite false m e
    /\ canonical prec emax m e
    /\ ex - ey - prec <= e <= ex - ey - prec + 2
    /\ (2 ^ (prec - 1) - 1)
       * (Z.pos m * 2 ^ (e - (ex - ey - prec)) * Z.pos my)
       <= 2 ^ (prec - 1) * (Z.pos mx * 2 ^ prec)
       <= (2 ^ (prec - 1) + 1)
          * (Z.pos m * 2 ^ (e - (ex - ey - prec)) * Z.pos my).
Proof.
  intros [Hdx Hex] [Hdy Hey] Hlo Hhi.
  pose proof (digits2_pos_bounds mx) as Hbx. rewrite Hdx in Hbx.
  pose proof (digits2_pos_bounds my) as Hby. rewrite Hdy in Hby.
  assert (Hpp : 0 < 2 ^ (prec - 1)) by (apply Z.pow_pos_nonneg; lia).
  assert (Hpow : 2 ^ prec = 2 * 2 ^ (prec - 1)).
  { replace prec with (1 + (prec - 1)) at 1 by lia.
    rewrite pow2_split by lia. reflexivity. }
  unfold SFdiv, SFdiv_core_binary, Zdigits2. rewrite Hdx, Hdy.
  unfold fexp, emin.
  replace (Z.min (Z.max (prec + ex - (prec + ey) - prec) (3 - emax - prec))
             (ex - ey))
    with (ex - ey - prec) by lia.
  replace (ex - ey - (ex - ey - prec)) with prec by lia.
  assert (Hsh : forall s : Z,
    0 < s ->
    match s with
    | Z.pos _ => Z.shiftl (Z.pos mx) s
    | 0 => Z.pos mx
    | Z.neg _ => 0
    end = Z.pos mx * 2 ^ s).
  { intros [| sp | sp] Hs; try lia. apply Z.shiftl_mul_pow2. lia. }
  rewrite Hsh, div_eucl_div_mod by lia.
  set (M := Z.pos mx * 2 ^ prec) in *.
  pose proof (div_floor_bounds M (Z.pos my) ltac:(lia)) as Hq.
  assert (Hqr : 2 ^ (prec - 1) <= M / Z.pos my < 2 ^ (prec + 1)).
  { split.
    - apply Z.div_le_lower_bound; [lia |]. unfold M.
      transitivity (2 ^ prec * 2 ^ (prec - 1));
        [apply Z.mul_le_mono_nonneg_r; lia |].
      rewrite Z.mul_comm. apply Z.mul_le_mono_nonneg_r; lia.
    - apply Z.div_lt_upper_bound; [lia |]. unfold M.
      rewrite (pow2_split prec 1) by lia. change (2 ^ 1) with 2.
      replace (Z.pos my * (2 ^ prec * 2)) with (2 * Z.pos my * 2 ^ prec)
        by ring.
      apply Z.mul_lt_mono_pos_r; lia. }
  destruct (M / Z.pos my) as [| q | q] eqn:HMq; try lia.
  pose proof (digits2_pos_bounds q) as Hbq.
  set (d := Z.pos (digits2_pos q)) in *.
  assert (Hd : prec <= d <= prec + 1).
  { split.
    - destruct (Z.le_gt_cases prec d) as [| Hgt]; [assumption |].
      assert (2 ^ d <= 2 ^ (prec - 1)) by (apply Z.pow_le_mono_r; lia).
      lia.
    - destruct (Z.le_gt_cases d (prec + 1)) as [| Hgt]; [assumption |].
      assert (2 ^ (prec + 1) <= 2 ^ (d - 1))
        by (apply Z.pow_le_mono_r; lia).
      lia. }
  change (xorb false false) with false.
  destruct (binary_round_aux_faithful false q (ex - ey - prec)
              (new_location (Z.pos my) (M mod Z.pos my)))
    as (m & e & Hr & Hc & He & Hm); fold d; [lia | lia | lia |].
  fold d in He, Hm.
  exists m, e. split; [exact Hr |]. split; [exact Hc |]. split; [lia |].
  set (u := ex - ey - prec + (d - prec)) in *.
  assert (Hn : 0 < 2 ^ (d - prec)) by (apply Z.pow_pos_nonneg; lia).
  assert (Hpe : 0 < 2 ^ (e - u)) by (apply Z.pow_pos_nonneg; lia).
  assert (Hsplit : Z.pos m * 2 ^ (e - (ex - ey - prec)) * Z.pos my
                   = Z.pos m * 2 ^ (e - u) * (2 ^ (d - prec) * Z.pos my)).
  { replace (e - (ex - ey - prec)) with (e - u + (d - prec))
      by (unfold u; lia).
    rewrite pow2_split by lia. ring. }
  rewrite Hsplit.
  destruct (rounded_quotient_bounds (Z.pos q) (2 ^ (d - prec))
              (Z.pos m * 2 ^ (e - u)) Hn Hm) as [Hlow Hupp].
  destruct Hc as [Hdm _]. pose proof (digits2_pos_bounds m) as Hmb.
  rewrite Hdm in Hmb.
  apply faithful_relative.
  - split; [lia |].
    transitivity (Z.pos m * 1); [lia |].
    apply Z.mul_le_mono_nonneg_l; lia.
  - apply Z.mul_nonneg_nonneg; lia.
  - rewrite Z.mul_assoc. transitivity (Z.pos q * Z.pos my); [| lia].
    apply Z.mul_le_mono_nonneg_r; lia.
  - rewrite Z.mul_assoc. transitivity ((Z.pos q + 1) * Z.pos my); [lia |].
    apply Z.mul_le_mono_nonneg_r; lia.
Qed.

End Faithful.

(** ** Binary32 conversions and quotients with their rounding error *)

(** Values are compared in units of [2^-149], the smallest positive
    binary32 number: the value [m * 2^e] is [m * 2^(e + 149)] units, an
    integer. *)

Lemma F32_of_Z_faithful (z : Z) :
  0 < z < 2 ^ 64 ->
  exists (m : positive) (e : Z),
    F32.of_Z z = S754_finite false m e
    /\ canonical 24 128 m e
    /\ -23 <= e <= 41
    /\ 8388607 * (Z.pos m * 2 ^ (e + 149)) <= 8388608 * (z * 2 ^ 149)
       <= 8388609 * (Z.pos m * 2 ^ (e + 149)).
Proof.
  intros Hz. destruct (Z.lt_ge_cases z (2 ^ 24)) as [Hsmall | Hbig].
  - destruct (F32_of_Z_exact z ltac:(lia)) as (m & e & Hr & Hc & He & Hm).
    exists m, e. split; [exact Hr |]. split; [exact Hc |]. split; [lia |].
    assert (Hv : Z.pos m * 2 ^ (e + 149) = z * 2 ^ 149).
    { rewrite Hm, <- Z.mul_assoc, <- pow2_split by lia.
      do 2 f_equal. lia. }
    rewrite Hv. assert (0 < z * 2 ^ 149) by lia. lia.
  - destruct (binary_normalize_faithful 24 128 ltac:(lia) ltac:(lia) z 64)
      as (m & e & Hr & Hc & He & Hm); [lia | lia |].
    exists m, e. split; [exact Hr |]. split; [exact Hc |]. split; [lia |].
    change (2 ^ (24 - 1)) with 8388608 in Hm.
    replace (Z.pos m * 2 ^ (e + 149)) with (Z.pos m * 2 ^ e * 2 ^ 149)
      by (rewrite pow2_split by lia; ring).
    apply scale_bounds; [lia | exact Hm].
Qed.

Lemma F32_div_faithful (mx my : positive) (ex ey : Z) :
  canonical 24 128 mx ex -> canonical 24 128 my ey ->
  -125 <= ex - ey <= 100 ->
  exists (m : positive) (e : Z),
    F32.div (S754_finite false mx ex) (S754_finite false my ey)
    = S754_finite false m e
    /\ canonical 24 128 m e
    /\ ex - ey - 24 <= e <= ex - ey - 22
    /\ 8388607 * (Z.pos m * 2 ^ (e + 149) * (Z.pos my * 2 ^ (ey + 149)))
       <= 8388608 * (Z.pos mx * 2 ^ (ex + 149) * 2 ^ 149)
       <= 8388609 * (Z.pos m * 2 ^ (e + 149) * (Z.pos my * 2 ^ (ey + 149))).
Proof.
  intros Hcx Hcy Hr.
  destruct (SFdiv_faithful 24 128 ltac:(lia) mx my ex ey Hcx Hcy)
    as (m & e & Hd & Hc & He & Hm); [lia | lia |].
  exists m, e. split; [exact Hd |]. split; [exact Hc |]. split; [lia |].
  change (2 ^ (24 - 1)) with 8388608 in Hm.
  destruct Hcx as [_ Hex]. destruct Hcy as [_ Hey].
  set (c := 2 ^ (ex + 274)).
  assert (Hcpos : 0 < c) by (apply Z.pow_pos_nonneg; lia).
  assert (H1 : Z.pos m * 2 ^ (e + 149) * (Z.pos my * 2 ^ (ey + 149))
               = Z.pos m * 2 ^ (e - (ex - ey - 24)) * Z.pos my * c).
  { unfold c.
    transitivity (Z.pos m * Z.pos my * (2 ^ (e + 149) * 2 ^ (ey + 149)));
      [ring |].
    transitivity (Z.pos m * Z.pos my
                  * (2 ^ (e - (ex - ey - 24)) * 2 ^ (ex + 274))); [| ring].
    rewrite <- !pow2_split by lia. do 2 f_equal. lia. }
  assert (H2 : Z.pos mx * 2 ^ (ex + 149) * 2 ^ 149
               = Z.pos mx * 2 ^ 24 * c).
  { unfold c. rewrite <- !Z.mul_assoc, <- !pow2_split by lia.
    do 2 f_equal. lia. }
  rewrite H1, H2. apply scale_bounds; [lia | exact Hm].
Qed.

(** Truncation of a positive binary32 value. *)
Lemma F32_to_int_trunc (m : positive) (e : Z) :
  -149 <= e ->
  exists r : Z,
    sf_trunc (S754_finite false m e) = Some r
    /\ 0 <= r
    /\ r * 2 ^ 149 <= Z.pos m * 2 ^ (e + 149) < (r + 1) * 2 ^ 149
    /\ (r < 2 ^ 31 -> F32.to_int (S754_finite false m e) = r).
Proof.
  intros He. unfold F32.to_int, sf_trunc.
  set (r := match e with
            | Z.neg p => Z.pos m / 2 ^ Z.pos p
            | _ => Z.pos m * 2 ^ e
            end).
  assert (Hr : 0 <= r
               /\ r * 2 ^ 149 <= Z.pos m * 2 ^ (e + 149) < (r + 1) * 2 ^ 149).
  { destruct e as [| p | p]; unfold r.
    - simpl (0 + 149). lia.
    - assert (0 < 2 ^ Z.pos p) by (apply Z.pow_pos_nonneg; lia).
      rewrite (pow2_split (Z.pos p) 149), Z.mul_assoc by lia.
      split; [lia |]. generalize dependent (Z.pos m * 2 ^ Z.pos p).
      intros; lia.
    - assert (Hp : 0 < 2 ^ Z.pos p) by (apply Z.pow_pos_nonneg; lia).
      pose proof (div_floor_bounds (Z.pos m) (2 ^ Z.pos p) Hp) as Hfl.
      assert (Hq : 0 <= Z.pos m / 2 ^ Z.pos p) by (apply Z.div_pos; lia).
      split; [exact Hq |].
      assert (HP : 2 ^ 149 = 2 ^ Z.pos p * 2 ^ (Z.neg p + 149)).
      { rewrite <- pow2_split by lia. f_equal. lia. }
      assert (0 < 2 ^ (Z.neg p + 149)) by (apply Z.pow_pos_nonneg; lia).
      rewrite HP, !Z.mul_assoc.
      split; [apply Z.mul_le_mono_nonneg_r; lia
             | apply Z.mul_lt_mono_pos_r; lia]. }
  exists r. split; [reflexivity |]. split; [apply Hr |].
  split; [apply Hr |]. intros Hfit.
  destruct (Z.leb_spec (- 2 ^ 31) r), (Z.ltb_spec r (2 ^ 31)); simpl; lia.
Qed.

(** The three roundings and the truncation behind the rate, in integers:
    [VW], [VS] and [VR] are the rounded window length, the rounded number
    of seconds and the rounded quotient, in units of [1/P]. *)
Lemma rate_chain (P W G N VW VS VR r : Z) :
  0 < P -> 0 < G -> 0 < VS -> 0 <= r ->
  8388607 * VW <= 8388608 * (W * P) <= 8388609 * VW ->
  8388607 * (VS * (G * P)) <= 8388608 * (VW * P)
    <= 8388609 * (VS * (G * P)) ->
  8388607 * (VR * VS) <= 8388608 * (N * P * P) <= 8388609 * (VR * VS) ->
  r * P <= VR < (r + 1) * P ->
  8388607 * 8388608 * (r * W) <= 8388609 * 8388609 * (G * N)
  /\ 8388607 * 8388607 * (G * N) < 8388609 * 8388608 * ((r + 1) * W).
Proof.
  intros HP HG HVS Hr [HA1 HA2] [HB1 HB2] [HC1 HC2] [HD1 HD2].
  (* the factor P cancelled *)
  assert (B1 : 8388607 * (VS * G) <= 8388608 * VW).
  { apply (Z.mul_le_mono_pos_r _ _ P HP). lia. }
  assert (B2 : 8388608 * VW <= 8388609 * (VS * G)).
  { apply (Z.mul_le_mono_pos_r _ _ P HP). lia. }
  assert (C1 : 8388607 * (r * VS) <= 8388608 * (N * P)).
  { apply (Z.mul_le_mono_pos_r _ _ P HP).
    assert (r * P * VS <= VR * VS)
      by (apply Z.mul_le_mono_nonneg_r; lia).
    lia. }
  assert (C2 : 8388608 * (N * P) < 8388609 * ((r + 1) * VS)).
  { apply (Z.mul_lt_mono_pos_r P _ _ HP).
    assert (VR * VS < (r + 1) * P * VS)
      by (apply Z.mul_lt_mono_pos_r; lia).
    lia. }
  split.
  - apply (Z.mul_le_mono_pos_r _ _ P HP).
    assert (S1 : r * (8388608 * (W * P)) <= r * (8388609 * VW))
      by (apply Z.mul_le_mono_nonneg_l; lia).
    assert (S2 : r * (8388608 * VW) <= r * (8388609 * (VS * G)))
      by (apply Z.mul_le_mono_nonneg_l; lia).
    assert (S3 : G * (8388607 * (r * VS)) <= G * (8388608 * (N * P)))
      by (apply Z.mul_le_mono_nonneg_l; lia).
    lia.
  - apply (Z.mul_lt_mono_pos_r P _ _ HP).
    assert (S1 : G * (8388608 * (N * P)) < G * (8388609 * ((r + 1) * VS)))
      by (apply Z.mul_lt_mono_pos_l; lia).
    assert (S2 : (r + 1) * (8388607 * (VS * G)) <= (r + 1) * (8388608 * VW))
      by (apply Z.mul_le_mono_nonneg_l; lia).
    assert (S3 : (r + 1) * (8388607 * VW)
                 <= (r + 1) * (8388608 * (W * P)))
      by (apply Z.mul_le_mono_nonneg_l; lia).
    lia.
Qed.

(** The rate reported for [n * b] inferences in a window of [window_ms]
    milliseconds: the quotient [1000 * n * b / window_ms] up to the
    rounding of three binary32 operations, each within 2^-23, and the
    truncation. *)
Lemma client_infer_per_sec_bounds (n b window_ms : Z) :
  0 < window_ms < 2 ^ 31 -> 0 < n * b < 2 ^ 24 ->
  1000 * (n * b) < 2 ^ 30 * window_ms ->
  let rate := client_infer_per_sec_of n b (window_ms * 1000000) in
  0 <= rate
  /\ 2 ^ 21 * (rate * window_ms) <= (2 ^ 21 + 1) * (1000 * (n * b))
  /\ (2 ^ 21 - 1) * (1000 * (n * b)) < 2 ^ 21 * ((rate + 1) * window_ms).
Proof.
  intros HW HN Hfit. cbv zeta. unfold client_infer_per_sec_of.
  rewrite u64_small by lia.
  destruct (F32_of_Z_faithful (window_ms * 1000000) ltac:(lia))
    as (mW & eW & -> & HcW & HeW & HA).
  assert (HG : F32.of_Z NANOS_PER_SECOND = S754_finite false 15625000 6)
    by (vm_compute; reflexivity).
  rewrite HG.
  assert (HcG : canonical 24 128 15625000 6)
    by (split; [reflexivity | lia]).
  destruct (F32_div_faithful mW 15625000 eW 6 HcW HcG ltac:(lia))
    as (mS & eS & -> & HcS & HeS & HB).
  destruct (F32_of_Z_exact (n * b) HN) as (mN & eN & -> & HcN & HeN & HmN).
  destruct (F32_div_faithful mN mS eN eS HcN HcS ltac:(lia))
    as (mR & eR & -> & HcR & HeR & HC).
  destruct (F32_to_int_trunc mR eR ltac:(lia)) as (r & _ & Hr & HD & Hint).
  assert (HP : 0 < 2 ^ 149) by (apply Z.pow_pos_nonneg; lia).
  assert (HVS : 0 < Z.pos mS * 2 ^ (eS + 149)).
  { apply Z.mul_pos_pos; [lia | apply Z.pow_pos_nonneg; lia]. }
  assert (HVG : Z.pos 15625000 * 2 ^ (6 + 149) = 1000000000 * 2 ^ 149).
  { rewrite (pow2_split 6 149) by lia. change (2 ^ 6) with 64. lia. }
  assert (HVN : Z.pos mN * 2 ^ (eN + 149) = n * b * 2 ^ 149).
  { rewrite HmN, <- Z.mul_assoc, <- pow2_split by lia.
    do 2 f_equal. lia. }
  rewrite HVG in HB. rewrite HVN in HC.
  destruct (rate_chain (2 ^ 149) (window_ms * 1000000) 1000000000 (n * b)
              (Z.pos mW * 2 ^ (eW + 149)) (Z.pos mS * 2 ^ (eS + 149))
              (Z.pos mR * 2 ^ (eR + 149)) r)
    as [Hup Hdown]; try assumption; try lia.
  assert (Hup' : 2 ^ 21 * (r * window_ms)
                 <= (2 ^ 21 + 1) * (1000 * (n * b))) by lia.
  assert (Hdown' : (2 ^ 21 - 1) * (1000 * (n * b))
                   < 2 ^ 21 * ((r + 1) * window_ms)) by lia.
  assert (Hsmall : r < 2 ^ 31).
  { destruct (Z.lt_ge_cases r (2 ^ 31)) as [| Hbig]; [assumption |].
    assert (2 ^ 31 * window_ms <= r * window_ms)
      by (apply Z.mul_le_mono_nonneg_r; lia).
    lia. }
  rewrite (Hint Hsmall). split; [exact Hr |]. split; assumption.
Qed.

(** With a window of [2^j] seconds (1, 2, 4 or 8 s) the reported rate is
    the number of inferences of the window divided by [2^j], rounded
    down. *)
Lemma client_infer_per_sec_pow2_seconds (n b j : Z) :
  0 <= j <= 3 -> 0 < n * b < 2 ^ 24 ->
  client_infer_per_sec_of n b (2 ^ j * 1000000000) = n * b / 2 ^ j.
Proof.
  intros Hj Hnb. unfold client_infer_per_sec_of.
  rewrite u64_small by lia.
  assert (Hsec : F32.div (F32.of_Z (2 ^ j * 1000000000))
                         (F32.of_Z NANOS_PER_SECOND)
                 = S754_finite false 8388608 (j - 23)).
  { assert (Hcases : j = 0 \/ j = 1 \/ j = 2 \/ j = 3) by lia.
    destruct Hcases as [-> | [-> | [-> | ->]]]; vm_compute; reflexivity. }
  rewrite Hsec.
  destruct (F32_of_Z_exact (n * b) Hnb) as (m & e & -> & Hc & He & Hm).
  rewrite F32_div_pow2 by (try exact Hc; lia).
  replace (e - (j - 23) - 23) with (e - j) by lia.
  assert (Hpow : 2 ^ (- (e - j)) = 2 ^ (- e) * 2 ^ j).
  { rewrite <- Z.pow_add_r by lia. f_equal. lia. }
  assert (Hpe : 0 < 2 ^ (- e)) by (apply Z.pow_pos_nonneg; lia).
  assert (Hpj : 0 < 2 ^ j) by (apply Z.pow_pos_nonneg; lia).
  assert (Hq : Z.pos m / 2 ^ (- (e - j)) = n * b / 2 ^ j).
  { rewrite Hpow, Hm, (Z.mul_comm (n * b)).
    apply Z.div_mul_cancel_l; lia. }
  rewrite F32_to_int_floor; [exact Hq | lia |].
  rewrite Hq.
  assert (n * b / 2 ^ j <= n * b) by (apply Z.div_le_upper_bound; nia).
  lia.
Qed.

(** ** Client statistics of a window *)

Lemma client_duration_is_window (cfg : SamplerConfig) (l : list Timestamp) :
  0 <= measurement_window_ms_ cfg < 2 ^ 31 ->
  u64 (snd (client_window cfg l) - fst (client_window cfg l))
  = measurement_window_ms_ cfg * 1000000.
Proof.
  intros HW. unfold client_window.
  destruct (scan_timestamps l) as [t0 tN]. simpl.
  assert (HWns : measurement_window_ns cfg
                 = measurement_window_ms_ cfg * 1000000).
  { unfold measurement_window_ns. rewrite u64_small; lia. }
  rewrite HWns. unfold u64.
  rewrite Zminus_mod_idemp_l.
  replace (((t0 + window_offset cfg t0 tN) mod 2 ^ 64
            + measurement_window_ms_ cfg * 1000000
            - (t0 + window_offset cfg t0 tN) mod 2 ^ 64))
    with (measurement_window_ms_ cfg * 1000000) by lia.
  apply Z.mod_small. lia.
Qed.

(** [C2, as amended] Statistics of a window with at least one counted
    request.  When the counted requests have non-zero latencies whose sum
    fits 64 bits, the [PerfStatus] that [Summarize] leaves satisfies
    [request_count = n >= 1], [min <= avg <= max] and [std_us >= 0].  The
    rate is a binary32 quotient truncated to an integer.  For a window of
    [window_ms] milliseconds, fewer than 2^24 inferences and a rate that
    fits an [int], it is [r >= 0] with
    [r * window_ms <= (1 + 2^-21) * 1000 * n * batch_size] and
    [(1 - 2^-21) * 1000 * n * batch_size < (r + 1) * window_ms]; hence the
    count is read back from the rate to within 1 when
    [window_ms + 1000 * n * batch_size / 2^21 < 1000 * batch_size + g]
    for a common divisor [g] of [window_ms] and [1000 * batch_size]
    (1 is one; 1000 is one for whole seconds), that is for a window no
    longer than [batch_size] seconds.  With a
    window of [2^j] seconds (1, 2, 4 or 8 s) the rate is
    [n * batch_size / 2^j] rounded down, so the rate times the window
    length is at most [n * batch_size] and falls short of it by less than
    the window length, and the count is read back to within 1 exactly when
    [(n * batch_size) mod 2^j <= batch_size]. *)
Theorem sampler_statistics {C} (cfg : SamplerConfig) (summary : PerfStatus)
    (l : list Timestamp) (start_status end_status : ModelStatus C)
    (start_stat end_stat : Stat) :
  let cs := fst (client_window cfg l) in
  let ce := snd (client_window cfg l) in
  let lats := map request_latency (counted cs ce l) in
  let n := Z.of_nat (length lats) in
  let out := snd (Summarize cfg summary l start_status end_status
                    start_stat end_stat) in
  lats <> [] ->
  Forall (fun x => 0 < x) lats ->
  Zsum lats < 2 ^ 64 ->
  Z.of_nat (length l) < 2 ^ 64 ->
  client_request_count out = n
  /\ 1 <= n
  /\ client_min_latency_ns out <= client_avg_latency_ns out
                               <= client_max_latency_ns out
  /\ 0 <= std_us out
  /\ (0 < measurement_window_ms_ cfg < 2 ^ 31 ->
      0 < batch_size_ cfg -> n * batch_size_ cfg < 2 ^ 24 ->
      1000 * (n * batch_size_ cfg) < 2 ^ 30 * measurement_window_ms_ cfg ->
      0 <= client_infer_per_sec out
      /\ 2 ^ 21 * (client_infer_per_sec out * measurement_window_ms_ cfg)
         <= (2 ^ 21 + 1) * (1000 * (n * batch_size out))
      /\ (2 ^ 21 - 1) * (1000 * (n * batch_size out))
         < 2 ^ 21
           * ((client_infer_per_sec out + 1) * measurement_window_ms_ cfg)
      /\ (forall g : Z,
            0 < g ->
            (g | measurement_window_ms_ cfg) -> (g | 1000 * batch_size out) ->
            2 ^ 21 * measurement_window_ms_ cfg + 1000 * (n * batch_size out)
            < 2 ^ 21 * (1000 * batch_size out + g) ->
            reconstructs_count (measurement_window_ms_ cfg) out n))
  /\ (forall j : Z,
        0 <= j <= 3 ->
        measurement_window_ms_ cfg = 2 ^ j * 1000 ->
        0 < batch_size_ cfg -> n * batch_size_ cfg < 2 ^ 24 ->
        client_infer_per_sec out = n * batch_size out / 2 ^ j
        /\ n * batch_size out - 2 ^ j
           < client_infer_per_sec out * 2 ^ j <= n * batch_size out
        /\ (reconstructs_count (2 ^ j * 1000) out n
            <-> (n * batch_size out) mod 2 ^ j <= batch_size out)).
Proof.
  intros cs ce lats n out Hne Hpos Hsum Hlen.
  assert (Hn : 1 <= n).
  { unfold n. destruct lats; [congruence | simpl length; lia]. }
  assert (Hlen' : Z.of_nat (length lats) < 2 ^ 64).
  { unfold lats. rewrite length_map.
    pose proof (counted_length cs ce l). lia. }
  pose proof (tally_latencies lats Hpos Hsum Hlen') as (Hc & _).
  pose proof (tally_min_avg_max lats Hne Hpos Hsum Hlen') as Hmam.
  cbv zeta in Hc, Hmam. rewrite Hc in Hmam. fold n in Hmam.
  assert (Htally : tally_timestamps cs ce l
                   = fold_left tally_request lats tally_init)
    by apply tally_timestamps_counted.
  subst out. rewrite Summarize_unfold. cbv zeta. fold cs ce.
  rewrite Htally, Hc. fold n.
  destruct (Z.eqb_spec n 0) as [? | _]; [lia |].
  set (sc := summarize_client cfg summary (u64 (ce - cs))
               (fold_left tally_request lats tally_init) start_stat
               end_stat).
  pose proof (summarize_server_frame cfg sc start_status end_status)
    as (_ & Hb & Hcnt & _ & Hmin & Hmax & Havg & Hstd & _ & _ & _ & Hips).
  unfold reconstructs_count.
  rewrite Hcnt, Hmin, Hmax, Havg, Hstd.
  setoid_rewrite Hb. setoid_rewrite Hips.
  unfold sc. simpl.
  rewrite Hc. fold n.
  split; [reflexivity |]. split; [exact Hn |].
  split; [exact Hmam |]. split; [apply to_u64_range |].
  split.
  - intros HW Hbs Hnb Hfit.
    unfold cs, ce. rewrite client_duration_is_window by lia.
    pose proof (client_infer_per_sec_bounds n (batch_size_ cfg)
                  (measurement_window_ms_ cfg) HW ltac:(nia) Hfit)
      as (H0 & Hup & Hdown).
    cbv zeta in H0, Hup, Hdown.
    set (rate := client_infer_per_sec_of n (batch_size_ cfg)
                   (measurement_window_ms_ cfg * 1000000)) in *.
    split; [exact H0 |]. split; [exact Hup |]. split; [exact Hdown |].
    intros g Hg [kw Hkw] [kb Hkb] Hshort. unfold NANOS_PER_SECOND.
    assert (Hmult : rate * measurement_window_ms_ cfg
                    - 1000 * (n * batch_size_ cfg) + 1000 * batch_size_ cfg
                    = (rate * kw - n * kb + kb) * g).
    { rewrite Hkw. replace (1000 * (n * batch_size_ cfg))
        with (n * (1000 * batch_size_ cfg)) by ring.
      rewrite Hkb. ring. }
    assert (Hk : 0 <= rate * kw - n * kb + kb).
    { destruct (Z.lt_ge_cases (rate * kw - n * kb + kb) 0) as [Hneg |];
        [| assumption].
      assert ((rate * kw - n * kb + kb) * g <= -1 * g)
        by (apply Z.mul_le_mono_nonneg_r; lia).
      lia. }
    assert (0 <= (rate * kw - n * kb + kb) * g)
      by (apply Z.mul_nonneg_nonneg; lia).
    assert (g <= measurement_window_ms_ cfg).
    { destruct (Z.lt_ge_cases 0 kw) as [| Hle].
      - assert (1 * g <= kw * g) by (apply Z.mul_le_mono_nonneg_r; lia).
        lia.
      - assert (kw * g <= 0 * g) by (apply Z.mul_le_mono_nonneg_r; lia).
        lia. }
    lia.
  - intros j Hj HW Hbs Hnb.
    assert (Hpj : 0 < 2 ^ j) by (apply Z.pow_pos_nonneg; lia).
    assert (Hj8 : 2 ^ j <= 2 ^ 3) by (apply Z.pow_le_mono_r; lia).
    assert (Hips1 : client_infer_per_sec_of n (batch_size_ cfg)
                      (u64 (ce - cs))
                    = n * batch_size_ cfg / 2 ^ j).
    { unfold cs, ce. rewrite client_duration_is_window by lia. rewrite HW.
      replace (2 ^ j * 1000 * 1000000) with (2 ^ j * 1000000000) by lia.
      apply client_infer_per_sec_pow2_seconds; [exact Hj | nia]. }
    rewrite Hips1. split; [reflexivity |].
    pose proof (Z.div_mod (n * batch_size_ cfg) (2 ^ j) ltac:(lia)) as Hdm.
    pose proof (Z.mod_pos_bound (n * batch_size_ cfg) (2 ^ j) Hpj) as Hmb.
    split; [lia |].
    unfold NANOS_PER_SECOND.
    replace (n * batch_size_ cfg / 2 ^ j * (2 ^ j * 1000 * 1000000)
             - n * batch_size_ cfg * 1000000000)
      with (- ((n * batch_size_ cfg) mod 2 ^ j * 1000000000)) by lia.
    rewrite Z.abs_opp, Z.abs_eq by lia. lia.
Qed.

(** [C2, counterexample] With a window of five seconds and batch size 1,
    four requests are counted and the reported rate is
    [(int)(4 / 5.0f) = 0]: the rate times the window length gives 0, which
    is not within 1 of the count 4. *)
Lemma sampler_rate_does_not_give_count :
  let out := snd Scenario.slow_summary in
  fst Scenario.slow_summary = Success
  /\ client_request_count out = 4
  /\ ~ (client_min_latency_ns out <= client_avg_latency_ns out
                                  <= client_max_latency_ns out
        /\ 0 <= std_us out
        /\ reconstructs_count 5000 out (client_request_count out)).
Proof.
  cbv zeta.
  assert (Hn : client_request_count (snd Scenario.slow_summary) = 4)
    by (vm_compute; reflexivity).
  assert (Hips : client_infer_per_sec (snd Scenario.slow_summary) = 0)
    by (vm_compute; reflexivity).
  assert (Hb : batch_size (snd Scenario.slow_summary) = 1)
    by (vm_compute; reflexivity).
  split; [vm_compute; reflexivity |]. split; [exact Hn |].
  intros (_ & _ & H). unfold reconstructs_count in H.
  rewrite Hn, Hips, Hb in H. unfold NANOS_PER_SECOND in H. simpl in H. lia.
Qed.

(** ** The standard deviation *)

(** Below 2^32 ns (4.29 s) no square wraps: for fewer than 10^6 such
    latencies the accumulated value is the sum of the squares, each
    divided by 10^6. *)
Lemma tally_squares_below_wrap (lats : list Z) :
  Forall (fun x => 0 <= x < 2 ^ 32) lats ->
  Z.of_nat (length lats) < 1000000 ->
  tol_square_latency_us (fold_left tally_request lats tally_init)
  = Zsum (map (fun x => x * x / 1000000) lats).
Proof.
  intros Hall Hlen.
  assert (Hgen : forall l,
    Forall (fun x => 0 <= x < 2 ^ 32) l ->
    Z.of_nat (length l) < 1000000 ->
    tol_square_latency_us (fold_left tally_request l tally_init)
    = Zsum (map (fun x => x * x / 1000000) l)
    /\ 0 <= Zsum (map (fun x => x * x / 1000000) l)
         <= Z.of_nat (length l) * 18446744073710).
  { clear. induction l as [| x l IH] using rev_ind; intros Hall Hlen.
    - simpl. lia.
    - apply Forall_app in Hall as [Hl Hx]. apply Forall_inv in Hx.
      rewrite length_app in Hlen |- *. simpl length in *.
      destruct IH as [IH Hb]; [exact Hl | lia |].
      rewrite fold_left_app, map_app. cbn [map]. rewrite Zsum_snoc.
      cbn [fold_left tally_request tol_square_latency_us].
      rewrite IH.
      assert (Hsq : 0 <= x * x < 2 ^ 64) by nia.
      rewrite (u64_small (x * x)) by exact Hsq.
      assert (Hq : 0 <= x * x / 1000000 <= 18446744073710).
      { split; [apply Z.div_pos; lia |].
        apply Z.div_le_upper_bound; lia. }
      change (1000 * 1000) with 1000000.
      rewrite u64_small by lia. split; [reflexivity | lia]. }
  apply Hgen; assumption.
Qed.

(** [C5] Latencies of 1 s and 5 s in one window.  The square of 5 * 10^9
    does not fit 64 bits: it is formed in nanoseconds before the division
    by 10^6, wraps, and the reported standard deviation is 0 where the
    formula of the specification gives 2 000 000 microseconds. *)
Theorem std_us_wraps_for_long_latencies :
  let out := snd Scenario.one_and_five_summary in
  map request_latency Scenario.one_and_five = [1000000000; 5000000000]
  /\ fst Scenario.one_and_five_summary = Success
  /\ client_request_count out = 2
  /\ std_us out = 0
  /\ spec_std_us [1000000000; 5000000000] = 2000000.
Proof. vm_compute. repeat split; reflexivity. Qed.

(** ** Context statistics *)

(** When no request completed between the two snapshots, the three
    averages keep the values [summary] had on entry. *)
Lemma zero_completed_keeps_averages (cfg : SamplerConfig)
    (summary : PerfStatus) (duration : Z) (t : Tally)
    (start_stat end_stat : Stat) :
  u64 (completed_request_count end_stat
       - completed_request_count start_stat) = 0 ->
  let out := summarize_client cfg summary duration t start_stat end_stat in
  client_avg_request_time_ns out = client_avg_request_time_ns summary
  /\ client_avg_send_time_ns out = client_avg_send_time_ns summary
  /\ client_avg_receive_time_ns out = client_avg_receive_time_ns summary.
Proof.
  intros H. unfold summarize_client. simpl. rewrite H. simpl.
  repeat split; reflexivity.
Qed.

(** [C7] A window in which no request completes between the two context
    snapshots, entered with the [summary] of the previous window.
    [Summarize] succeeds and divides nothing, but the three averages it
    reports are those of the previous window, not zero. *)
Theorem idle_window_reports_previous_averages :
  let start_stat := GetAccumulatedContextStat Scenario.stalled_cells in
  let end_stat := GetAccumulatedContextStat Scenario.stalled_cells in
  let out := snd Scenario.idle_summary in
  u64 (completed_request_count end_stat
       - completed_request_count start_stat) = 0
  /\ fst Scenario.idle_summary = Success
  /\ client_avg_request_time_ns out = 7400000000
  /\ client_avg_send_time_ns out = 20000
  /\ client_avg_receive_time_ns out = 30000.
Proof. vm_compute. repeat split; reflexivity. Qed.

(** ** The stability detector *)

Lemma spec_within_scale (percent c sum x : Z) :
  0 < c ->
  spec_within percent (c * sum) (c * x) = spec_within percent sum x.
Proof.
  intros Hc. unfold spec_within. f_equal.
  - destruct (Z.leb_spec ((100 - percent) * (c * sum)) (300 * (c * x))),
      (Z.leb_spec ((100 - percent) * sum) (300 * x)); try reflexivity; nia.
  - destruct (Z.leb_spec (300 * (c * x)) ((100 + percent) * (c * sum))),
      (Z.leb_spec (300 * x) ((100 + percent) * sum)); try reflexivity; nia.
Qed.

(** The rule in exact arithmetic does not change under scaling. *)
Lemma spec_stable_scale (percent c : Z) (samples : list (Z * Z)) :
  0 < c ->
  spec_stable percent (scale_samples c samples) = spec_stable percent samples.
Proof.
  intros Hc. unfold spec_stable, scale_samples. rewrite <- map_rev.
  destruct (rev samples) as [| z [| y [| x rest]]]; try reflexivity.
  simpl. rewrite <- !Z.mul_add_distr_l.
  rewrite !spec_within_scale by exact Hc. reflexivity.
Qed.

(** ** Binary64 operations under scaling by a power of two *)

Lemma fexp64 (e : Z) : fexp 53 1024 e = Z.max (e - 53) (-1074).
Proof. reflexivity. Qed.

Lemma shr_exponent (mrs : shr_record) (e n : Z) :
  e <= snd (shr mrs e n).
Proof. unfold shr. destruct n; simpl; lia. Qed.

Lemma shr_scale (mrs : shr_record) (e n j : Z) :
  shr mrs (e + j) n = (fst (shr mrs e n), snd (shr mrs e n) + j).
Proof. unfold shr. destruct n; simpl; f_equal; lia. Qed.

Lemma shr_nonpos (mrs : shr_record) (e n : Z) :
  n <= 0 -> shr mrs e n = (mrs, e).
Proof. unfold shr. destruct n; try reflexivity. lia. Qed.

(** The shift to the canonical exponent does not depend on the scale, as
    long as the exponent is not below the smallest one. *)
Lemma shr_fexp_scale (m e : Z) (l : location) (j : Z) :
  0 <= j -> -1074 <= e ->
  shr_fexp 53 1024 m (e + j) l
  = (fst (shr_fexp 53 1024 m e l), snd (shr_fexp 53 1024 m e l) + j).
Proof.
  intros Hj He. unfold shr_fexp. rewrite !fexp64.
  set (D := Zdigits2 m).
  destruct (Z.le_gt_cases (-1074) (D + e - 53)) as [Hlin | Hsub].
  - replace (Z.max (D + (e + j) - 53) (-1074) - (e + j))
      with (Z.max (D + e - 53) (-1074) - e) by lia.
    apply shr_scale.
  - rewrite (shr_nonpos _ (e + j)) by lia.
    rewrite (shr_nonpos _ e) by lia. reflexivity.
Qed.

Lemma shr_fexp_exponent (m e : Z) (l : location) :
  e <= snd (shr_fexp 53 1024 m e l).
Proof. unfold shr_fexp. apply shr_exponent. Qed.

Lemma binary_round_aux_scale (s : bool) (m e : Z) (l : location) (j : Z) :
  0 <= j -> -1074 <= e ->
  binary_round_aux 53 1024 s m (e + j) l
  = scale2_overflow j (binary_round_aux 53 1024 s m e l).
Proof.
  intros Hj He. unfold binary_round_aux.
  rewrite shr_fexp_scale by assumption.
  pose proof (shr_fexp_exponent m e l) as He1.
  destruct (shr_fexp 53 1024 m e l) as [mrs' e1]. simpl fst. simpl snd in *.
  rewrite shr_fexp_scale by lia.
  destruct (shr_fexp 53 1024 _ e1 loc_Exact) as [mrs'' e2].
  simpl fst. simpl snd.
  destruct (shr_m mrs'') as [| p | p]; try reflexivity.
  destruct (Z.leb_spec e2 (1024 - 53)) as [Hle | Hgt]; simpl.
  - reflexivity.
  - destruct (Z.leb_spec (e2 + j) (1024 - 53)); [lia | reflexivity].
Qed.

Lemma shl_align_scale (mx : positive) (ex ex' j : Z) :
  shl_align mx (ex + j) (ex' + j)
  = (fst (shl_align mx ex ex'), snd (shl_align mx ex ex') + j).
Proof.
  unfold shl_align. replace (ex' + j - (ex + j)) with (ex' - ex) by lia.
  destruct (ex' - ex); reflexivity.
Qed.

Lemma shl_align_exponent (mx : positive) (ex ex' : Z) :
  snd (shl_align mx ex ex') = Z.min ex ex'.
Proof.
  unfold shl_align. destruct (ex' - ex) eqn:E; simpl; lia.
Qed.

Lemma binary_round_scale (s : bool) (p : positive) (e j : Z) :
  0 <= j -> -1021 <= e ->
  binary_round 53 1024 s p (e + j)
  = scale2_overflow j (binary_round 53 1024 s p e).
Proof.
  intros Hj He. unfold binary_round. rewrite !fexp64.
  assert (Hd : 1 <= Z.pos (digits2_pos p)) by lia.
  replace (Z.max (Z.pos (digits2_pos p) + (e + j) - 53) (-1074))
    with (Z.max (Z.pos (digits2_pos p) + e - 53) (-1074) + j) by lia.
  rewrite shl_align_scale.
  pose proof (shl_align_exponent p e
                (Z.max (Z.pos (digits2_pos p) + e - 53) (-1074))) as Hse.
  destruct (shl_align p e _) as [mz ez]. simpl fst. simpl snd in *.
  apply binary_round_aux_scale; lia.
Qed.

Lemma binary_normalize_scale (m e j : Z) (szero : bool) :
  0 <= j -> -1021 <= e ->
  binary_normalize 53 1024 m (e + j) szero
  = scale2_overflow j (binary_normalize 53 1024 m e szero).
Proof.
  intros Hj He. unfold binary_normalize.
  destruct m; [reflexivity | |]; apply binary_round_scale; assumption.
Qed.

(** A [roomy] value is zero or finite, and scaling it does not
    overflow. *)
Lemma roomy_scale2_overflow (j : Z) (x : spec_float) :
  roomy j x = true -> scale2_overflow j x = scale2 j x.
Proof.
  destruct x as [s | s | | s m e]; simpl; try reflexivity.
  rewrite !andb_true_iff, !Z.leb_le. intros [[_ _] Hhi].
  destruct (Z.leb_spec (e + j) (1024 - 53)); [reflexivity | lia].
Qed.

Lemma F64_mul_scale (j : Z) (x y : spec_float) :
  0 <= j -> roomy j x = true -> roomy 0 y = true ->
  F64.mul (scale2 j x) y = scale2_overflow j (F64.mul x y).
Proof.
  intros Hj Hx Hy. unfold F64.mul, F64.prec, F64.emax.
  destruct x as [sx | sx | | sx mx ex], y as [sy | sy | | sy my ey];
    try discriminate; try reflexivity.
  simpl in Hx, Hy. rewrite !andb_true_iff, !Z.leb_le in Hx, Hy.
  simpl scale2. unfold SFmul.
  replace (ex + j + ey) with (ex + ey + j) by lia.
  apply binary_round_aux_scale; lia.
Qed.

Lemma F64_div_scale (j : Z) (x y : spec_float) :
  0 <= j -> roomy j x = true -> roomy 0 y = true ->
  F64.div (scale2 j x) y = scale2_overflow j (F64.div x y).
Proof.
  intros Hj Hx Hy. unfold F64.div, F64.prec, F64.emax.
  destruct x as [sx | sx | | sx mx ex], y as [sy | sy | | sy my ey];
    try discriminate; try reflexivity.
  simpl in Hx, Hy. rewrite !andb_true_iff, !Z.leb_le in Hx, Hy.
  simpl scale2. unfold SFdiv, SFdiv_core_binary, Zdigits2.
  rewrite !fexp64.
  set (d1 := Z.pos (digits2_pos mx)) in *.
  set (d2 := Z.pos (digits2_pos my)) in *.
  assert (Hd1 : 1 <= d1) by (unfold d1; lia).
  assert (Hd2 : 1 <= d2) by (unfold d2; lia).
  replace (Z.min (Z.max (d1 + (ex + j) - (d2 + ey) - 53) (-1074))
             (ex + j - ey))
    with (Z.min (Z.max (d1 + ex - (d2 + ey) - 53) (-1074)) (ex - ey) + j)
    by lia.
  set (e' := Z.min (Z.max (d1 + ex - (d2 + ey) - 53) (-1074)) (ex - ey)).
  replace (ex + j - ey - (e' + j)) with (ex - ey - e') by lia.
  destruct (Z.div_eucl _ (Z.pos my)) as [q r].
  apply binary_round_aux_scale; [exact Hj | unfold e'; lia].
Qed.

Lemma F64_add_scale (j : Z) (x y : spec_float) :
  0 <= j -> roomy j x = true -> roomy j y = true ->
  F64.add (scale2 j x) (scale2 j y) = scale2_overflow j (F64.add x y).
Proof.
  intros Hj Hx Hy. unfold F64.add, F64.prec, F64.emax.
  destruct x as [sx | sx | | sx mx ex], y as [sy | sy | | sy my ey];
    try discriminate.
  - destruct sx, sy; reflexivity.
  - simpl SFadd. symmetry. apply (roomy_scale2_overflow j _ Hy).
  - simpl SFadd. symmetry. apply (roomy_scale2_overflow j _ Hx).
  - simpl in Hx, Hy. rewrite !andb_true_iff, !Z.leb_le in Hx, Hy.
    simpl scale2. unfold SFadd.
    replace (Z.min (ex + j) (ey + j)) with (Z.min ex ey + j) by lia.
    rewrite !shl_align_scale. simpl fst.
    apply binary_normalize_scale; lia.
Qed.

Lemma F64_sub_scale (j : Z) (x y : spec_float) :
  0 <= j -> roomy j x = true -> roomy j y = true ->
  F64.sub (scale2 j x) (scale2 j y) = scale2_overflow j (F64.sub x y).
Proof.
  intros Hj Hx Hy. unfold F64.sub, F64.prec, F64.emax.
  destruct x as [sx | sx | | sx mx ex], y as [sy | sy | | sy my ey];
    try discriminate.
  - destruct sx, sy; reflexivity.
  - simpl SFsub. simpl in Hy. rewrite !andb_true_iff, !Z.leb_le in Hy.
    simpl scale2_overflow.
    destruct (Z.leb_spec (ey + j) (1024 - 53)); [reflexivity | lia].
  - simpl SFsub. symmetry. apply (roomy_scale2_overflow j _ Hx).
  - simpl in Hx, Hy. rewrite !andb_true_iff, !Z.leb_le in Hx, Hy.
    simpl scale2. unfold SFsub.
    replace (Z.min (ex + j) (ey + j)) with (Z.min ex ey + j) by lia.
    rewrite !shl_align_scale. simpl fst.
    apply binary_normalize_scale; lia.
Qed.

(** Comparison does not see a common scale. *)
Lemma F64_ltb_scale (j : Z) (x y : spec_float) :
  F64.ltb (scale2 j x) (scale2 j y) = F64.ltb x y.
Proof.
  unfold F64.ltb, SFltb.
  destruct x as [sx | sx | | sx mx ex], y as [sy | sy | | sy my ey];
    try reflexivity.
  simpl. rewrite (Z.add_comm ex), (Z.add_comm ey), Z.add_compare_mono_l.
  reflexivity.
Qed.

Lemma same_binade (z a b : Z) :
  0 < z -> 0 <= a -> 0 <= b ->
  2 ^ 52 <= z * 2 ^ a < 2 ^ 53 -> 2 ^ 52 <= z * 2 ^ b < 2 ^ 53 -> a = b.
Proof.
  intros Hz Ha Hb HA HB.
  destruct (Z.lt_trichotomy a b) as [Hlt | [Heq | Hgt]]; [| exact Heq |].
  - assert (2 ^ (a + 1) <= 2 ^ b) by (apply Z.pow_le_mono_r; lia).
    rewrite Z.pow_add_r in H by lia. change (2 ^ 1) with 2 in H.
    assert (0 < 2 ^ a) by (apply Z.pow_pos_nonneg; lia). nia.
  - assert (2 ^ (b + 1) <= 2 ^ a) by (apply Z.pow_le_mono_r; lia).
    rewrite Z.pow_add_r in H by lia. change (2 ^ 1) with 2 in H.
    assert (0 < 2 ^ b) by (apply Z.pow_pos_nonneg; lia). nia.
Qed.

(** Converting [2^j * z] gives the conversion of [z] scaled by [2^j], as
    long as the product has at most 53 bits. *)
Lemma F64_of_Z_scale (j z : Z) :
  0 <= j -> 0 <= z -> 2 ^ j * z < 2 ^ 53 ->
  F64.of_Z (2 ^ j * z) = scale2 j (F64.of_Z z).
Proof.
  intros Hj Hz Hfit.
  assert (Hpj : 0 < 2 ^ j) by (apply Z.pow_pos_nonneg; lia).
  destruct (Z.eq_dec z 0) as [-> | Hnz];
    [rewrite Z.mul_0_r; reflexivity |].
  unfold F64.of_Z, F64.prec, F64.emax.
  destruct (binary_normalize_exact 53 1024 ltac:(lia) ltac:(lia) z)
    as (m & e & -> & [Hd _] & He & Hm); [nia |].
  destruct (binary_normalize_exact 53 1024 ltac:(lia) ltac:(lia)
              (2 ^ j * z))
    as (m' & e' & -> & [Hd' _] & He' & Hm'); [nia |].
  pose proof (digits2_pos_bounds m) as Hb. rewrite Hd in Hb.
  pose proof (digits2_pos_bounds m') as Hb'. rewrite Hd' in Hb'.
  change (53 - 1) with 52 in Hb, Hb'.
  assert (Hm'' : Z.pos m' = z * 2 ^ (j - e')).
  { rewrite Hm'. replace (j - e') with (j + - e') by lia.
    rewrite Z.pow_add_r by lia. lia. }
  assert (Heq : - e = j - e').
  { assert (HA : 2 ^ 52 <= z * 2 ^ (- e) < 2 ^ 53)
      by (rewrite <- Hm; exact Hb).
    assert (HB : 2 ^ 52 <= z * 2 ^ (j - e') < 2 ^ 53)
      by (rewrite <- Hm''; exact Hb').
    apply (same_binade z); [lia | lia | lia | exact HA | exact HB]. }
  simpl scale2. f_equal.
  - apply Pos2Z.inj. rewrite Hm, Hm''. f_equal. f_equal. exact (eq_sym Heq).
  - lia.
Qed.

Lemma F64_of_Z_roomy (j z : Z) :
  0 <= j <= 300 -> 0 <= z < 2 ^ 53 -> roomy j (F64.of_Z z) = true.
Proof.
  intros Hj Hz. destruct (Z.eq_dec z 0) as [-> | Hnz]; [reflexivity |].
  unfold F64.of_Z, F64.prec, F64.emax.
  destruct (binary_normalize_exact 53 1024 ltac:(lia) ltac:(lia) z)
    as (m & e & -> & [Hd _] & He & Hm); [lia |].
  simpl. rewrite Hd, !andb_true_iff, !Z.leb_le. lia.
Qed.

(** ** The detector under scaling by a power of two *)

Lemma nth_map_mul (c : Z) (l : list Z) (n : nat) :
  nth n (map (Z.mul c) l) 0 = c * nth n l 0.
Proof.
  revert n. induction l as [| x l IH]; intros [| n]; simpl; try lia.
  apply IH.
Qed.

Lemma nth_Forall_default (P : Z -> Prop) (l : list Z) (n : nat) :
  P 0 -> Forall P l -> P (nth n l 0).
Proof.
  intros H0 Hall. revert n.
  induction Hall as [| x l Hx _ IH]; intros [| n]; simpl; auto.
Qed.

Lemma forallb_pointwise {A} (f g : A -> bool) (l : list A) :
  (forall x, f x = g x) -> forallb f l = forallb g l.
Proof.
  intros H. induction l as [| x l IH]; simpl; [reflexivity |].
  rewrite H, IH. reflexivity.
Qed.

Lemma div3_scale (c x : Z) : x mod 3 = 0 -> c * x / 3 = c * (x / 3).
Proof.
  intros Hx. apply Z.divide_div_mul_exact; [lia |].
  apply Z.mod_divide; [lia | exact Hx].
Qed.

(** The third of a sample under scaling. *)
Lemma third_scale (j z : Z) :
  0 <= j -> 0 <= z -> 2 ^ j * z < 2 ^ 53 ->
  roomy j (F64.of_Z z) = true ->
  roomy j (F64.div (F64.of_Z z) (F64.of_Z 3)) = true ->
  F64.div (F64.of_Z (2 ^ j * z)) (F64.of_Z 3)
  = scale2 j (F64.div (F64.of_Z z) (F64.of_Z 3)).
Proof.
  intros Hj Hz Hfit Hr Hr3.
  rewrite F64_of_Z_scale by assumption.
  rewrite F64_div_scale; [| exact Hj | exact Hr | reflexivity].
  apply roomy_scale2_overflow. exact Hr3.
Qed.

Lemma out_of_band_scale (j : Z) (stable_offset x a : spec_float) :
  0 <= j -> roomy j a = true ->
  roomy 0 (F64.sub (F64.of_Z 1) stable_offset) = true ->
  roomy 0 (F64.add (F64.of_Z 1) stable_offset) = true ->
  roomy j (F64.mul a (F64.sub (F64.of_Z 1) stable_offset)) = true ->
  roomy j (F64.mul a (F64.add (F64.of_Z 1) stable_offset)) = true ->
  out_of_band stable_offset (scale2 j x) (scale2 j a)
  = out_of_band stable_offset x a.
Proof.
  intros Hj Ha Hlow Hhigh Hpl Hph. unfold out_of_band.
  rewrite !F64_mul_scale by assumption.
  rewrite !roomy_scale2_overflow by assumption.
  rewrite !F64_ltb_scale. reflexivity.
Qed.

Lemma band_check_scale (j : Z) (stable_offset : spec_float) (x : Z)
    (a : spec_float) :
  0 <= j -> 0 <= x -> 2 ^ j * x < 2 ^ 53 ->
  roomy j a = true ->
  roomy 0 (F64.sub (F64.of_Z 1) stable_offset) = true ->
  roomy 0 (F64.add (F64.of_Z 1) stable_offset) = true ->
  roomy j (F64.mul a (F64.sub (F64.of_Z 1) stable_offset)) = true ->
  roomy j (F64.mul a (F64.add (F64.of_Z 1) stable_offset)) = true ->
  out_of_band stable_offset (F64.of_Z (2 ^ j * x)) (scale2 j a)
  = out_of_band stable_offset (F64.of_Z x) a.
Proof.
  intros Hj Hx Hfit Ha Hlow Hhigh Hpl Hph.
  rewrite F64_of_Z_scale by assumption.
  apply out_of_band_scale; assumption.
Qed.

Lemma samples_fit_push (j : Z) (st : Stability) (ips lat : Z) :
  samples_fit j st ->
  0 <= ips -> 2 ^ j * ips < 2 ^ 31 ->
  0 <= lat -> lat mod 3 = 0 -> 2 ^ j * lat < 2 ^ 53 ->
  Forall (fun x => 0 <= x /\ 2 ^ j * x < 2 ^ 53) (infer_per_sec st ++ [ips])
  /\ Forall (fun x => 0 <= x /\ x mod 3 = 0 /\ 2 ^ j * x < 2 ^ 53)
       (latencies st ++ [lat]).
Proof.
  intros [Hfi Hfl] H1 H2 H3 H4 H5. split; apply Forall_app; split;
    try assumption; constructor; try constructor; lia.
Qed.

Lemma pass_exact_scale (j : Z) (off : spec_float) (st : Stability)
    (ips lat : Z) :
  0 <= j -> samples_fit j st -> pass_exact j off st ips lat = true ->
  record_measurement off (scale_state j st) (2 ^ j * ips) (2 ^ j * lat)
  = scale_state j (record_measurement off st ips lat)
  /\ samples_fit j (record_measurement off st ips lat).
Proof.
  intros Hj Hfit Hp.
  assert (Hpj : 1 <= 2 ^ j) by (apply (Z.pow_le_mono_r 2 0 j); lia).
  unfold pass_exact in Hp. cbv zeta in Hp.
  unfold record_measurement, scale_state.
  cbn [infer_per_sec latencies stable avg_ips avg_latency].
  replace (map (Z.mul (2 ^ j)) (infer_per_sec st) ++ [2 ^ j * ips])
    with (map (Z.mul (2 ^ j)) (infer_per_sec st ++ [ips]))
    by (rewrite map_app; reflexivity).
  replace (map (Z.mul (2 ^ j)) (latencies st) ++ [2 ^ j * lat])
    with (map (Z.mul (2 ^ j)) (latencies st ++ [lat]))
    by (rewrite map_app; reflexivity).
  rewrite !length_map.
  set (L := infer_per_sec st ++ [ips]) in *.
  set (M := latencies st ++ [lat]) in *.
  set (size := Z.of_nat (length L)) in *.
  rewrite !nth_map_mul.
  set (old_ips := nth (Z.to_nat (size - recent_k) - 1) L 0) in *.
  set (old_lat := nth (Z.to_nat (size - recent_k) - 1) M 0) in *.
  change recent_k with 3 in *.
  split_andb. bool_to_Z.
  destruct (samples_fit_push j st ips lat) as [HL HM]; try assumption.
  fold L in HL. fold M in HM.
  assert (Hold_ips : 0 <= old_ips /\ 2 ^ j * old_ips < 2 ^ 53).
  { unfold old_ips.
    apply (nth_Forall_default (fun x => 0 <= x /\ 2 ^ j * x < 2 ^ 53));
      [lia | exact HL]. }
  assert (Hold_lat :
    0 <= old_lat /\ old_lat mod 3 = 0 /\ 2 ^ j * old_lat < 2 ^ 53).
  { unfold old_lat.
    apply (nth_Forall_default
             (fun x => 0 <= x /\ x mod 3 = 0 /\ 2 ^ j * x < 2 ^ 53));
      [repeat split; lia | exact HM]. }
  assert (Hdiv_lat : 0 <= lat / 3) by (apply Z.div_pos; lia).
  assert (Hdiv_old : 0 <= old_lat / 3) by (apply Z.div_pos; lia).
  (* the running means *)
  rewrite (third_scale j ips) by (assumption || lia).
  rewrite (third_scale j old_ips) by (assumption || lia).
  rewrite (F64_add_scale j (avg_ips st)) by assumption.
  rewrite (roomy_scale2_overflow j (F64.add _ _)) by assumption.
  rewrite !div3_scale by lia.
  rewrite <- Z.mul_add_distr_l.
  rewrite (u64_small (2 ^ j * _)) by nia.
  rewrite (u64_small (avg_latency st + lat / 3)) by nia.
  rewrite <- Z.mul_sub_distr_l.
  assert (HnL : forall i, 0 <= nth i L 0 /\ 2 ^ j * nth i L 0 < 2 ^ 53).
  { intros i.
    apply (nth_Forall_default (fun x => 0 <= x /\ 2 ^ j * x < 2 ^ 53));
      [lia | exact HL]. }
  assert (HnM : forall i, 0 <= nth i M 0 /\ 2 ^ j * nth i M 0 < 2 ^ 53).
  { intros i.
    apply (nth_Forall_default (fun x => 0 <= x /\ 2 ^ j * x < 2 ^ 53));
      [lia |].
    eapply Forall_impl; [exact HM |]. simpl. intros x Hx. lia. }
  remember (size >? 3) as gt eqn:Hgt.
  remember (size >=? 3) as ge eqn:Hge.
  destruct gt.
  - rewrite (F64_sub_scale j) by assumption.
    rewrite (roomy_scale2_overflow j (F64.sub _ _)) by assumption.
    rewrite (u64_small (2 ^ j * _)) by nia.
    rewrite (u64_small (avg_latency st + lat / 3 - old_lat / 3)) by nia.
    destruct ge; cbn [infer_per_sec latencies stable avg_ips avg_latency];
      (split; [| split; assumption]); [| reflexivity].
    f_equal. apply forallb_pointwise. intros i.
    rewrite !nth_map_mul.
    rewrite (F64_of_Z_scale j (avg_latency st + lat / 3 - old_lat / 3))
      by (assumption || nia).
    rewrite !band_check_scale by (assumption || apply HnL || apply HnM).
    reflexivity.
  - destruct ge; cbn [infer_per_sec latencies stable avg_ips avg_latency];
      (split; [| split; assumption]); [| reflexivity].
    f_equal. apply forallb_pointwise. intros i.
    rewrite !nth_map_mul.
    rewrite (F64_of_Z_scale j (avg_latency st + lat / 3))
      by (assumption || nia).
    rewrite !band_check_scale by (assumption || apply HnL || apply HnM).
    reflexivity.
Qed.

Lemma scale_state_init (j : Z) :
  scale_state j Stability_init = Stability_init.
Proof.
  unfold scale_state, Stability_init. simpl. rewrite Z.mul_0_r. reflexivity.
Qed.

Lemma run_exact_scale (j : Z) (off : spec_float) (samples : list (Z * Z))
    (st : Stability) :
  0 <= j -> samples_fit j st -> run_exact j off st samples = true ->
  fold_left (fun st sample =>
               record_measurement off st (fst sample) (snd sample))
    (scale_samples (2 ^ j) samples) (scale_state j st)
  = scale_state j
      (fold_left (fun st sample =>
                    record_measurement off st (fst sample) (snd sample))
         samples st).
Proof.
  intros Hj. revert st.
  induction samples as [| [ips lat] rest IH]; intros st Hfit Hrun;
    [reflexivity |].
  simpl in Hrun. apply andb_true_iff in Hrun as [Hpass Hrest].
  destruct (pass_exact_scale j off st ips lat Hj Hfit Hpass) as [Hstep Hfit'].
  simpl. rewrite Hstep. apply IH; assumption.
Qed.

(** [C3] Scaling every sample by [2^j] does not change the decision of
    the detector when the run is exact under that scaling: the samples
    are non-negative, every latency sample is a multiple of 3, the scaled
    rates fit an [int] and the scaled latency means 53 bits, and the
    [double] values the detector computes stay in the normal range. *)
Theorem stability_invariant_under_pow2_scaling (j : Z) (off : spec_float)
    (samples : list (Z * Z)) :
  0 <= j ->
  run_exact j off Stability_init samples = true ->
  stable (detector off (scale_samples (2 ^ j) samples))
  = stable (detector off samples).
Proof.
  intros Hj Hrun. unfold detector.
  rewrite <- (scale_state_init j) at 1.
  rewrite run_exact_scale; [reflexivity | exact Hj | | exact Hrun].
  split; constructor.
Qed.

(** Scaling by 3 changes the decision, at a tolerance of 10%.  With
    rates of 30, 34 and 36 the mean is the sum of the rounded thirds,
    which exceeds 100/3, and 90% of it exceeds 30: the run is declared
    not stable; with every sample multiplied by 3 the thirds are exact
    and the run is declared stable.  With latencies of 1000001, 1000001
    and 1157895 ns the latency mean is the sum of the truncated thirds,
    1052631, and the third sample exceeds 110% of it; multiplied by 3
    the thirds are exact and the run is declared stable.  In exact
    arithmetic every sample of both runs is within 10% of the mean of
    its three. *)
Lemma stability_changes_under_scaling :
  spec_stable 10 Scenario.band_edge = true
  /\ stable (detector ten_percent Scenario.band_edge) = false
  /\ stable (detector ten_percent (scale_samples 3 Scenario.band_edge))
     = true
  /\ spec_stable 10 Scenario.near_band = true
  /\ avg_latency (detector ten_percent Scenario.near_band) = 1052631
  /\ stable (detector ten_percent Scenario.near_band) = false
  /\ stable (detector ten_percent (scale_samples 3 Scenario.near_band))
     = true.
Proof. vm_compute. repeat split; reflexivity. Qed.

(** ** Reporting *)

Lemma udiv_None (a b : Z) : udiv a b = None <-> b = 0.
Proof.
  unfold udiv. destruct (Z.eqb_spec b 0); split; congruence.
Qed.

Lemma Report_None (summary : PerfStatus) :
  Report summary = None <-> server_request_count summary = 0.
Proof.
  unfold Report, udiv.
  destruct (Z.eqb_spec (server_request_count summary) 0) as [E | NE];
    simpl; split; congruence.
Qed.

Lemma csv_row_None (status : PerfStatus) :
  csv_row status = None <-> server_request_count status = 0.
Proof.
  unfold csv_row, udiv.
  destruct (Z.eqb_spec (server_request_count status) 0) as [E | NE];
    simpl; split; congruence.
Qed.

(** [C9] [Report] and the CSV writer divide by [server_request_count]
    without a guard: they are free of a division by zero exactly when that
    count is not zero.  The caller does not establish this: there is a
    run of the fixed-concurrency mode in which [Step] succeeds, the server
    counters did not move during the sleep, and [Report] divides by
    zero. *)
Theorem report_divides_by_server_request_count :
  (forall summary : PerfStatus,
      Report summary = None <-> server_request_count summary = 0)
  /\ (forall status : PerfStatus,
        csv_row status = None <-> server_request_count status = 0)
  /\ (exists out : PerfStatus,
        snd (Step Scenario.two_workers Scenario.blank 2
               [Scenario.stalled_window])
        = Some (Success, out, true)
        /\ server_request_count out = 0
        /\ client_request_count out = 1)
  /\ main_fixed Scenario.two_workers Scenario.blank 2
       [Scenario.stalled_window] = DivisionByZero.
Proof.
  split; [exact Report_None |]. split; [exact csv_row_None |].
  split; [| vm_compute; reflexivity].
  eexists. split; [vm_compute; reflexivity |].
  split; reflexivity.
Qed.

(** ** The server side *)

Lemma InitForModel_other {C} (GetModelConfig : string -> string + C)
    (model_name other : string) (ms : gmap string (ModelStatus C)) :
  other <> model_name ->
  snd (InitForModel GetModelConfig model_name ms) !! other = ms !! other.
Proof.
  intros Hne. unfold InitForModel.
  destruct (GetModelConfig model_name) as [msg | model_config];
    [reflexivity |].
  simpl. rewrite lookup_insert_ne by congruence.
  destruct (ms !! model_name); [| reflexivity].
  rewrite lookup_insert_ne by congruence. reflexivity.
Qed.

Lemma InitForModel_entry {C} (GetModelConfig : string -> string + C)
    (model_name : string) (model_config : C)
    (ms : gmap string (ModelStatus C)) :
  GetModelConfig model_name = inr model_config ->
  InitForModel GetModelConfig model_name ms
  = (Success,
     <[model_name := {| config := Some model_config;
                        version_status := ∅ |}]> ms).
Proof.
  intros Hcfg. unfold InitForModel. rewrite Hcfg. f_equal.
  destruct (ms !! model_name) as [old |] eqn:Hold.
  - rewrite lookup_insert_eq. simpl. apply insert_insert_eq.
  - rewrite Hold. reflexivity.
Qed.

Lemma lookup_stats_insert_eq {C} (ms : gmap string (ModelStatus C))
    (model_name : string) (status : ModelStatus C) (v b : Z) :
  lookup_stats (<[model_name := status]> ms) model_name v b
  = snapshot_stats status v b.
Proof. unfold lookup_stats. rewrite lookup_insert_eq. reflexivity. Qed.

Lemma lookup_stats_insert_ne {C} (ms : gmap string (ModelStatus C))
    (model_name other : string) (status : ModelStatus C) (v b : Z) :
  model_name <> other ->
  lookup_stats (<[model_name := status]> ms) other v b
  = lookup_stats ms other v b.
Proof.
  intros Hne. unfold lookup_stats. rewrite lookup_insert_ne by exact Hne.
  reflexivity.
Qed.

(** [C10] [InitForModel] changes the entry of no other model.  When the
    configuration is found, the entry of [model_name] afterwards holds the
    fresh configuration and nothing else, whether or not the model was
    tracked before: no version and no counter survives, and the first
    successful request after a re-add starts every counter of its entry
    anew.  When the configuration is not found, nothing changes. *)
Theorem init_for_model_resets_only_its_model {C}
    (GetModelConfig : string -> string + C) (model_name : string)
    (ms : gmap string (ModelStatus C)) :
  let result := InitForModel GetModelConfig model_name ms in
  (forall other : string,
      other <> model_name -> snd result !! other = ms !! other)
  /\ match GetModelConfig model_name with
     | inr model_config =>
         fst result = Success
         /\ snd result !! model_name
            = Some {| config := Some model_config; version_status := ∅ |}
         /\ (forall v b : Z, lookup_stats (snd result) model_name v b = None)
         /\ (forall v b execution_cnt request_ns run_ns compute_ns : Z,
               b <> 0 ->
               lookup_stats
                 (UpdateSuccessInferStats model_name v b execution_cnt
                    request_ns run_ns compute_ns (snd result))
                 model_name v (u32 b)
               = Some (new_infer_stats request_ns run_ns compute_ns))
     | inl msg => result = (Failure msg, ms)
     end.
Proof.
  cbv zeta. split.
  - intros other Hne. apply InitForModel_other; exact Hne.
  - destruct (GetModelConfig model_name) as [msg | model_config] eqn:Hcfg.
    + unfold InitForModel. rewrite Hcfg. reflexivity.
    + rewrite (InitForModel_entry _ _ model_config) by exact Hcfg. simpl.
      split; [reflexivity |]. split; [apply lookup_insert_eq |]. split.
      * intros v b. rewrite lookup_stats_insert_eq. unfold snapshot_stats.
        simpl. rewrite lookup_empty. reflexivity.
      * intros v b execution_cnt request_ns run_ns compute_ns Hb.
        unfold UpdateSuccessInferStats. rewrite lookup_insert_eq.
        destruct (Z.eqb_spec b 0) as [? | _]; [congruence |].
        cbn [version_status config]. rewrite lookup_empty.
        rewrite lookup_stats_insert_eq.
        unfold snapshot_stats. cbn [version_status].
        rewrite lookup_insert_eq. simpl.
        apply lookup_singleton_eq.
Qed.




(** With the end entry present the composer returns success and the four
    differences modulo 2^64. *)
Lemma summarize_server_deltas {C} (cfg : SamplerConfig)
    (summary : PerfStatus) (start_status end_status : ModelStatus C)
    (e : InferRequestStats) :
  snapshot_stats end_status (resolve_version cfg end_status)
    (u32 (batch_size_ cfg)) = Some e ->
  let '(c0, t0, q0, k0) :=
    start_counters cfg start_status (resolve_version cfg end_status) in
  let out := snd (summarize_server cfg summary start_status end_status) in
  fst (summarize_server cfg summary start_status end_status) = Success
  /\ server_request_count out = u64 (count (success e) - c0)
  /\ server_cumm_time_ns out = u64 (total_time_ns (success e) - t0)
  /\ server_queue_time_ns out = u64 (total_time_ns (queue e) - q0)
  /\ server_compute_time_ns out = u64 (total_time_ns (compute e) - k0).
Proof.
  unfold snapshot_stats, summarize_server. intros He.
  destruct (version_status end_status !! resolve_version cfg end_status)
    as [vend |]; [| discriminate].
  simpl in He. rewrite He.
  destruct (start_counters cfg start_status (resolve_version cfg end_status))
    as [[[c0 t0] q0] k0].
  simpl. repeat split; reflexivity.
Qed.


Lemma start_counters_absent {C} (cfg : SamplerConfig)
    (start_status : ModelStatus C) (v : Z) :
  snapshot_stats start_status v (u32 (batch_size_ cfg)) = None ->
  start_counters cfg start_status v = (0, 0, 0, 0).
Proof.
  unfold snapshot_stats, start_counters. intros Ho.
  destruct (version_status start_status !! v) as [vs |]; [| reflexivity].
  simpl in Ho. rewrite Ho. reflexivity.
Qed.



(** ** Version lookup of the Summary Composer *)

Lemma resolve_version_latest {C} (cfg : SamplerConfig)
    (end_status : ModelStatus C) :
  model_version_ cfg < 0 ->
  let r := resolve_version cfg end_status in
  0 <= r
  /\ (forall v, is_Some (version_status end_status !! v) -> v <= r)
  /\ (r = 0 \/ is_Some (version_status end_status !! r)).
Proof.
  intros Hneg. unfold resolve_version.
  destruct (Z.ltb_spec (model_version_ cfg) 0) as [_ | ?]; [| lia].
  cbv zeta.
  apply (map_fold_weak_ind
           (fun r (m : gmap Z ModelVersionStatus) =>
              0 <= r
              /\ (forall v, is_Some (m !! v) -> v <= r)
              /\ (r = 0 \/ is_Some (m !! r)))).
  - split; [lia |]. split; [| left; reflexivity].
    intros v [x Hx]. rewrite lookup_empty in Hx. discriminate.
  - intros i x m r Hi (H0 & Hub & Hin). split; [lia |]. split.
    + intros v Hv. destruct (decide (i = v)) as [<- | Hne]; [lia |].
      rewrite lookup_insert_ne in Hv by exact Hne.
      specialize (Hub v Hv). lia.
    + destruct (Z.max_spec r i) as [[Hlt ->] | [Hle ->]].
      * right. rewrite lookup_insert_eq. eauto.
      * destruct Hin as [-> | Hr]; [left; reflexivity |].
        right. destruct (decide (i = r)) as [<- | Hne].
        -- rewrite lookup_insert_eq. eauto.
        -- rewrite lookup_insert_ne by exact Hne. exact Hr.
Qed.

Lemma resolve_version_given {C} (cfg : SamplerConfig)
    (end_status : ModelStatus C) :
  0 <= model_version_ cfg ->
  resolve_version cfg end_status = model_version_ cfg.
Proof.
  intros H. unfold resolve_version.
  destruct (Z.ltb_spec (model_version_ cfg) 0); [lia | reflexivity].
Qed.

Lemma summarize_server_fails_iff {C} (cfg : SamplerConfig)
    (summary : PerfStatus) (start_status end_status : ModelStatus C) :
  fst (summarize_server cfg summary start_status end_status) <> Success
  <-> snapshot_stats end_status (resolve_version cfg end_status)
        (u32 (batch_size_ cfg)) = None.
Proof.
  unfold summarize_server, snapshot_stats.
  destruct (version_status end_status !! resolve_version cfg end_status)
    as [vend |]; simpl; [| split; [reflexivity | discriminate]].
  destruct (infer_stats vend !! u32 (batch_size_ cfg)) as [e |];
    [| split; [reflexivity | discriminate]].
  destruct (start_counters _ _ _) as [[[c0 t0] q0] k0]. simpl.
  split; [congruence | discriminate].
Qed.

(** [C6, as amended] With a negative [model_version_] the composer looks
    up the largest of 0 and the version keys of [end_status] (the maximum
    key whenever a non-negative key is present); otherwise the version
    asked for.  It fails exactly when [end_status] has no entry for that
    version or the entry has no statistics for the batch size, whatever
    [start_status] holds; an entry absent from [start_status] alone is no
    error and counts as all-zero start counters. *)
Theorem composer_version_lookup {C} (cfg : SamplerConfig)
    (summary : PerfStatus) (start_status end_status : ModelStatus C) :
  let r := resolve_version cfg end_status in
  let result := summarize_server cfg summary start_status end_status in
  (if model_version_ cfg <? 0
   then 0 <= r
        /\ (forall v, is_Some (version_status end_status !! v) -> v <= r)
        /\ (r = 0 \/ is_Some (version_status end_status !! r))
   else r = model_version_ cfg)
  /\ (fst result <> Success
      <-> snapshot_stats end_status r (u32 (batch_size_ cfg)) = None)
  /\ (version_status end_status !! r = None ->
      fst result = Failure "missing model version status")
  /\ (forall e : InferRequestStats,
        snapshot_stats end_status r (u32 (batch_size_ cfg)) = Some e ->
        snapshot_stats start_status r (u32 (batch_size_ cfg)) = None ->
        fst result = Success
        /\ server_request_count (snd result) = u64 (count (success e))
        /\ server_cumm_time_ns (snd result)
           = u64 (total_time_ns (success e))
        /\ server_queue_time_ns (snd result)
           = u64 (total_time_ns (queue e))
        /\ server_compute_time_ns (snd result)
           = u64 (total_time_ns (compute e))).
Proof.
  cbv zeta. split.
  - destruct (Z.ltb_spec (model_version_ cfg) 0) as [Hneg | Hpos].
    + apply resolve_version_latest; exact Hneg.
    + apply resolve_version_given; exact Hpos.
  - split; [apply summarize_server_fails_iff |]. split.
    + intros Hnone. unfold summarize_server. rewrite Hnone. reflexivity.
    + intros e He Hs.
      pose proof (summarize_server_deltas cfg summary start_status
                    end_status e He) as Hd.
      rewrite (start_counters_absent cfg start_status _ Hs) in Hd.
      cbv zeta in Hd. rewrite !Z.sub_0_r in Hd. exact Hd.
Qed.

(** [C6, counterexample] The start snapshot has an entry for the requested
    version 1 and the end snapshot has none: the composer fails although
    it is not the case that neither snapshot has the entry. *)
Lemma composer_fails_with_start_entry_present :
  ~ (fst Scenario.version_gone <> Success
     <-> version_status Scenario.end_v2 !! 1 = None
         /\ version_status Scenario.start_v1 !! 1 = None).
Proof.
  intros [H _].
  assert (Hfail : fst Scenario.version_gone <> Success)
    by (vm_compute; discriminate).
  destruct (H Hfail) as [_ Hstart]. vm_compute in Hstart. discriminate.
Qed.

(** ** The Concurrency Controller *)

Lemma launch_threads_spec (fuel : nat) (k : Z) (threads : list Worker) :
  k - Z.of_nat (length threads) <= Z.of_nat fuel ->
  well_indexed threads ->
  let threads' := launch_threads fuel k threads in
  (exists launched, threads' = threads ++ launched)
  /\ Z.of_nat (length threads') = Z.max k (Z.of_nat (length threads))
  /\ well_indexed threads'.
Proof.
  revert threads. induction fuel as [| fuel IH]; intros threads Hfuel Hwi.
  - simpl. split; [exists []; rewrite app_nil_r; reflexivity |].
    split; [lia | exact Hwi].
  - simpl.
    destruct (Z.gtb_spec k (Z.of_nat (length threads))) as [Hgt | Hle].
    + destruct (IH (threads ++ [SyncWorker (Z.of_nat (length threads))]))
        as ([launched Hl] & Hlen & Hwi').
      * rewrite length_app. simpl length. lia.
      * intros i w Hi.
        destruct (decide (i < length threads)%nat) as [Hlt | Hge].
        -- rewrite lookup_app_l in Hi by exact Hlt. apply Hwi; exact Hi.
        -- rewrite lookup_app_r in Hi by lia.
           destruct (i - length threads)%nat as [| j] eqn:Hj;
             [| destruct j; discriminate].
           simpl in Hi. injection Hi as <-.
           f_equal. lia.
      * cbv zeta in *. split.
        -- exists ([SyncWorker (Z.of_nat (length threads))] ++ launched).
           rewrite Hl, <- app_assoc. reflexivity.
        -- split; [| exact Hwi'].
           rewrite Hlen, length_app. simpl length. lia.
    + split; [exists []; rewrite app_nil_r; reflexivity |].
      split; [lia | exact Hwi].
Qed.

Lemma well_indexed_snoc (threads : list Worker) (w : Worker) :
  well_indexed (threads ++ [w]) ->
  well_indexed threads /\ w = SyncWorker (Z.of_nat (length threads)).
Proof.
  intros Hwi. split.
  - intros i x Hi. apply Hwi. rewrite lookup_app_l; [exact Hi |].
    eapply lookup_lt_Some; exact Hi.
  - apply Hwi. rewrite lookup_app_r by lia.
    rewrite Nat.sub_diag. reflexivity.
Qed.

(** Among well-indexed threads, those below the pause index are the first
    [min(pause_index, size)]. *)
Lemma sending_threads_count (pause_index : Z) (threads : list Worker) :
  0 <= pause_index -> well_indexed threads ->
  Z.of_nat (length (List.filter (sends_requests pause_index) threads))
  = Z.min pause_index (Z.of_nat (length threads)).
Proof.
  intros Hp. induction threads as [| w threads IH] using rev_ind;
    intros Hwi; [simpl; lia |].
  apply well_indexed_snoc in Hwi as [Hwi ->].
  rewrite List.filter_app, !length_app. simpl.
  specialize (IH Hwi).
  destruct (Z.ltb_spec (Z.of_nat (length threads)) pause_index);
    simpl length; lia.
Qed.

(** The fill loop of the asynchronous worker brings the number of
    requests in flight up to the pause index. *)
Lemma issue_requests_fills (clock_gettime : Z -> timespec) (fuel : nat)
    (pause_index : Z) (s : AsyncState) :
  fresh_ids s ->
  Z.of_nat (size (requests_start_time s)) <= pause_index ->
  pause_index - Z.of_nat (size (requests_start_time s)) <= Z.of_nat fuel ->
  let s' := issue_requests clock_gettime fuel pause_index s in
  Z.of_nat (size (requests_start_time s')) = pause_index /\ fresh_ids s'.
Proof.
  revert s. induction fuel as [| fuel IH]; intros s Hfresh Hle Hfuel.
  - simpl. split; [lia | exact Hfresh].
  - simpl.
    destruct (Z.ltb_spec (Z.of_nat (size (requests_start_time s)))
                pause_index) as [Hlt | Hge]; [| split; [lia | exact Hfresh]].
    assert (Hnone : requests_start_time s !! next_request_id s = None).
    { destruct (requests_start_time s !! next_request_id s) eqn:E;
        [| reflexivity].
      assert (next_request_id s < next_request_id s)
        by (apply Hfresh; rewrite E; eauto).
      lia. }
    rewrite Hnone. apply IH.
    + intros id Hid. simpl in *.
      destruct (decide (next_request_id s = id)) as [<- | Hne]; [lia |].
      rewrite lookup_insert_ne in Hid by exact Hne.
      specialize (Hfresh id Hid). lia.
    + simpl. rewrite map_size_insert_None by exact Hnone. lia.
    + simpl. rewrite map_size_insert_None by exact Hnone. lia.
Qed.

(** With at least [pause_index] requests in flight the fill loop issues
    nothing. *)
Lemma issue_requests_full (clock_gettime : Z -> timespec) (fuel : nat)
    (pause_index : Z) (s : AsyncState) :
  pause_index <= Z.of_nat (size (requests_start_time s)) ->
  issue_requests clock_gettime fuel pause_index s = s.
Proof.
  intros Hge. destruct fuel as [| fuel]; [reflexivity |]. simpl.
  destruct (Z.ltb_spec (Z.of_nat (size (requests_start_time s)))
              pause_index); [lia | reflexivity].
Qed.

(** [C8] After [Step] with target [k]: [*pause_index_] is [k]; the threads
    that existed are still there, in place, so their number has not
    decreased; in synchronous mode exactly [k] threads have an index below
    the pause index, the others wait; in asynchronous mode there is the
    single worker, and each time its fill loop ends it holds exactly [k]
    requests in flight, and it issues none while [k] or more are in
    flight. *)
Theorem step_sets_concurrency {C} (m : Manager) (status_summary : PerfStatus)
    (k : Z) (windows : list (Window C)) :
  0 <= k ->
  (if async_ m then threads_ m = [] \/ threads_ m = [AsyncWorker]
   else well_indexed (threads_ m)) ->
  let m' := fst (Step m status_summary k windows) in
  pause_index_ m' = k
  /\ (exists launched, threads_ m' = threads_ m ++ launched)
  /\ (length (threads_ m) <= length (threads_ m'))%nat
  /\ (if async_ m then
        threads_ m' = [AsyncWorker]
        /\ (forall (clock_gettime : Z -> timespec) (fuel : nat)
              (s : AsyncState),
              k <= Z.of_nat (size (requests_start_time s)) ->
              issue_requests clock_gettime fuel (pause_index_ m') s = s)
        /\ forall (clock_gettime : Z -> timespec) (fuel : nat)
             (s : AsyncState),
             fresh_ids s ->
             Z.of_nat (size (requests_start_time s)) <= k ->
             k - Z.of_nat (size (requests_start_time s))
             <= Z.of_nat fuel ->
             let s' := issue_requests clock_gettime fuel
                         (pause_index_ m') s in
             Z.of_nat (size (requests_start_time s')) = k /\ fresh_ids s'
      else
        well_indexed (threads_ m')
        /\ Z.of_nat (length (List.filter (sends_requests (pause_index_ m'))
                               (threads_ m'))) = k).
Proof.
  intros Hk Hinv. unfold Step. cbv zeta. simpl fst.
  unfold adjust_concurrency. simpl pause_index_. simpl threads_.
  split; [reflexivity |].
  destruct (async_ m); simpl negb; cbv iota.
  - assert (Hthreads :
      (if Z.of_nat (length (threads_ m)) =? 0
       then threads_ m ++ [AsyncWorker] else threads_ m) = [AsyncWorker]).
    { destruct Hinv as [-> | ->]; reflexivity. }
    rewrite Hthreads.
    split; [destruct Hinv as [-> | ->];
            [exists [AsyncWorker] | exists []]; reflexivity |].
    split; [destruct Hinv as [-> | ->]; simpl; lia |].
    split; [reflexivity |].
    split; [intros clock_gettime fuel s Hge;
            apply issue_requests_full; exact Hge |].
    intros clock_gettime fuel s Hfresh Hle Hfuel.
    apply issue_requests_fills; assumption.
  - destruct (launch_threads_spec (Z.to_nat k) k (threads_ m))
      as ([launched Hl] & Hlen & Hwi); [lia | exact Hinv |].
    cbv zeta in Hl, Hlen, Hwi.
    split; [exists launched; exact Hl |].
    split; [rewrite Hl, length_app; lia |].
    split; [exact Hwi |].
    rewrite sending_threads_count by assumption. lia.
Qed.

(** ** Instances *)

(** The five requests of 1.2 s under a five-second measurement window:
    the run goes from 100 s to 106 s, the window is centred on it, the
    first request ends inside it and four of the five are counted. *)
Lemma sampler_window_selection_witness :
  minimum_of 100000000000 (map start_ns Scenario.slow_requests)
  /\ maximum_of 106000000000 (map end_ns Scenario.slow_requests)
  /\ client_window Scenario.five_seconds Scenario.slow_requests
     = (100500000000, 105500000000)
  /\ in_window 100500000000 105500000000
       (Scenario.at_ns 100 0, Scenario.at_ns 101 200000000) = true
  /\ valid_timestamp_count
       (tally_timestamps 100500000000 105500000000 Scenario.slow_requests)
     = 4
  /\ fst Scenario.slow_summary <> Failure no_valid_requests
  /\ client_request_count (snd Scenario.slow_summary) = 4
  /\ client_duration_ns (snd Scenario.slow_summary) = 5000000000.
Proof.
  destruct (@sampler_window_selection unit Scenario.five_seconds
              Scenario.slow_requests)
    as (t0 & tN & Hmin & Hmax & H).
  - discriminate.
  - repeat constructor; vm_compute; reflexivity.
  - vm_compute; reflexivity.
  - vm_compute. split; reflexivity.
  - assert (Ht0 : t0 = 100000000000).
    { destruct Hmin as [Hmem Hle]. rewrite List.Forall_forall in Hle.
      assert (t0 <= 100000000000)
        by (apply Hle; vm_compute; left; reflexivity).
      vm_compute in Hmem.
      destruct Hmem as [<- | [<- | [<- | [<- | [<- | []]]]]]; lia. }
    assert (HtN : tN = 106000000000).
    { destruct Hmax as [Hmem Hge]. rewrite List.Forall_forall in Hge.
      assert (106000000000 <= tN)
        by (apply Hge; vm_compute; do 4 right; left; reflexivity).
      vm_compute in Hmem.
      destruct Hmem as [<- | [<- | [<- | [<- | [<- | []]]]]]; lia. }
    subst t0 tN.
    split; [exact Hmin |]. split; [exact Hmax |].
    cbv zeta in H.
    change (100000000000
            + Z.max 0
                ((106000000000
                  - (100000000000
                     + measurement_window_ms_ Scenario.five_seconds
                       * 1000000)) / 2))
      with 100500000000 in H.
    change (100500000000
            + measurement_window_ms_ Scenario.five_seconds * 1000000)
      with 105500000000 in H.
    destruct H as (Hwin & Hin & Hcount & HS).
    split; [exact Hwin |].
    split.
    { apply Hin. vm_compute. repeat split; discriminate. }
    split; [rewrite Hcount; reflexivity |].
    destruct (HS Scenario.blank
                (Scenario.status_of 1 1 (Scenario.stats 10 10000 2000 7000))
                (Scenario.status_of 1 1 (Scenario.stats 15 16000 3000 12000))
                (Scenario.cell 10 12000000000 1000 1000)
                (Scenario.cell 15 18000000000 1500 1500))
      as [_ Hsome].
    apply Hsome. vm_compute. discriminate.
Defined.

(** Nine requests of 30 ms counted under a window of 300 ms: the rate is
    29, one below the exact quotient 30, and gives the count back to
    within 1.  Three requests of 250 ms counted under a window of one
    second: the rate is the count. *)
Lemma sampler_statistics_witness :
  (let out :=
     snd (Summarize Witness.short_window Scenario.blank
            Witness.short_requests Scenario.stalled_status
            Witness.later_status (Scenario.cell 15 18000000000 1500 1500)
            (Scenario.cell 24 18270000000 2400 2400)) in
   client_request_count out = 9
   /\ client_min_latency_ns out <= client_avg_latency_ns out
                                <= client_max_latency_ns out
   /\ 0 <= std_us out
   /\ client_infer_per_sec out = 29
   /\ 2 ^ 21 * (client_infer_per_sec out * 300) <= (2 ^ 21 + 1) * 9000
   /\ (2 ^ 21 - 1) * 9000 < 2 ^ 21 * ((client_infer_per_sec out + 1) * 300)
   /\ reconstructs_count 300 out 9)
  /\ (let out :=
        snd (Summarize Witness.one_second Scenario.blank
               Witness.quick_requests Scenario.stalled_status
               Witness.later_status (Scenario.cell 15 18000000000 1500 1500)
               (Scenario.cell 18 18750000000 1800 1800)) in
      client_request_count out = 3
      /\ client_infer_per_sec out = 3 * batch_size out
      /\ reconstructs_count 1000 out 3).
Proof.
  cbv zeta. split.
  - destruct (@sampler_statistics unit Witness.short_window Scenario.blank
                Witness.short_requests Scenario.stalled_status
                Witness.later_status
                (Scenario.cell 15 18000000000 1500 1500)
                (Scenario.cell 24 18270000000 2400 2400))
      as (Hn & _ & Hmam & Hstd & Hrate & _).
    + vm_compute. discriminate.
    + vm_compute. repeat constructor.
    + vm_compute. reflexivity.
    + vm_compute. reflexivity.
    + destruct Hrate as (_ & Hup & Hdown & Hback);
        [vm_compute; split; reflexivity | reflexivity
         | vm_compute; reflexivity | vm_compute; reflexivity |].
      split; [exact Hn |]. split; [exact Hmam |]. split; [exact Hstd |].
      split; [vm_compute; reflexivity |].
      split; [exact Hup |]. split; [exact Hdown |].
      apply (Hback 100); [reflexivity | exists 3; reflexivity
                         | exists 10; reflexivity | vm_compute; reflexivity].
  - destruct (@sampler_statistics unit Witness.one_second Scenario.blank
                Witness.quick_requests Scenario.stalled_status
                Witness.later_status
                (Scenario.cell 15 18000000000 1500 1500)
                (Scenario.cell 18 18750000000 1800 1800))
      as (Hn & _ & _ & _ & _ & Hips).
    + vm_compute. discriminate.
    + vm_compute. repeat constructor.
    + vm_compute. reflexivity.
    + vm_compute. reflexivity.
    + destruct (Hips 0) as (Hips0 & _ & Hback);
        [lia | reflexivity | vm_compute; reflexivity
         | vm_compute; reflexivity |].
      split; [exact Hn |].
      split.
      { rewrite Hips0. change (2 ^ 0) with 1. rewrite Z.div_1_r.
        reflexivity. }
      apply Hback. vm_compute. discriminate.
Defined.



(** A synchronous manager with two threads stepped to 4, and an
    asynchronous manager stepped from 4 to 2. *)
Lemma step_sets_concurrency_witness :
  (let m' := fst (Step Witness.sync_manager Scenario.blank 4
                    (@nil (Window unit))) in
   pause_index_ m' = 4
   /\ Z.of_nat (length (List.filter (sends_requests (pause_index_ m'))
                          (threads_ m'))) = 4)
  /\ (let m' := fst (Step Witness.async_manager Scenario.blank 2
                       (@nil (Window unit))) in
      pause_index_ m' = 2 /\ threads_ m' = [AsyncWorker]).
Proof.
  split.
  - destruct (@step_sets_concurrency unit Witness.sync_manager
                Scenario.blank 4 [])
      as (Hp & _ & _ & _ & Hcount).
    + lia.
    + simpl. intros i w Hi.
      destruct i as [| [| i]]; simpl in Hi; try discriminate;
        injection Hi as <-; reflexivity.
    + split; [exact Hp | exact Hcount].
  - destruct (@step_sets_concurrency unit Witness.async_manager
                Scenario.blank 2 [])
      as (Hp & _ & _ & Hthreads & _).
    + lia.
    + simpl. right. reflexivity.
    + split; [exact Hp | exact Hthreads].
Defined.

(** Latest-version lookup on a snapshot with version 1, against an empty
    start snapshot. *)
Lemma composer_version_lookup_witness :
  resolve_version Witness.one_second Witness.later_status = 1
  /\ fst (summarize_server Witness.one_second Scenario.blank
            (@ModelStatus_default unit) Witness.later_status)
     <> Failure "missing model version status".
Proof.
  destruct (@composer_version_lookup unit Witness.one_second Scenario.blank
              ModelStatus_default Witness.later_status)
    as (Hr & _ & _ & Hzero).
  split; [vm_compute; reflexivity |].
  destruct (Hzero (Scenario.stats 16 126000000000 3200000 117000000000))
    as (Hok & _).
  - vm_compute. reflexivity.
  - vm_compute. reflexivity.
  - rewrite Hok. discriminate.
Defined.

(** Re-adding model "m" after five requests, and the entry of another
    model. *)
Lemma init_for_model_resets_only_its_model_witness :
  snd (InitForModel Scenario.repository "m" Scenario.before_readd) !! "m"
  = Some {| config := Some tt; version_status := ∅ |}
  /\ snd (InitForModel Scenario.repository "m" Witness.tracked) !! "other"
     = Witness.tracked !! "other".
Proof.
  split.
  - destruct (@init_for_model_resets_only_its_model unit
                Scenario.repository "m" Scenario.before_readd)
      as (_ & Hentry).
    simpl in Hentry. destruct Hentry as (_ & Hentry & _). exact Hentry.
  - destruct (@init_for_model_resets_only_its_model unit
                Scenario.repository "m" Witness.tracked) as (Hother & _).
    apply Hother. discriminate.
Defined.

(** The detector on four windows, and on the same windows with every
    sample multiplied by 8. *)
Lemma stability_invariant_under_pow2_scaling_witness :
  run_exact 3 ten_percent Stability_init Witness.steady_run = true
  /\ stable (detector ten_percent (scale_samples (2 ^ 3) Witness.steady_run))
     = stable (detector ten_percent Witness.steady_run).
Proof.
  split; [vm_compute; reflexivity |].
  apply (stability_invariant_under_pow2_scaling 3 ten_percent
           Witness.steady_run); [lia | vm_compute; reflexivity].
Defined.
(** * Properties of the rest of the two files *)

(** ** Updates of the server statistics *)

Lemma insert_as_partial_alter {K A} `{Countable K} (m : gmap K A) (i : K)
    (f : option A -> A) :
  <[i := f (m !! i)]> m = partial_alter (fun o => Some (f o)) i m.
Proof.
  apply map_eq. intros j. destruct (decide (i = j)) as [<- | Hne].
  - rewrite lookup_insert_eq, lookup_partial_alter_eq. reflexivity.
  - rewrite lookup_insert_ne, lookup_partial_alter_ne by exact Hne.
    reflexivity.
Qed.

Lemma alter_as_match {K A} `{Countable K} (m : gmap K A) (i : K)
    (f : A -> A) :
  match m !! i with None => m | Some x => <[i := f x]> m end
  = alter f i m.
Proof.
  apply map_eq. intros j. destruct (m !! i) as [x |] eqn:Hx.
  - destruct (decide (i = j)) as [<- | Hne].
    + rewrite lookup_insert_eq, lookup_alter_eq, Hx. reflexivity.
    + rewrite lookup_insert_ne, lookup_alter_ne by exact Hne. reflexivity.
  - destruct (decide (i = j)) as [<- | Hne].
    + rewrite lookup_alter_eq, Hx. reflexivity.
    + rewrite lookup_alter_ne by exact Hne. reflexivity.
Qed.

(** A failed update changes one version of one model. *)
Lemma UpdateFailedInferStats_alter {C} (model_name : string)
    (v b request_ns : Z) (ms : gmap string (ModelStatus C)) :
  UpdateFailedInferStats model_name v b request_ns ms
  = alter (with_version v (failed_version b request_ns)) model_name ms.
Proof.
  unfold UpdateFailedInferStats. rewrite <- alter_as_match.
  destruct (ms !! model_name) as [status |]; [| reflexivity].
  f_equal. unfold with_version. f_equal.
  rewrite <- insert_as_partial_alter. f_equal.
  unfold failed_version.
  destruct (version_status status !! v) as [vs |]; simpl.
  - f_equal. rewrite <- insert_as_partial_alter.
    destruct (infer_stats vs !! u32 b); reflexivity.
  - f_equal.
Qed.

(** A successful update with a batch size changes one version of one
    model. *)
Lemma UpdateSuccessInferStats_alter {C} (model_name : string)
    (v b e request_ns run_ns compute_ns : Z)
    (ms : gmap string (ModelStatus C)) :
  b <> 0 ->
  UpdateSuccessInferStats model_name v b e request_ns run_ns compute_ns ms
  = alter (with_version v
             (success_version b e request_ns run_ns compute_ns))
      model_name ms.
Proof.
  intros Hb. unfold UpdateSuccessInferStats. rewrite <- alter_as_match.
  destruct (ms !! model_name) as [status |]; [| reflexivity].
  destruct (Z.eqb_spec b 0) as [| _]; [contradiction |].
  f_equal. unfold with_version. f_equal.
  rewrite <- insert_as_partial_alter. f_equal.
  unfold success_version.
  destruct (version_status status !! v) as [vs |]; simpl.
  - f_equal. rewrite <- insert_as_partial_alter.
    destruct (infer_stats vs !! u32 b); reflexivity.
  - f_equal.
Qed.

Lemma UpdateSuccessInferStats_zero {C} (model_name : string)
    (v e request_ns run_ns compute_ns : Z)
    (ms : gmap string (ModelStatus C)) :
  UpdateSuccessInferStats model_name v 0 e request_ns run_ns compute_ns ms
  = ms.
Proof.
  unfold UpdateSuccessInferStats. destruct (ms !! model_name); reflexivity.
Qed.

Lemma lookup_stats_alter_ne_model {C} (ms : gmap string (ModelStatus C))
    (f : ModelStatus C -> ModelStatus C) (model_name n : string)
    (v b : Z) :
  n <> model_name ->
  lookup_stats (alter f model_name ms) n v b = lookup_stats ms n v b.
Proof.
  intros Hne. unfold lookup_stats.
  rewrite lookup_alter_ne by congruence. reflexivity.
Qed.

Lemma lookup_stats_with_version_ne {C} (ms : gmap string (ModelStatus C))
    (f : option ModelVersionStatus -> ModelVersionStatus)
    (model_name : string) (v v' b : Z) :
  v' <> v ->
  lookup_stats (alter (with_version v f) model_name ms) model_name v' b
  = lookup_stats ms model_name v' b.
Proof.
  intros Hne. unfold lookup_stats. rewrite lookup_alter_eq.
  destruct (ms !! model_name) as [status |]; [| reflexivity]. simpl.
  rewrite lookup_partial_alter_ne by congruence. reflexivity.
Qed.

Lemma lookup_stats_with_version_eq {C} (ms : gmap string (ModelStatus C))
    (f : option ModelVersionStatus -> ModelVersionStatus)
    (model_name : string) (status : ModelStatus C) (v b : Z) :
  ms !! model_name = Some status ->
  lookup_stats (alter (with_version v f) model_name ms) model_name v b
  = infer_stats (f (version_status status !! v)) !! b.
Proof.
  intros Hst. unfold lookup_stats. rewrite lookup_alter_eq, Hst. simpl.
  rewrite lookup_partial_alter_eq. reflexivity.
Qed.

Lemma lookup_stats_tracked {C} (ms : gmap string (ModelStatus C))
    (model_name : string) (status : ModelStatus C) (v b : Z) :
  ms !! model_name = Some status ->
  lookup_stats ms model_name v b
  = infer_stats (default ModelVersionStatus_default
                   (version_status status !! v)) !! b.
Proof.
  intros Hst. unfold lookup_stats. rewrite Hst. simpl.
  destruct (version_status status !! v); reflexivity.
Qed.

(** [X1] A failed request of a tracked model is always recorded, also
    with batch size 0: afterwards the entry of (model, version, batch
    size) exists; it is the old entry with one more failure and the
    duration added to the failure time, or a new entry with one failure
    and zero success, compute and queue durations.  No other entry of
    any model changes. *)
Theorem failed_request_is_recorded {C} (model_name : string)
    (v b request_ns : Z) (ms : gmap string (ModelStatus C))
    (status : ModelStatus C) :
  ms !! model_name = Some status ->
  let ms' := UpdateFailedInferStats model_name v b request_ns ms in
  lookup_stats ms' model_name v (u32 b)
  = Some (match lookup_stats ms model_name v (u32 b) with
          | Some stats =>
              {| success := success stats;
                 failed :=
                   {| count := u64 (count (failed stats) + 1);
                      total_time_ns :=
                        u64 (total_time_ns (failed stats) + request_ns) |};
                 compute := compute stats;
                 queue := queue stats |}
          | None =>
              {| success := {| count := 0; total_time_ns := 0 |};
                 failed := {| count := 1; total_time_ns := request_ns |};
                 compute := {| count := 0; total_time_ns := 0 |};
                 queue := {| count := 0; total_time_ns := 0 |} |}
          end)
  /\ forall (n : string) (v' b' : Z),
       (n, v', b') <> (model_name, v, u32 b) ->
       lookup_stats ms' n v' b' = lookup_stats ms n v' b'.
Proof.
  intros Hst ms'. subst ms'. rewrite UpdateFailedInferStats_alter. split.
  - rewrite (lookup_stats_with_version_eq ms _ model_name status)
      by exact Hst.
    rewrite (lookup_stats_tracked ms model_name status) by exact Hst.
    unfold failed_version. cbn [infer_stats].
    rewrite lookup_partial_alter_eq.
    destruct (infer_stats _ !! u32 b); reflexivity.
  - intros n v' b' Hne.
    destruct (decide (n = model_name)) as [-> | Hn];
      [| apply lookup_stats_alter_ne_model; exact Hn].
    destruct (decide (v' = v)) as [-> | Hv];
      [| apply lookup_stats_with_version_ne; exact Hv].
    rewrite (lookup_stats_with_version_eq ms _ model_name status)
      by exact Hst.
    rewrite (lookup_stats_tracked ms model_name status) by exact Hst.
    unfold failed_version. cbn [infer_stats].
    rewrite lookup_partial_alter_ne by congruence. reflexivity.
Qed.

Lemma partial_alter_swap {K A} `{Countable K} (m : gmap K A) (i j : K)
    (f g : option A -> option A) :
  (i = j -> f (g (m !! i)) = g (f (m !! i))) ->
  partial_alter f i (partial_alter g j m)
  = partial_alter g j (partial_alter f i m).
Proof.
  intros Hfg. destruct (decide (i = j)) as [<- | Hne].
  - rewrite !partial_alter_partial_alter_eq. apply partial_alter_ext.
    intros x <-. apply Hfg. reflexivity.
  - apply partial_alter_partial_alter_ne. exact Hne.
Qed.

Lemma alter_swap {K A} `{Countable K} (m : gmap K A) (i j : K)
    (f g : A -> A) :
  (i = j -> forall x, m !! i = Some x -> f (g x) = g (f x)) ->
  alter f i (alter g j m) = alter g j (alter f i m).
Proof.
  intros Hfg. apply (partial_alter_swap m i j (fmap f) (fmap g)).
  intros Hij. destruct (m !! i) as [x |] eqn:Hx; [| reflexivity].
  simpl. f_equal. apply (Hfg Hij). reflexivity.
Qed.

Lemma u64_idem (x : Z) : u64 (u64 x) = u64 x.
Proof. unfold u64. apply Z.mod_mod. lia. Qed.

Lemma failed_success_stats_swap (d request_ns run_ns compute_ns : Z)
    (o : option InferRequestStats) :
  0 <= d < 2 ^ 64 -> 0 <= request_ns < 2 ^ 64 ->
  0 <= compute_ns < 2 ^ 64 ->
  failed_stats d (Some (success_stats request_ns run_ns compute_ns o))
  = success_stats request_ns run_ns compute_ns (Some (failed_stats d o)).
Proof.
  intros Hd Hr Hc. destruct o as [stats |]; [reflexivity |].
  unfold failed_stats, success_stats, add_failed_stats, add_infer_stats,
    new_infer_stats, new_failed_stats, StatDuration_default.
  cbn [success failed compute queue count total_time_ns].
  rewrite !Z.add_0_l, u64_idem.
  rewrite (u64_small request_ns), (u64_small compute_ns), (u64_small d)
    by lia.
  reflexivity.
Qed.

Lemma failed_success_version_swap (b d b' e request_ns run_ns compute_ns : Z)
    (o : option ModelVersionStatus) :
  0 <= d < 2 ^ 64 -> 0 <= b' < 2 ^ 64 -> 0 <= e < 2 ^ 64 ->
  0 <= request_ns < 2 ^ 64 -> 0 <= compute_ns < 2 ^ 64 ->
  failed_version b d
    (Some (success_version b' e request_ns run_ns compute_ns o))
  = success_version b' e request_ns run_ns compute_ns
      (Some (failed_version b d o)).
Proof.
  intros Hd Hb He Hr Hc. unfold failed_version, success_version.
  cbn [default ready_state model_execution_count model_inference_count
       infer_stats].
  f_equal.
  - destruct o as [vs |]; [reflexivity |]. simpl.
    rewrite u64_small by lia. reflexivity.
  - destruct o as [vs |]; [reflexivity |]. simpl.
    rewrite u64_small by lia. reflexivity.
  - apply partial_alter_swap. intros _. f_equal.
    apply failed_success_stats_swap; assumption.
Qed.

(** [X2] Recording a failed request and recording a successful request
    commute, whatever models, versions and batch sizes they are for: the
    statistics do not depend on the order in which two requests
    finish. *)
Theorem failed_and_successful_updates_commute {C}
    (n : string) (v b d : Z)
    (n' : string) (v' b' e request_ns run_ns compute_ns : Z)
    (ms : gmap string (ModelStatus C)) :
  0 <= d < 2 ^ 64 -> 0 <= b' < 2 ^ 64 -> 0 <= e < 2 ^ 64 ->
  0 <= request_ns < 2 ^ 64 -> 0 <= compute_ns < 2 ^ 64 ->
  UpdateFailedInferStats n v b d
    (UpdateSuccessInferStats n' v' b' e request_ns run_ns compute_ns ms)
  = UpdateSuccessInferStats n' v' b' e request_ns run_ns compute_ns
      (UpdateFailedInferStats n v b d ms).
Proof.
  intros Hd Hb He Hr Hc.
  destruct (Z.eq_dec b' 0) as [-> | Hnz];
    [rewrite !UpdateSuccessInferStats_zero; reflexivity |].
  rewrite !UpdateSuccessInferStats_alter by exact Hnz.
  rewrite !UpdateFailedInferStats_alter.
  apply alter_swap. intros _ status _. unfold with_version.
  cbn [config version_status]. f_equal.
  apply partial_alter_swap. intros _. f_equal.
  apply failed_success_version_swap; assumption.
Qed.

(** ** Sequences of calls on the status manager *)

Lemma call_tracked {C} (GetModelConfig : string -> string + C)
    (ms : gmap string (ModelStatus C)) (c : ServerCall)
    (model_name : string) :
  is_Some (call GetModelConfig ms c !! model_name)
  <-> is_Some (ms !! model_name)
      \/ initialises GetModelConfig model_name c = true.
Proof.
  destruct c as [n | n v b e rq rn cp | n v b rq]; simpl.
  - destruct (GetModelConfig n) as [msg | cfg] eqn:Hcfg.
    + unfold InitForModel. rewrite Hcfg. simpl.
      rewrite andb_false_r. intuition discriminate.
    + rewrite (InitForModel_entry GetModelConfig n cfg) by exact Hcfg.
      simpl. rewrite andb_true_r.
      destruct (decide (n = model_name)) as [-> | Hne].
      * rewrite lookup_insert_eq, bool_decide_eq_true_2 by reflexivity.
        split; [right; reflexivity | eauto].
      * rewrite lookup_insert_ne by exact Hne.
        rewrite bool_decide_eq_false_2 by exact Hne.
        intuition discriminate.
  - destruct (Z.eq_dec b 0) as [-> | Hb].
    + rewrite UpdateSuccessInferStats_zero. intuition discriminate.
    + rewrite UpdateSuccessInferStats_alter by exact Hb.
      rewrite lookup_alter_is_Some. intuition discriminate.
  - rewrite UpdateFailedInferStats_alter, lookup_alter_is_Some.
    intuition discriminate.
Qed.

Lemma calls_tracked_from {C} (GetModelConfig : string -> string + C)
    (cs : list ServerCall) (ms : gmap string (ModelStatus C))
    (model_name : string) :
  is_Some (fold_left (call GetModelConfig) cs ms !! model_name)
  <-> is_Some (ms !! model_name)
      \/ existsb (initialises GetModelConfig model_name) cs = true.
Proof.
  revert ms. induction cs as [| c cs IH]; intros ms; simpl.
  - intuition discriminate.
  - rewrite IH, call_tracked, orb_true_iff. tauto.
Qed.

(** [X3] Whatever calls a server makes, the manager holds a status for
    exactly the models for which [InitForModel] found a configuration:
    updates for a model that was never initialised are dropped, and no
    update stops the tracking of a model. *)
Theorem tracked_models_are_the_initialised {C}
    (GetModelConfig : string -> string + C) (cs : list ServerCall)
    (model_name : string) :
  is_Some (calls GetModelConfig cs !! model_name)
  <-> existsb (initialises GetModelConfig model_name) cs = true.
Proof.
  unfold calls. rewrite calls_tracked_from, lookup_empty.
  split; [intros [[x Hx] | H]; [discriminate | exact H] | auto].
Qed.

Lemma accounted_insert_None (m : gmap Z InferRequestStats) (k : Z)
    (x : InferRequestStats) :
  m !! k = None ->
  accounted_inferences (<[k := x]> m)
  = accounted_inferences m + k * count (success x).
Proof.
  intros Hk. unfold accounted_inferences.
  rewrite map_fold_insert_L; [reflexivity | | exact Hk].
  intros. lia.
Qed.

Lemma accounted_partial_alter (m : gmap Z InferRequestStats) (k : Z)
    (g : option InferRequestStats -> InferRequestStats) :
  accounted_inferences (partial_alter (fun o => Some (g o)) k m)
  = accounted_inferences m
    - k * from_option (fun s => count (success s)) 0 (m !! k)
    + k * count (success (g (m !! k))).
Proof.
  rewrite <- insert_as_partial_alter.
  destruct (m !! k) as [x |] eqn:Hx.
  - rewrite <- insert_delete_eq.
    rewrite accounted_insert_None by apply lookup_delete_eq.
    rewrite <- (insert_delete_id m k x) at 2 by exact Hx.
    rewrite accounted_insert_None by apply lookup_delete_eq.
    simpl. lia.
  - rewrite accounted_insert_None by exact Hx. simpl. lia.
Qed.

Lemma u64_add_l (a b : Z) : u64 (u64 a + b) = u64 (a + b).
Proof. unfold u64. apply Zplus_mod_idemp_l. Qed.

Lemma u64_mul_r (a b : Z) : u64 (a * u64 b) = u64 (a * b).
Proof. unfold u64. apply Zmult_mod_idemp_r. Qed.

Lemma u32_small (x : Z) : 0 <= x < 2 ^ 32 -> u32 x = x.
Proof. intros H. unfold u32. apply Z.mod_small. exact H. Qed.

Lemma failed_version_accounted (b d : Z) (o : option ModelVersionStatus) :
  (forall vs, o = Some vs ->
     model_inference_count vs = u64 (accounted_inferences (infer_stats vs))) ->
  model_inference_count (failed_version b d o)
  = u64 (accounted_inferences (infer_stats (failed_version b d o))).
Proof.
  intros Hinv. unfold failed_version. cbn [model_inference_count infer_stats].
  rewrite accounted_partial_alter.
  assert (Hsame :
    count (success (failed_stats d
             (infer_stats (default ModelVersionStatus_default o)
                !! u32 b)))
    = from_option (fun s => count (success s)) 0
        (infer_stats (default ModelVersionStatus_default o) !! u32 b)).
  { destruct (infer_stats _ !! u32 b); reflexivity. }
  rewrite Hsame.
  replace (accounted_inferences
             (infer_stats (default ModelVersionStatus_default o))
           - u32 b * from_option (fun s => count (success s)) 0
                       (infer_stats (default ModelVersionStatus_default o)
                          !! u32 b)
           + u32 b * from_option (fun s => count (success s)) 0
                       (infer_stats (default ModelVersionStatus_default o)
                          !! u32 b))
    with (accounted_inferences
            (infer_stats (default ModelVersionStatus_default o))) by lia.
  destruct o as [vs |]; [apply Hinv; reflexivity | reflexivity].
Qed.

Lemma success_version_accounted (b e request_ns run_ns compute_ns : Z)
    (o : option ModelVersionStatus) :
  0 <= b < 2 ^ 32 ->
  (forall vs, o = Some vs ->
     model_inference_count vs = u64 (accounted_inferences (infer_stats vs))) ->
  model_inference_count
    (success_version b e request_ns run_ns compute_ns o)
  = u64 (accounted_inferences
           (infer_stats
              (success_version b e request_ns run_ns compute_ns o))).
Proof.
  intros Hb Hinv. unfold success_version.
  cbn [model_inference_count infer_stats].
  rewrite accounted_partial_alter, u32_small by exact Hb.
  destruct o as [vs |]; cbn [default]; unfold id.
  - rewrite (Hinv vs eq_refl), u64_add_l.
    destruct (infer_stats vs !! b) as [stats |]; simpl.
    + replace (accounted_inferences (infer_stats vs)
               - b * count (success stats)
               + b * u64 (count (success stats) + 1))
        with (b * u64 (count (success stats) + 1)
              + (accounted_inferences (infer_stats vs)
                 - b * count (success stats))) by lia.
      rewrite <- (u64_add_l (b * u64 (count (success stats) + 1))).
      rewrite u64_mul_r, u64_add_l. f_equal. lia.
    + f_equal. lia.
  - simpl. unfold accounted_inferences.
    rewrite map_fold_empty, lookup_empty. simpl.
    rewrite u64_small by lia. lia.
Qed.

Lemma call_accounted {C} (GetModelConfig : string -> string + C)
    (ms : gmap string (ModelStatus C)) (c : ServerCall) :
  batch_fits c = true ->
  (forall name status v vs,
     ms !! name = Some status -> version_status status !! v = Some vs ->
     model_inference_count vs = u64 (accounted_inferences (infer_stats vs))) ->
  forall name status v vs,
    call GetModelConfig ms c !! name = Some status ->
    version_status status !! v = Some vs ->
    model_inference_count vs = u64 (accounted_inferences (infer_stats vs)).
Proof.
  intros Hfit Hinv name status v vs.
  destruct c as [n | n v0 b e rq rn cp | n v0 b rq]; simpl.
  - destruct (GetModelConfig n) as [msg | cfg] eqn:Hcfg.
    + unfold InitForModel. rewrite Hcfg. simpl. apply Hinv.
    + rewrite (InitForModel_entry GetModelConfig n cfg) by exact Hcfg.
      simpl. destruct (decide (n = name)) as [-> | Hne].
      * rewrite lookup_insert_eq. intros [= <-]. simpl.
        rewrite lookup_empty. discriminate.
      * rewrite lookup_insert_ne by exact Hne. apply Hinv.
  - simpl in Hfit. apply andb_true_iff in Hfit as [Hlo Hhi].
    apply Z.leb_le in Hlo. apply Z.ltb_lt in Hhi.
    destruct (Z.eq_dec b 0) as [-> | Hb];
      [rewrite UpdateSuccessInferStats_zero; apply Hinv |].
    rewrite UpdateSuccessInferStats_alter by exact Hb.
    destruct (decide (n = name)) as [-> | Hne];
      [| rewrite lookup_alter_ne by exact Hne; apply Hinv].
    rewrite lookup_alter_eq.
    destruct (ms !! name) as [old |] eqn:Hold; [| discriminate].
    simpl. intros [= <-]. unfold with_version. cbn [version_status].
    destruct (decide (v0 = v)) as [-> | Hv];
      [| rewrite lookup_partial_alter_ne by exact Hv;
         apply (Hinv name old); exact Hold].
    rewrite lookup_partial_alter_eq. intros [= <-].
    apply success_version_accounted; [lia |].
    intros vs0 Hvs0. apply (Hinv name old v vs0); assumption.
  - rewrite UpdateFailedInferStats_alter.
    destruct (decide (n = name)) as [-> | Hne];
      [| rewrite lookup_alter_ne by exact Hne; apply Hinv].
    rewrite lookup_alter_eq.
    destruct (ms !! name) as [old |] eqn:Hold; [| discriminate].
    simpl. intros [= <-]. unfold with_version. cbn [version_status].
    destruct (decide (v0 = v)) as [-> | Hv];
      [| rewrite lookup_partial_alter_ne by exact Hv;
         apply (Hinv name old); exact Hold].
    rewrite lookup_partial_alter_eq. intros [= <-].
    apply failed_version_accounted.
    intros vs0 Hvs0. apply (Hinv name old v vs0); assumption.
Qed.

(** [X4] After any sequence of calls whose successful requests have a
    batch size below 2^32, the inference count of every version of every
    model equals, modulo 2^64, what its per-batch statistics account
    for: the sum over the batch sizes of batch size times the number of
    successful requests.  Failed requests and re-initialisation keep the
    two in step. *)
Theorem inference_count_matches_statistics {C}
    (GetModelConfig : string -> string + C) (cs : list ServerCall)
    (model_name : string) (status : ModelStatus C) (v : Z)
    (vs : ModelVersionStatus) :
  forallb batch_fits cs = true ->
  calls GetModelConfig cs !! model_name = Some status ->
  version_status status !! v = Some vs ->
  model_inference_count vs = u64 (accounted_inferences (infer_stats vs)).
Proof.
  unfold calls. intros Hfit.
  assert (Hgen : forall ms : gmap string (ModelStatus C),
    (forall name status v vs,
       ms !! name = Some status -> version_status status !! v = Some vs ->
       model_inference_count vs
       = u64 (accounted_inferences (infer_stats vs))) ->
    forall name status v vs,
      fold_left (call GetModelConfig) cs ms !! name = Some status ->
      version_status status !! v = Some vs ->
      model_inference_count vs
      = u64 (accounted_inferences (infer_stats vs))).
  { induction cs as [| c cs IH]; intros ms Hinv; [exact Hinv |].
    simpl in Hfit. apply andb_true_iff in Hfit as [Hc Hcs]. simpl.
    apply (IH Hcs). apply call_accounted; assumption. }
  apply Hgen. intros name st v0 vs0 H. rewrite lookup_empty in H.
  discriminate.
Qed.

Lemma lookup_stats_update {C} (ms : gmap string (ModelStatus C))
    (f : option ModelVersionStatus -> ModelVersionStatus)
    (g : option InferRequestStats -> InferRequestStats)
    (model_name : string) (v0 b0 : Z) (name : string) (v b : Z)
    (s : InferRequestStats) :
  (forall o, infer_stats (f o)
             = partial_alter (fun x => Some (g x)) b0
                 (infer_stats (default ModelVersionStatus_default o))) ->
  lookup_stats (alter (with_version v0 f) model_name ms) name v b = Some s ->
  lookup_stats ms name v b = Some s
  \/ s = g (lookup_stats ms name v b).
Proof.
  intros Hf.
  destruct (decide (name = model_name)) as [-> | Hn];
    [| rewrite lookup_stats_alter_ne_model by exact Hn; auto].
  destruct (ms !! model_name) as [status |] eqn:Hst.
  2: { unfold lookup_stats. rewrite lookup_alter_eq, Hst. discriminate. }
  destruct (decide (v = v0)) as [-> | Hv];
    [| rewrite lookup_stats_with_version_ne by exact Hv; auto].
  rewrite (lookup_stats_with_version_eq ms f model_name status) by exact Hst.
  rewrite (lookup_stats_tracked ms model_name status) by exact Hst.
  rewrite Hf. destruct (decide (b0 = b)) as [<- | Hb].
  - rewrite lookup_partial_alter_eq. intros [= <-]. right. reflexivity.
  - rewrite lookup_partial_alter_ne by exact Hb. auto.
Qed.

Lemma calls_entries {C} (GetModelConfig : string -> string + C)
    (P : InferRequestStats -> Prop) :
  (forall d o, (forall s, o = Some s -> P s) -> P (failed_stats d o)) ->
  (forall a b c o, (forall s, o = Some s -> P s) ->
     P (success_stats a b c o)) ->
  forall (cs : list ServerCall) (name : string) (v b : Z)
         (s : InferRequestStats),
    lookup_stats (calls GetModelConfig cs) name v b = Some s -> P s.
Proof.
  intros Hfailed Hsuccess cs. unfold calls.
  assert (Hgen : forall ms : gmap string (ModelStatus C),
    (forall name v b s, lookup_stats ms name v b = Some s -> P s) ->
    forall name v b s,
      lookup_stats (fold_left (call GetModelConfig) cs ms) name v b
      = Some s -> P s).
  { induction cs as [| c cs IH]; intros ms Hinv; [exact Hinv |].
    simpl. apply IH. intros name v b s.
    destruct c as [n | n v0 b0 e rq rn cp | n v0 b0 rq]; simpl.
    - destruct (GetModelConfig n) as [msg | cfg] eqn:Hcfg.
      + unfold InitForModel. rewrite Hcfg. simpl. apply Hinv.
      + rewrite (InitForModel_entry GetModelConfig n cfg) by exact Hcfg.
        simpl. destruct (decide (n = name)) as [-> | Hne].
        * rewrite lookup_stats_insert_eq. unfold snapshot_stats. simpl.
          rewrite lookup_empty. discriminate.
        * rewrite lookup_stats_insert_ne by exact Hne. apply Hinv.
    - destruct (Z.eq_dec b0 0) as [-> | Hb];
        [rewrite UpdateSuccessInferStats_zero; apply Hinv |].
      rewrite UpdateSuccessInferStats_alter by exact Hb. intros Hs.
      apply (lookup_stats_update ms _ (success_stats rq rn cp) n v0
               (u32 b0)) in Hs as [Hs | ->];
        [apply (Hinv name v b); exact Hs | | reflexivity].
      apply Hsuccess. intros o Ho. apply (Hinv name v b). exact Ho.
    - rewrite UpdateFailedInferStats_alter. intros Hs.
      apply (lookup_stats_update ms _ (failed_stats rq) n v0 (u32 b0))
        in Hs as [Hs | ->];
        [apply (Hinv name v b); exact Hs | | reflexivity].
      apply Hfailed. intros o Ho. apply (Hinv name v b). exact Ho. }
  apply Hgen. intros name v b s. unfold lookup_stats.
  rewrite lookup_empty. discriminate.
Qed.

(** [X5] After any sequence of calls, every (model, version, batch
    size) entry has equal success, compute and queue counts: the three
    durations of an entry are always averaged over the same number of
    requests, and a failed request changes none of them. *)
Theorem entry_counts_stay_equal {C}
    (GetModelConfig : string -> string + C) (cs : list ServerCall)
    (model_name : string) (v b : Z) (s : InferRequestStats) :
  lookup_stats (calls GetModelConfig cs) model_name v b = Some s ->
  count (compute s) = count (success s)
  /\ count (queue s) = count (success s).
Proof.
  apply (calls_entries GetModelConfig
           (fun s => count (compute s) = count (success s)
                     /\ count (queue s) = count (success s))).
  - intros d [o |] Ho; simpl; [apply Ho; reflexivity | auto].
  - intros a b' c [o |] Ho; simpl; [| auto].
    destruct (Ho o eq_refl) as [-> ->]. auto.
Qed.

(** ** Requests between two snapshots *)

Lemma lookup_stats_update_eq {C} (ms : gmap string (ModelStatus C))
    (f : option ModelVersionStatus -> ModelVersionStatus)
    (g : option InferRequestStats -> InferRequestStats)
    (model_name : string) (status : ModelStatus C) (v b : Z) :
  (forall o, infer_stats (f o)
             = partial_alter (fun x => Some (g x)) b
                 (infer_stats (default ModelVersionStatus_default o))) ->
  ms !! model_name = Some status ->
  lookup_stats (alter (with_version v f) model_name ms) model_name v b
  = Some (g (lookup_stats ms model_name v b)).
Proof.
  intros Hf Hst.
  rewrite (lookup_stats_with_version_eq ms f model_name status) by exact Hst.
  rewrite (lookup_stats_tracked ms model_name status) by exact Hst.
  rewrite Hf, lookup_partial_alter_eq. reflexivity.
Qed.

Lemma lookup_stats_update_ne {C} (ms : gmap string (ModelStatus C))
    (f : option ModelVersionStatus -> ModelVersionStatus)
    (g : option InferRequestStats -> InferRequestStats)
    (n : string) (v0 b0 : Z) (name : string) (v b : Z) :
  (forall o, infer_stats (f o)
             = partial_alter (fun x => Some (g x)) b0
                 (infer_stats (default ModelVersionStatus_default o))) ->
  (n, v0, b0) <> (name, v, b) ->
  lookup_stats (alter (with_version v0 f) n ms) name v b
  = lookup_stats ms name v b.
Proof.
  intros Hf Hne.
  destruct (decide (name = n)) as [-> | Hn];
    [| apply lookup_stats_alter_ne_model; exact Hn].
  destruct (decide (v = v0)) as [-> | Hv];
    [| apply lookup_stats_with_version_ne; exact Hv].
  destruct (ms !! n) as [status |] eqn:Hst.
  - rewrite (lookup_stats_with_version_eq ms f n status) by exact Hst.
    rewrite (lookup_stats_tracked ms n status) by exact Hst.
    rewrite Hf. apply lookup_partial_alter_ne. congruence.
  - unfold lookup_stats. rewrite lookup_alter_eq, Hst. reflexivity.
Qed.

(** One call, seen from the entry of (model, version, batch size). *)
Lemma call_success_count {C} (GetModelConfig : string -> string + C)
    (ms : gmap string (ModelStatus C)) (c : ServerCall)
    (name : string) (v key : Z) :
  is_Some (ms !! name) ->
  initialises GetModelConfig name c = false ->
  let ms' := call GetModelConfig ms c in
  is_Some (ms' !! name)
  /\ (is_Some (lookup_stats ms name v key) ->
      is_Some (lookup_stats ms' name v key))
  /\ if counts_for name v key c then
       is_Some (lookup_stats ms' name v key)
       /\ u64 (success_count ms' name v key)
          = u64 (success_count ms name v key + 1)
     else success_count ms' name v key = success_count ms name v key.
Proof.
  intros [status Hst] Hinit. cbv zeta.
  assert (Hsame : forall ms' : gmap string (ModelStatus C),
    ms' !! name = ms !! name ->
    is_Some (ms' !! name)
    /\ (is_Some (lookup_stats ms name v key) ->
        is_Some (lookup_stats ms' name v key))
    /\ success_count ms' name v key = success_count ms name v key).
  { intros ms' Heq. unfold success_count, lookup_stats. rewrite Heq, Hst.
    split; [eauto | split; [auto | reflexivity]]. }
  destruct c as [n | n v0 b0 e rq rn cp | n v0 b0 rq];
    cbn [call counts_for].
  - apply Hsame. simpl in Hinit.
    destruct (GetModelConfig n) as [msg | cfg] eqn:Hcfg.
    + unfold InitForModel. rewrite Hcfg. reflexivity.
    + rewrite andb_true_r in Hinit.
      apply bool_decide_eq_false in Hinit.
      apply InitForModel_other. congruence.
  - destruct (Z.eqb_spec b0 0) as [-> | Hb].
    { rewrite UpdateSuccessInferStats_zero, andb_false_r.
      apply Hsame. reflexivity. }
    rewrite UpdateSuccessInferStats_alter by exact Hb.
    rewrite andb_true_r.
    split; [rewrite lookup_alter_is_Some; eauto |].
    destruct (bool_decide (n = name) && (v0 =? v) && (u32 b0 =? key))
      eqn:Hmatch.
    + apply andb_true_iff in Hmatch as [Hmatch Hk].
      apply andb_true_iff in Hmatch as [Hn Hv].
      apply bool_decide_eq_true in Hn. apply Z.eqb_eq in Hv, Hk.
      subst n v0 key. unfold success_count.
      rewrite (lookup_stats_update_eq ms _ (success_stats rq rn cp) name
                 status) by (reflexivity || exact Hst).
      split; [eauto |]. split; [eauto |].
      destruct (lookup_stats ms name v (u32 b0)) as [o |]; simpl.
      * apply u64_idem.
      * reflexivity.
    + assert (Hne : (n, v0, u32 b0) <> (name, v, key)).
      { intros [= -> -> <-].
        rewrite bool_decide_eq_true_2, !Z.eqb_refl in Hmatch by reflexivity.
        discriminate. }
      unfold success_count.
      rewrite (lookup_stats_update_ne ms _ (success_stats rq rn cp) n v0
                 (u32 b0) name v key)
        by (reflexivity || exact Hne).
      split; [auto | reflexivity].
  - rewrite UpdateFailedInferStats_alter.
    split; [rewrite lookup_alter_is_Some; eauto |].
    destruct (decide ((n, v0, u32 b0) = (name, v, key))) as [[= -> -> <-] | Hne].
    + unfold success_count.
      rewrite (lookup_stats_update_eq ms _ (failed_stats rq) name status)
        by (reflexivity || exact Hst).
      split; [eauto |].
      destruct (lookup_stats ms name v (u32 b0)); reflexivity.
    + unfold success_count.
      rewrite (lookup_stats_update_ne ms _ (failed_stats rq) n v0 (u32 b0)
                 name v key)
        by (reflexivity || exact Hne).
      split; [auto | reflexivity].
Qed.

Lemma calls_success_count {C} (GetModelConfig : string -> string + C)
    (cs : list ServerCall) (ms : gmap string (ModelStatus C))
    (name : string) (v key : Z) :
  is_Some (ms !! name) ->
  forallb (fun c => negb (initialises GetModelConfig name c)) cs = true ->
  let ms' := fold_left (call GetModelConfig) cs ms in
  let k := length (List.filter (counts_for name v key) cs) in
  is_Some (ms' !! name)
  /\ (is_Some (lookup_stats ms name v key) \/ (0 < k)%nat ->
      is_Some (lookup_stats ms' name v key))
  /\ u64 (success_count ms' name v key)
     = u64 (success_count ms name v key + Z.of_nat k).
Proof.
  revert ms. induction cs as [| c cs IH]; intros ms Hst Hinit; cbv zeta.
  - simpl. rewrite Z.add_0_r.
    split; [exact Hst |]. split; [intros [H | H]; [exact H | lia] |].
    reflexivity.
  - simpl in Hinit. apply andb_true_iff in Hinit as [Hc Hcs].
    apply negb_true_iff in Hc.
    destruct (call_success_count GetModelConfig ms c name v key Hst Hc)
      as (Hst' & Hkeep & Hcount). cbv zeta in Hst', Hkeep, Hcount.
    destruct (IH (call GetModelConfig ms c) Hst' Hcs) as (H1 & H2 & H3).
    cbv zeta in H1, H2, H3. cbn [fold_left List.filter].
    split; [exact H1 |].
    destruct (counts_for name v key c).
    + destruct Hcount as [Hsome Hcount]. split; [auto |].
      rewrite H3, <- u64_add_l, Hcount, u64_add_l. simpl length.
      f_equal. lia.
    + rewrite Hcount in H3. split; [| exact H3].
      intros [H | H]; apply H2; [left; apply Hkeep; exact H | right; exact H].
Qed.

(** ** Snapshots of the server status *)

Lemma ready_state_of_known (manager_state : ManagerState) :
  ModelReadyState_eqb (ready_state_of manager_state) MODEL_UNKNOWN = false.
Proof. destruct manager_state; reflexivity. Qed.

(** The second loop of [SetModelVersionReadyState], version by
    version. *)
Lemma monitor_fold_lookup (states : gmap Z ManagerState)
    (base : gmap Z ModelVersionStatus) (v : Z) :
  map_fold
    (fun (version : Z) (manager_state : ManagerState)
         (mvs : gmap Z ModelVersionStatus) =>
       let ready_state := ready_state_of manager_state in
       if negb (ModelReadyState_eqb ready_state MODEL_UNKNOWN) then
         <[version :=
             set_ready_state ready_state
               (default ModelVersionStatus_default (mvs !! version))]> mvs
       else mvs)
    base states !! v
  = match states !! v with
    | Some manager_state =>
        Some (set_ready_state (ready_state_of manager_state)
                (default ModelVersionStatus_default (base !! v)))
    | None => base !! v
    end.
Proof.
  revert v. apply (map_fold_weak_ind (fun r (m : gmap Z ManagerState) =>
    forall v, r !! v = match m !! v with
                       | Some manager_state =>
                           Some (set_ready_state
                                   (ready_state_of manager_state)
                                   (default ModelVersionStatus_default
                                      (base !! v)))
                       | None => base !! v
                       end)).
  - intros v. rewrite lookup_empty. reflexivity.
  - intros i x m r Hi IH v. cbv zeta.
    rewrite ready_state_of_known. simpl negb. cbv iota.
    destruct (decide (i = v)) as [<- | Hne].
    + rewrite !lookup_insert_eq, (IH i), Hi. reflexivity.
    + rewrite !lookup_insert_ne by exact Hne. apply IH.
Qed.

(** A snapshot taken with a monitor has the statistics of the status it
    is taken from. *)
Lemma snapshot_stats_monitor {C} (config_name : C -> string)
    (monitor : option Monitor) (ms : ModelStatus C) (v b : Z) :
  snapshot_stats
    match monitor with
    | Some mon => SetModelVersionReadyState config_name mon ms
    | None => ms
    end v b
  = snapshot_stats ms v b.
Proof.
  destruct monitor as [mon |]; [| reflexivity].
  unfold snapshot_stats, SetModelVersionReadyState. cbn [version_status].
  rewrite monitor_fold_lookup, lookup_fmap.
  destruct (mon _ !! v) as [manager_state |];
    destruct (version_status ms !! v) as [old |]; reflexivity.
Qed.

(** What [GetModelStatus] hands to the client of a server that answers
    with the one-model [Get]. *)
Lemma GetModelStatus_Get_model {C} (config_name : C -> string)
    (server_status_ : ServerStatus C) (id : string) (ready uptime : Z)
    (model_name : string) (monitor : option Monitor)
    (status : ModelStatus C) :
  GetModelStatus model_name Success
    (Get_model config_name server_status_ id ready uptime model_name
       monitor) = inr status ->
  exists tracked,
    model_status server_status_ !! model_name = Some tracked
    /\ status = match monitor with
                | Some mon => SetModelVersionReadyState config_name mon tracked
                | None => tracked
                end.
Proof.
  unfold GetModelStatus, Get_model.
  destruct (model_status server_status_ !! model_name) as [tracked |];
    cbn [fst snd model_status]; [| discriminate].
  rewrite lookup_singleton_eq. intros [= <-]. exists tracked.
  split; reflexivity.
Qed.

(** Without a monitor that is [Get] of the tracked statuses, error text
    included. *)
Lemma GetModelStatus_without_monitor {C} (config_name : C -> string)
    (server_status_ : ServerStatus C) (id : string) (ready uptime : Z)
    (model_name : string) :
  GetModelStatus model_name Success
    (Get_model config_name server_status_ id ready uptime model_name None)
  = Get model_name (model_status server_status_).
Proof.
  unfold GetModelStatus, Get_model, Get, unknown_model.
  destruct (model_status server_status_ !! model_name) as [status |];
    cbn [fst snd model_status]; [| reflexivity].
  rewrite lookup_singleton_eq. reflexivity.
Qed.

Lemma start_counters_count {C} (cfg : SamplerConfig)
    (start_status : ModelStatus C) (v : Z) :
  fst (fst (fst (start_counters cfg start_status v)))
  = from_option (fun s => count (success s)) 0
      (snapshot_stats start_status v (u32 (batch_size_ cfg))).
Proof.
  unfold start_counters, snapshot_stats.
  destruct (version_status start_status !! v) as [vs |]; [| reflexivity].
  simpl. destruct (infer_stats vs !! u32 (batch_size_ cfg)); reflexivity.
Qed.

(** [X6] The server request count the client reports is the number of
    successful requests the server recorded between the two status
    snapshots the client fetched with [GetModelStatus], whether or not the
    server answers through a servable-state monitor: for a model that is
    not re-initialised in between, if at least one successful request of
    the measured batch size, and of the version the composer resolves on
    the end snapshot, is recorded between the start and the end snapshot,
    the composer succeeds and reports that number of requests, modulo
    2^64. *)
Theorem client_counts_the_requests_between_snapshots {C}
    (config_name : C -> string) (GetModelConfig : string -> string + C)
    (cfg : SamplerConfig) (summary : PerfStatus) (model_name : string)
    (before after : ServerStatus C) (cs : list ServerCall)
    (id id' : string) (ready uptime ready' uptime' : Z)
    (monitor monitor' : option Monitor)
    (start_status end_status : ModelStatus C) :
  model_status after
  = fold_left (call GetModelConfig) cs (model_status before) ->
  GetModelStatus model_name Success
    (Get_model config_name before id ready uptime model_name monitor)
  = inr start_status ->
  GetModelStatus model_name Success
    (Get_model config_name after id' ready' uptime' model_name monitor')
  = inr end_status ->
  forallb (fun c => negb (initialises GetModelConfig model_name c)) cs
  = true ->
  let k :=
    length (List.filter
              (counts_for model_name (resolve_version cfg end_status)
                 (u32 (batch_size_ cfg))) cs) in
  (0 < k)%nat ->
  exists out,
    summarize_server cfg summary start_status end_status = (Success, out)
    /\ server_request_count out = u64 (Z.of_nat k).
Proof.
  cbv zeta. intros Hafter Hstart Hend Hinit Hk.
  apply GetModelStatus_Get_model in Hstart as (st0 & Hst0 & Hstart).
  apply GetModelStatus_Get_model in Hend as (st1 & Hst1 & Hend).
  rewrite Hafter in Hst1.
  set (v := resolve_version cfg end_status) in *.
  set (key := u32 (batch_size_ cfg)) in *.
  set (k := length (List.filter (counts_for model_name v key) cs)) in *.
  destruct (calls_success_count GetModelConfig cs (model_status before)
              model_name v key)
    as (_ & Hsome & Hcount); [rewrite Hst0; eauto | exact Hinit |].
  cbv zeta in Hsome, Hcount. fold k in Hsome, Hcount.
  destruct Hsome as [e He]; [right; exact Hk |].
  unfold success_count in Hcount. rewrite He in Hcount. simpl in Hcount.
  unfold lookup_stats in He, Hcount. rewrite Hst1 in He.
  rewrite Hst0 in Hcount. simpl in He, Hcount.
  change (snapshot_stats st1 v key = Some e) in He.
  change (u64 (count (success e))
          = u64 (from_option (fun s => count (success s)) 0
                   (snapshot_stats st0 v key) + Z.of_nat k)) in Hcount.
  rewrite <- (snapshot_stats_monitor config_name monitor' st1), <- Hend
    in He.
  rewrite <- (snapshot_stats_monitor config_name monitor st0), <- Hstart
    in Hcount.
  pose proof (summarize_server_deltas cfg summary start_status end_status e
                He) as Hd.
  pose proof (start_counters_count cfg start_status v) as Hc0.
  fold v in Hd. fold key in Hc0.
  destruct (start_counters cfg start_status v) as [[[c0 t0] q0] k0].
  simpl in Hc0. destruct Hd as (Hok & Hreq & _).
  destruct (summarize_server cfg summary start_status end_status)
    as [err out].
  simpl in Hok, Hreq. subst err. exists out. split; [reflexivity |].
  rewrite Hreq, Hc0.
  unfold u64 in *. rewrite <- Zminus_mod_idemp_l, Hcount.
  rewrite Zminus_mod_idemp_l. f_equal. lia.
Qed.

(** [X7] In a snapshot taken with a monitor, the ready state of every
    version comes from the monitor: a version the monitor knows has the
    state the monitor reports (ready exactly when it is available), a
    version it does not know is unavailable, and no version is left in
    the unknown state.  The versions of the snapshot are those of the
    status together with those of the monitor. *)
Theorem snapshot_ready_states {C} (config_name : C -> string)
    (monitor : Monitor) (ms : ModelStatus C) (v : Z) :
  let states := monitor (from_option config_name "" (config ms)) in
  let after :=
    version_status (SetModelVersionReadyState config_name monitor ms) !! v in
  (is_Some after <-> is_Some (version_status ms !! v) \/ is_Some (states !! v))
  /\ forall vs, after = Some vs ->
       ready_state vs
       = match states !! v with
         | Some kLoading => MODEL_LOADING
         | Some kUnloading => MODEL_UNLOADING
         | Some kAvailable => MODEL_READY
         | Some kOtherState => MODEL_UNAVAILABLE
         | None => MODEL_UNAVAILABLE
         end
       /\ ready_state vs <> MODEL_UNKNOWN.
Proof.
  intros states after. subst states after.
  unfold SetModelVersionReadyState. cbn [version_status].
  rewrite monitor_fold_lookup, lookup_fmap.
  destruct (monitor _ !! v) as [manager_state |].
  - split; [split; eauto |]. intros vs [= <-]. cbn [ready_state set_ready_state].
    destruct manager_state; split; (reflexivity || discriminate).
  - split.
    + rewrite fmap_is_Some. split; [auto | intros [H | [x Hx]]];
        [exact H | discriminate].
    + intros vs Hvs.
      destruct (version_status ms !! v) as [old |]; [| discriminate].
      injection Hvs as <-. split; [reflexivity | discriminate].
Qed.

(** [X8] Taking a snapshot with a monitor changes no statistics: every
    (version, batch size) entry of the status is in the snapshot
    unchanged, with the counts of its version, and the snapshot has no
    entry the status lacks (a version known to the monitor alone appears
    with zero counts and no statistics).  The configuration is kept. *)
Theorem snapshot_keeps_statistics {C} (config_name : C -> string)
    (monitor : Monitor) (ms : ModelStatus C) :
  let snapshot := SetModelVersionReadyState config_name monitor ms in
  config snapshot = config ms
  /\ (forall v b, snapshot_stats snapshot v b = snapshot_stats ms v b)
  /\ forall v vs, version_status snapshot !! v = Some vs ->
       model_inference_count vs
       = from_option model_inference_count 0 (version_status ms !! v)
       /\ model_execution_count vs
          = from_option model_execution_count 0 (version_status ms !! v).
Proof.
  intros snapshot. subst snapshot. split; [reflexivity |].
  unfold snapshot_stats, SetModelVersionReadyState. cbn [version_status].
  split.
  - intros v b. rewrite monitor_fold_lookup, lookup_fmap.
    destruct (monitor _ !! v) as [manager_state |];
      destruct (version_status ms !! v) as [old |]; reflexivity.
  - intros v vs. rewrite monitor_fold_lookup, lookup_fmap.
    destruct (monitor _ !! v) as [manager_state |];
      destruct (version_status ms !! v) as [old |]; simpl;
      try discriminate; intros [= <-]; split; reflexivity.
Qed.

(** [X9] The status of one model and the whole server status agree on
    that model: for a tracked model the entry [Get] returns for it alone
    is the entry it has in the full status, with or without a monitor,
    and it is the only entry; for an unknown model the call fails and
    returns no entry.  In both cases the id, ready state, uptime and
    version are filled in. *)
Theorem model_status_agrees_with_server_status {C}
    (config_name : C -> string) (server_status_ : ServerStatus C)
    (id : string) (ready uptime : Z) (model_name : string)
    (monitor : option Monitor) :
  let one := Get_model config_name server_status_ id ready uptime
               model_name monitor in
  let all := Get_all config_name server_status_ id ready uptime monitor in
  (IsOk (fst one) = true
   <-> is_Some (model_status server_status_ !! model_name))
  /\ (forall n,
        model_status (snd one) !! n
        = if decide (n = model_name) then model_status (snd all) !! n
          else None)
  /\ server_id (snd one) = server_id (snd all)
  /\ server_ready_state (snd one) = server_ready_state (snd all)
  /\ uptime_ns (snd one) = uptime_ns (snd all)
  /\ version (snd one) = version (snd all).
Proof.
  intros one all. subst one all. unfold Get_model, Get_all.
  cbn [snd model_status].
  destruct (model_status server_status_ !! model_name) as [status |] eqn:Hst;
    cbn [fst snd IsOk model_status server_id server_ready_state uptime_ns
         version].
  - split; [split; eauto |]. split; [| repeat split].
    intros n. destruct (decide (n = model_name)) as [-> | Hne].
    + rewrite lookup_singleton_eq.
      destruct monitor as [mon |]; [rewrite lookup_fmap |]; rewrite Hst;
        reflexivity.
    + apply lookup_singleton_ne. congruence.
  - split; [split; [discriminate | intros [x Hx]; discriminate] |].
    split; [| repeat split].
    intros n. rewrite lookup_empty.
    destruct (decide (n = model_name)) as [-> | Hne]; [| reflexivity].
    destruct monitor as [mon |]; [rewrite lookup_fmap |]; rewrite Hst;
      reflexivity.
Qed.

(** [X10] A client that asks the server for the status of a model gets
    the entry the manager holds (with the ready states of the monitor,
    if there is one) when the model is tracked, and the server's error
    for an unknown model otherwise; the client's own error for a status
    without the model never occurs with this server. *)
Theorem client_receives_the_tracked_status {C}
    (config_name : C -> string) (server_status_ : ServerStatus C)
    (id : string) (ready uptime : Z) (model_name : string)
    (monitor : option Monitor) :
  GetModelStatus model_name Success
    (Get_model config_name server_status_ id ready uptime model_name
       monitor)
  = match Get model_name (model_status server_status_) with
    | inr status =>
        inr (match monitor with
             | Some mon => SetModelVersionReadyState config_name mon status
             | None => status
             end)
    | inl _ => inl (unknown_model model_name)
    end.
Proof.
  unfold GetModelStatus, Get_model, Get.
  destruct (model_status server_status_ !! model_name) as [status |];
    cbn [fst snd model_status]; [| reflexivity].
  rewrite lookup_singleton_eq. reflexivity.
Qed.

(** ** Timers *)

(** A duration is never a wrapped difference: a clock that went back
    counts as 0. *)
Lemma elapsed_ns_range (start_time end_time : timespec) :
  0 <= elapsed_ns start_time end_time <= timespec_ns end_time
  /\ elapsed_ns start_time end_time < 2 ^ 64.
Proof.
  unfold elapsed_ns.
  pose proof (timespec_ns_range start_time).
  pose proof (timespec_ns_range end_time).
  destruct (Z.gtb_spec (timespec_ns start_time) (timespec_ns end_time)); lia.
Qed.

Lemma destroy_stats {C} (timer : ServerStatTimerScoped.t)
    (end_time : timespec) (st : ServerStatus C) (kind : Kind) :
  stats_of kind (ServerStatTimerScoped.destroy timer end_time st)
  = if ServerStatTimerScoped.enabled_ timer
       && Kind_eqb (ServerStatTimerScoped.kind_ timer) kind
    then add_duration (stats_of kind st)
           (elapsed_ns (ServerStatTimerScoped.start_ timer) end_time)
    else stats_of kind st.
Proof.
  unfold ServerStatTimerScoped.destroy.
  destruct (ServerStatTimerScoped.enabled_ timer); [| reflexivity].
  destruct (ServerStatTimerScoped.kind_ timer), kind; reflexivity.
Qed.

Lemma destroy_frame {C} (timer : ServerStatTimerScoped.t)
    (end_time : timespec) (st : ServerStatus C) :
  let st' := ServerStatTimerScoped.destroy timer end_time st in
  model_status st' = model_status st /\ version st' = version st
  /\ server_id st' = server_id st
  /\ server_ready_state st' = server_ready_state st
  /\ uptime_ns st' = uptime_ns st.
Proof.
  unfold ServerStatTimerScoped.destroy.
  destruct (ServerStatTimerScoped.enabled_ timer); repeat split.
Qed.

(** [X11] After the destructors of any sequence of server timers, the
    request count of each kind (status, profile, health) has grown by
    the number of enabled timers of that kind, and its total time by the
    sum of their durations, modulo 2^64; a disabled timer and a timer of
    another kind add nothing, and the model statuses and the version
    are untouched. *)
Theorem server_timers_count_their_kind {C}
    (timers : list (ServerStatTimerScoped.t * timespec))
    (st : ServerStatus C) (kind : Kind) :
  let st' := timers_done timers st in
  u64 (count (stats_of kind st'))
  = u64 (count (stats_of kind st)
         + Z.of_nat (length (timers_of kind timers)))
  /\ u64 (total_time_ns (stats_of kind st'))
     = u64 (total_time_ns (stats_of kind st)
            + Zsum (map (fun timer =>
                           elapsed_ns
                             (ServerStatTimerScoped.start_ (fst timer))
                             (snd timer))
                      (timers_of kind timers)))
  /\ model_status st' = model_status st
  /\ version st' = version st.
Proof.
  unfold timers_done. revert st.
  induction timers as [| [timer end_time] timers IH]; intros st; cbv zeta.
  - simpl. rewrite !Z.add_0_r. repeat split.
  - cbn [fold_left fst snd].
    destruct (IH (ServerStatTimerScoped.destroy timer end_time st))
      as (Hc & Ht & Hm & Hv).
    cbv zeta in Hc, Ht, Hm, Hv. rewrite Hc, Ht, Hm, Hv.
    destruct (destroy_frame timer end_time st) as (-> & -> & _).
    rewrite destroy_stats. unfold timers_of.
    cbn [List.filter fst snd].
    destruct (ServerStatTimerScoped.enabled_ timer
              && Kind_eqb (ServerStatTimerScoped.kind_ timer) kind).
    + unfold Zsum.
      cbn [length map fold_right add_duration count total_time_ns fst snd].
      rewrite !u64_add_l. repeat split; f_equal; lia.
    + repeat split.
Qed.

Lemma Stop_Start (s e : timespec) (timer : ModelInferStats.ScopedTimer.t) :
  ModelInferStats.ScopedTimer.Stop e
    (ModelInferStats.ScopedTimer.Start s timer)
  = if tv_sec s =? 0 then ModelInferStats.ScopedTimer.Start s timer
    else
      {| ModelInferStats.ScopedTimer.start_ :=
           {| tv_sec := 0; tv_nsec := 0 |};
         ModelInferStats.ScopedTimer.cummulative_duration_ns_ :=
           u64 (ModelInferStats.ScopedTimer.cummulative_duration_ns_ timer
                + elapsed_ns s e);
         ModelInferStats.ScopedTimer.duration_ptr_ :=
           ModelInferStats.ScopedTimer.duration_ptr_ timer |}.
Proof.
  unfold ModelInferStats.ScopedTimer.Stop, ModelInferStats.ScopedTimer.Start.
  simpl. destruct (tv_sec s =? 0); reflexivity.
Qed.

(** [X12] A timer counts an interval once: a second [Stop] changes
    nothing, and neither does a [Stop] of a timer that was not started.
    Started and stopped over a sequence of intervals, a new timer holds
    the sum of their durations modulo 2^64, where an interval whose start
    reading has [tv_sec = 0] adds nothing. *)
Theorem scoped_timer_counts_each_interval_once
    (intervals : list (timespec * timespec)) (now now' : timespec)
    (timer : ModelInferStats.ScopedTimer.t) :
  ModelInferStats.ScopedTimer.Stop now'
    (ModelInferStats.ScopedTimer.Stop now timer)
  = ModelInferStats.ScopedTimer.Stop now timer
  /\ ModelInferStats.ScopedTimer.Stop now ModelInferStats.ScopedTimer.new
     = ModelInferStats.ScopedTimer.new
  /\ ModelInferStats.ScopedTimer.cummulative_duration_ns_
       (timed intervals ModelInferStats.ScopedTimer.new)
     = u64 (Zsum (map counted_ns intervals)).
Proof.
  split; [| split].
  - unfold ModelInferStats.ScopedTimer.Stop.
    destruct (tv_sec (ModelInferStats.ScopedTimer.start_ timer) =? 0)
      eqn:Hs; simpl; [rewrite Hs |]; reflexivity.
  - reflexivity.
  - assert (Hsum : forall t,
      0 <= ModelInferStats.ScopedTimer.cummulative_duration_ns_ t < 2 ^ 64 ->
      ModelInferStats.ScopedTimer.cummulative_duration_ns_
        (timed intervals t)
      = u64 (ModelInferStats.ScopedTimer.cummulative_duration_ns_ t
             + Zsum (map counted_ns intervals))).
    { unfold timed.
      induction intervals as [| [s e] rest IH]; intros t Ht.
      - simpl. rewrite Z.add_0_r, u64_small by exact Ht. reflexivity.
      - cbn [fold_left fst snd]. rewrite Stop_Start.
        unfold Zsum in *. cbn [map fold_right]. unfold counted_ns at 1.
        cbn [fst snd].
        destruct (tv_sec s =? 0).
        + rewrite IH by exact Ht. simpl.
          first [reflexivity | f_equal; lia].
        + rewrite IH by (simpl; apply u64_range). simpl.
          rewrite u64_add_l. first [reflexivity | f_equal; lia]. }
    rewrite Hsum by (simpl; lia). reflexivity.
Qed.

Lemma request_timer_duration (s : ModelInferStats.t) (t0 t1 : timespec) :
  ModelInferStats.ScopedTimer.destroy t1
    (ModelInferStats.StartRequestTimer t0 ModelInferStats.ScopedTimer.new) s
  = ModelInferStats.set_duration ModelInferStats.RequestDuration
      (counted_ns (t0, t1)) s.
Proof.
  unfold ModelInferStats.ScopedTimer.destroy,
    ModelInferStats.StartRequestTimer, ModelInferStats.StartTimer.
  cbn [ModelInferStats.ScopedTimer.duration_ptr_
       ModelInferStats.ScopedTimer.Start]. f_equal.
  rewrite Stop_Start. unfold counted_ns. cbn [fst snd].
  destruct (tv_sec t0 =? 0); [reflexivity |].
  cbn [ModelInferStats.ScopedTimer.cummulative_duration_ns_
       ModelInferStats.ScopedTimer.new].
  rewrite Z.add_0_l. apply u64_small.
  pose proof (elapsed_ns_range t0 t1). lia.
Qed.

(** [X13] The time between [StartRequestTimer] and the destruction of
    the timer is what the statistics of a tracked model receive when the
    request object is destroyed.  A failed request adds one failure and
    that time to the failed duration of its (version, batch size) entry,
    or creates the entry with them; a successful request with a batch
    size does the same for the success duration; a successful request
    with batch size 0 changes nothing.  The version is that of the
    servable when there is one, the requested version otherwise. *)
Theorem timed_request_reaches_the_statistics {C} (s : ModelInferStats.t)
    (t0 t1 : timespec) (ms : gmap string (ModelStatus C))
    (status : ModelStatus C) :
  ms !! ModelInferStats.model_name_ s = Some status ->
  let s' :=
    ModelInferStats.ScopedTimer.destroy t1
      (ModelInferStats.StartRequestTimer t0 ModelInferStats.ScopedTimer.new)
      s in
  let ms' := ModelInferStats.destroy s' ms in
  let v := match ModelInferStats.model_servable_ s with
           | Some servable_version => servable_version
           | None => ModelInferStats.requested_model_version_ s
           end in
  let b := u32 (ModelInferStats.batch_size_ s) in
  let before := lookup_stats ms (ModelInferStats.model_name_ s) v b in
  let after := lookup_stats ms' (ModelInferStats.model_name_ s) v b in
  let one_more (d : option StatDuration) : StatDuration :=
    match d with
    | Some d =>
        {| count := u64 (count d + 1);
           total_time_ns := u64 (total_time_ns d + counted_ns (t0, t1)) |}
    | None => {| count := 1; total_time_ns := counted_ns (t0, t1) |}
    end in
  if ModelInferStats.failed_ s then
    failed <$> after = Some (one_more (failed <$> before))
  else if ModelInferStats.batch_size_ s =? 0 then ms' = ms
  else success <$> after = Some (one_more (success <$> before)).
Proof.
  intros Hst. cbv zeta. rewrite request_timer_duration.
  unfold ModelInferStats.destroy.
  cbn [ModelInferStats.set_duration ModelInferStats.failed_
       ModelInferStats.model_servable_ ModelInferStats.model_name_
       ModelInferStats.requested_model_version_ ModelInferStats.batch_size_
       ModelInferStats.execution_count_ ModelInferStats.request_duration_ns_
       ModelInferStats.run_duration_ns_
       ModelInferStats.compute_duration_ns_].
  set (v := match ModelInferStats.model_servable_ s with
            | Some servable_version => servable_version
            | None => ModelInferStats.requested_model_version_ s
            end).
  destruct (ModelInferStats.failed_ s).
  - rewrite UpdateFailedInferStats_alter.
    rewrite (lookup_stats_with_version_eq ms _ _ status) by exact Hst.
    rewrite (lookup_stats_tracked ms _ status) by exact Hst.
    unfold failed_version. cbn [infer_stats].
    rewrite lookup_partial_alter_eq.
    destruct (infer_stats _ !! u32 (ModelInferStats.batch_size_ s));
      reflexivity.
  - destruct (Z.eqb_spec (ModelInferStats.batch_size_ s) 0) as [Hz | Hnz].
    + rewrite Hz. apply UpdateSuccessInferStats_zero.
    + rewrite UpdateSuccessInferStats_alter by exact Hnz.
      rewrite (lookup_stats_with_version_eq ms _ _ status) by exact Hst.
      rewrite (lookup_stats_tracked ms _ status) by exact Hst.
      unfold success_version. cbn [infer_stats].
      rewrite lookup_partial_alter_eq.
      destruct (infer_stats _ !! u32 (ModelInferStats.batch_size_ s));
        reflexivity.
Qed.

(** ** The measurement loop of [Step] *)

Lemma record_measurement_length (off : spec_float) (st : Stability)
    (ips lat : Z) :
  length (infer_per_sec (record_measurement off st ips lat))
  = S (length (infer_per_sec st)).
Proof.
  unfold record_measurement. cbv zeta.
  destruct (_ >=? recent_k); cbn [infer_per_sec];
    rewrite length_app; simpl; lia.
Qed.

Lemma record_measurement_keeps_stable (off : spec_float) (st : Stability)
    (ips lat : Z) :
  (length (infer_per_sec st) < 2)%nat ->
  stable (record_measurement off st ips lat) = stable st.
Proof.
  intros Hlen. unfold record_measurement. cbv zeta.
  rewrite length_app. simpl length.
  destruct (Z.geb_spec (Z.of_nat (length (infer_per_sec st) + 1)) recent_k)
    as [Hge | Hlt]; [unfold recent_k in Hge; lia | reflexivity].
Qed.

Lemma measure_until_stable_bound {C} (m : Manager)
    (windows : list (Window C)) (st : Stability)
    (status_summary : PerfStatus) :
  let need :=
    Z.to_nat (Z.max 1 (max_measurement_count_ m
                       - Z.of_nat (length (infer_per_sec st)))) in
  (need <= length windows)%nat ->
  is_Some (measure_until_stable m windows st status_summary)
  /\ measure_until_stable m windows st status_summary
     = measure_until_stable m (firstn need windows) st status_summary.
Proof.
  revert st status_summary.
  induction windows as [| w rest IH]; intros st s need Hlen.
  - subst need. simpl in Hlen. lia.
  - assert (Hneed : need = S (Nat.pred need)) by (subst need; lia).
    rewrite Hneed. cbn [firstn measure_until_stable].
    destruct (negb (threads_ok w)); [split; eauto |].
    destruct (Measure (sampler m) s w) as [err s'].
    destruct (negb (IsOk err)); [split; eauto |].
    set (st' := record_measurement (stable_offset_ m) st
                  (client_infer_per_sec s') (client_avg_latency_ns s')).
    assert (Hst' : length (infer_per_sec st')
                   = S (length (infer_per_sec st)))
      by apply record_measurement_length.
    destruct ((Z.of_nat (length (infer_per_sec st')) >=? recent_k)
              && stable st'); [split; eauto |].
    destruct (early_exit w); cbn [negb andb]; [split; eauto |].
    destruct (Z.ltb_spec (Z.of_nat (length (infer_per_sec st')))
                (max_measurement_count_ m)) as [Hlt | Hge];
      [| split; eauto].
    assert (Hpred : Nat.pred need
                    = Z.to_nat (Z.max 1 (max_measurement_count_ m
                        - Z.of_nat (length (infer_per_sec st')))))
      by (subst need; lia).
    rewrite Hpred. apply IH. simpl in Hlen. lia.
Qed.

(** [X14] [Step] returns after at most [max(1, max_measurement_count)]
    measurements: given that many windows it returns, and what it
    returns does not depend on anything after them. *)
Theorem step_takes_a_bounded_number_of_measurements {C} (m : Manager)
    (status_summary : PerfStatus) (concurrent_request_count : Z)
    (windows : list (Window C)) :
  (measurement_bound m <= length windows)%nat ->
  is_Some (snd (Step m status_summary concurrent_request_count windows))
  /\ Step m status_summary concurrent_request_count windows
     = Step m status_summary concurrent_request_count
         (firstn (measurement_bound m) windows).
Proof.
  intros Hlen. unfold Step. cbv zeta. cbn [snd].
  destruct (measure_until_stable_bound
              (adjust_concurrency m concurrent_request_count) windows
              Stability_init
              (set_concurrency status_summary concurrent_request_count))
    as [Hsome Heq].
  - cbn [Stability_init infer_per_sec length adjust_concurrency
         max_measurement_count_]. rewrite Z.sub_0_r. exact Hlen.
  - split; [exact Hsome |]. f_equal.
    cbn [Stability_init infer_per_sec length adjust_concurrency
         max_measurement_count_] in Heq.
    rewrite Z.sub_0_r in Heq. exact Heq.
Qed.

Lemma measure_until_stable_short {C} (m : Manager)
    (windows : list (Window C)) (st : Stability)
    (status_summary : PerfStatus) (err : Error) (out : PerfStatus)
    (flag : bool) :
  max_measurement_count_ m < 3 ->
  stable st = true ->
  length (infer_per_sec st) = 0%nat
  \/ Z.of_nat (length (infer_per_sec st)) < max_measurement_count_ m ->
  measure_until_stable m windows st status_summary = Some (err, out, flag) ->
  flag = true.
Proof.
  intros Hmax. revert st status_summary.
  induction windows as [| w rest IH]; intros st s Hst Hlen;
    [discriminate |].
  cbn [measure_until_stable].
  destruct (negb (threads_ok w)); [intros [= _ _ <-]; exact Hst |].
  destruct (Measure (sampler m) s w) as [e s'].
  destruct (negb (IsOk e)); [intros [= _ _ <-]; exact Hst |].
  set (st' := record_measurement (stable_offset_ m) st
                (client_infer_per_sec s') (client_avg_latency_ns s')).
  assert (Hlen' : length (infer_per_sec st')
                  = S (length (infer_per_sec st)))
    by apply record_measurement_length.
  assert (Hst' : stable st' = true).
  { subst st'. rewrite record_measurement_keeps_stable; [exact Hst | lia]. }
  destruct ((Z.of_nat (length (infer_per_sec st')) >=? recent_k)
            && stable st'); [intros [= _ _ <-]; exact Hst' |].
  destruct (negb (early_exit w)
            && (Z.of_nat (length (infer_per_sec st'))
                <? max_measurement_count_ m)) eqn:Hcont;
    [| intros [= _ _ <-]; exact Hst'].
  apply andb_true_iff in Hcont as [_ Hlt]. apply Z.ltb_lt in Hlt.
  apply IH; [exact Hst' | right; exact Hlt].
Qed.

(** [X15] With fewer than three measurements allowed, [Step] never
    reports an unstable run: the stability of the samples is not
    evaluated, the flag keeps its initial value [true], and no warning
    is printed, whatever was measured. *)
Theorem short_runs_are_never_unstable {C} (m : Manager)
    (status_summary : PerfStatus) (concurrent_request_count : Z)
    (windows : list (Window C)) (err : Error) (out : PerfStatus)
    (flag : bool) :
  max_measurement_count_ m < 3 ->
  snd (Step m status_summary concurrent_request_count windows)
  = Some (err, out, flag) ->
  flag = true.
Proof.
  intros Hmax. unfold Step. cbv zeta. cbn [snd].
  apply measure_until_stable_short;
    [exact Hmax | reflexivity | left; reflexivity].
Qed.

(** ** The search over concurrency levels *)

Lemma tally_nonneg (cs ce : Z) (l : list Timestamp) (acc : Tally) :
  0 <= tol_latency_ns acc -> 0 <= valid_timestamp_count acc ->
  0 <= tol_latency_ns (fold_left (tally_step cs ce) l acc)
  /\ 0 <= valid_timestamp_count (fold_left (tally_step cs ce) l acc).
Proof.
  revert acc. induction l as [| t l IH]; intros acc Ht Hv; [auto |].
  simpl. apply IH; unfold tally_step;
    destruct (in_window cs ce t); try assumption; simpl; apply u64_range.
Qed.

Lemma Summarize_output {C} (cfg : SamplerConfig) (summary : PerfStatus)
    (l : list Timestamp) (start_status end_status : ModelStatus C)
    (start_stat end_stat : Stat) :
  let result :=
    Summarize cfg summary l start_status end_status start_stat end_stat in
  concurrency (snd result) = concurrency summary
  /\ (IsOk (fst result) = true -> 0 <= client_avg_latency_ns (snd result)).
Proof.
  cbv zeta. rewrite Summarize_unfold. cbv zeta.
  destruct (valid_timestamp_count _ =? 0) eqn:Hv;
    [split; [reflexivity | discriminate] |].
  destruct (summarize_server_frame cfg
              (summarize_client cfg summary
                 (u64 (snd (client_window cfg l) - fst (client_window cfg l)))
                 (tally_timestamps (fst (client_window cfg l))
                    (snd (client_window cfg l)) l) start_stat end_stat)
              start_status end_status)
    as (Hc & _ & _ & _ & _ & _ & Hl & _).
  rewrite Hc, Hl. split; [reflexivity |]. intros _.
  cbn [summarize_client client_avg_latency_ns].
  unfold tally_timestamps.
  destruct (tally_nonneg (fst (client_window cfg l))
              (snd (client_window cfg l)) l tally_init) as [Ht Hn];
    [simpl; lia | simpl; lia |].
  apply Z.div_pos; [exact Ht |].
  apply Z.eqb_neq in Hv. unfold tally_timestamps in Hv. lia.
Qed.

Lemma Measure_output {C} (cfg : SamplerConfig) (status_summary : PerfStatus)
    (w : Window C) :
  concurrency (snd (Measure cfg status_summary w))
  = concurrency status_summary
  /\ (IsOk (fst (Measure cfg status_summary w)) = true ->
      0 <= client_avg_latency_ns (snd (Measure cfg status_summary w))).
Proof.
  unfold Measure.
  destruct (start_status w); [split; [reflexivity | discriminate] |].
  destruct (end_status w); [split; [reflexivity | discriminate] |].
  apply Summarize_output.
Qed.

Lemma measure_until_stable_output {C} (m : Manager)
    (windows : list (Window C)) (st : Stability)
    (status_summary : PerfStatus) (err : Error) (out : PerfStatus)
    (flag : bool) :
  measure_until_stable m windows st status_summary = Some (err, out, flag) ->
  concurrency out = concurrency status_summary
  /\ (IsOk err = true -> 0 <= client_avg_latency_ns out).
Proof.
  revert st status_summary.
  induction windows as [| w rest IH]; intros st s; [discriminate |].
  cbn [measure_until_stable].
  destruct (negb (threads_ok w));
    [intros [= <- <- _]; split; [reflexivity | discriminate] |].
  pose proof (Measure_output (sampler m) s w) as [Hc Hl].
  destruct (Measure (sampler m) s w) as [e s']. cbn [fst snd] in Hc, Hl.
  destruct (IsOk e) eqn:He; cbn [negb];
    [| intros [= <- <- _]; split; [exact Hc | congruence]].
  assert (Hfinish : forall e',
    Some (e', s', stable (record_measurement (stable_offset_ m) st
                            (client_infer_per_sec s')
                            (client_avg_latency_ns s')))
    = Some (err, out, flag) ->
    concurrency out = concurrency s
    /\ (IsOk err = true -> 0 <= client_avg_latency_ns out)).
  { intros e' [= _ <- _]. split; [exact Hc | auto]. }
  destruct (_ && stable _); [apply Hfinish |].
  destruct (negb (early_exit w) && _); [| apply Hfinish].
  intros Hrec. apply IH in Hrec as [Hc' Hl']. split; [congruence | exact Hl'].
Qed.

Lemma Step_output {C} (m : Manager) (status_summary : PerfStatus)
    (c : Z) (windows : list (Window C)) (err : Error) (out : PerfStatus)
    (flag : bool) :
  snd (Step m status_summary c windows) = Some (err, out, flag) ->
  concurrency out = u32 c
  /\ (IsOk err = true -> 0 <= client_avg_latency_ns out).
Proof.
  unfold Step. cbv zeta. cbn [snd]. intros H.
  apply measure_until_stable_output in H. exact H.
Qed.

Lemma search_concurrency_summary {C} (runs : list (list (Window C)))
    (m : Manager) (status_summary : PerfStatus)
    (count max_concurrency latency_threshold_ms : Z) (err : Error)
    (summary0 : list PerfStatus) (e : Error) (summary : list PerfStatus) :
  0 <= count -> count + Z.of_nat (length runs) < 2 ^ 64 ->
  search_concurrency m status_summary count max_concurrency
    latency_threshold_ms err summary0 runs = SearchDone e summary ->
  exists new,
    summary = summary0 ++ new
    /\ forall (i : nat) (out : PerfStatus),
         new !! i = Some out ->
         concurrency out = u32 (count + Z.of_nat i)
         /\ server_request_count out <> 0
         /\ 0 <= client_avg_latency_ns out
         /\ (count + Z.of_nat i <= max_concurrency \/ max_concurrency = 0)
         /\ ((S i < length new)%nat ->
             client_avg_latency_ns out / (1000 * 1000)
             < latency_threshold_ms).
Proof.
  revert m status_summary count err summary0.
  induction runs as [| windows rest IH];
    intros m s count err summary0 Hcount Hroom; cbn [search_concurrency].
  - destruct ((count <=? max_concurrency) || (max_concurrency =? 0));
      [discriminate |].
    intros [= <- <-]. exists []. rewrite app_nil_r. split; [reflexivity |].
    intros i out Hi. discriminate.
  - destruct ((count <=? max_concurrency) || (max_concurrency =? 0))
      eqn:Hcond.
    2: { intros [= <- <-]. exists []. rewrite app_nil_r.
         split; [reflexivity |]. intros i out Hi. discriminate. }
    assert (Hlevel : count <= max_concurrency \/ max_concurrency = 0).
    { apply orb_true_iff in Hcond as [H | H];
        [left; apply Z.leb_le; exact H | right; apply Z.eqb_eq; exact H]. }
    pose proof (Step_output m s count windows) as Hout.
    destruct (Step m s count windows) as [m' [[[err' out] flag] |]];
      [| discriminate].
    destruct (Hout err' out flag eq_refl) as [Hc Hl].
    destruct (IsOk err') eqn:Hok.
    2: { intros [= <- <-]. exists []. rewrite app_nil_r.
         split; [reflexivity |]. intros i o Hi. discriminate. }
    destruct (Report out) as [r |] eqn:Hrep; [| discriminate].
    assert (Hcnt : server_request_count out <> 0).
    { intros Hz. apply Report_None in Hz. congruence. }
    destruct (Z.geb_spec (client_avg_latency_ns out / (1000 * 1000))
                latency_threshold_ms) as [Hge | Hlt].
    + intros [= <- <-]. exists [out]. split; [reflexivity |].
      intros [| i] o Hi; [| discriminate]. injection Hi as <-.
      rewrite Z.add_0_r. repeat split; auto. simpl. lia.
    + intros Hrec. simpl length in Hroom.
      rewrite u64_small in Hrec by lia.
      apply IH in Hrec as (new & -> & Hnew); [| lia | lia].
      exists (out :: new). rewrite <- app_assoc. split; [reflexivity |].
      intros [| i] o Hi.
      * injection Hi as <-. rewrite Z.add_0_r. repeat split; auto.
      * simpl in Hi. destruct (Hnew i o Hi) as (H1 & H2 & H3 & H4 & H5).
        replace (count + Z.of_nat (S i)) with (count + 1 + Z.of_nat i)
          by lia.
        repeat split; auto. intros Hlen. apply H5. simpl in Hlen. lia.
Qed.

(** [X16] The dynamic mode measures consecutive concurrency levels from
    the starting level, none above a non-zero limit, and the levels it
    reports are those measured up to and including the first whose mean
    latency reaches the threshold: every reported level but the last is
    below the threshold.  Each reported level has a non-zero server
    request count, so the divisions of the CSV writer are defined for
    every row. *)
Theorem search_reports_consecutive_levels {C} (m : Manager)
    (status_summary : PerfStatus)
    (concurrent_request_count max_concurrency latency_threshold_ms : Z)
    (runs : list (list (Window C))) (e : Error)
    (summary : list PerfStatus) :
  0 <= concurrent_request_count ->
  concurrent_request_count + Z.of_nat (length runs) < 2 ^ 64 ->
  search_concurrency m status_summary concurrent_request_count
    max_concurrency latency_threshold_ms Success [] runs
  = SearchDone e summary ->
  forall (i : nat) (out : PerfStatus),
    summary !! i = Some out ->
    concurrency out = u32 (concurrent_request_count + Z.of_nat i)
    /\ (concurrent_request_count + Z.of_nat i <= max_concurrency
        \/ max_concurrency = 0)
    /\ ((S i < length summary)%nat ->
        client_avg_latency_ns out / (1000 * 1000) < latency_threshold_ms)
    /\ is_Some (Report out) /\ is_Some (csv_row out).
Proof.
  intros Hc Hroom Hsearch i out Hi.
  apply search_concurrency_summary in Hsearch as (new & -> & Hnew);
    [| exact Hc | exact Hroom].
  simpl in Hi |- *. destruct (Hnew i out Hi) as (H1 & H2 & H3 & H4 & H5).
  repeat split; auto.
  - destruct (Report out) eqn:E; [eauto |].
    apply Report_None in E. contradiction.
  - destruct (csv_row out) eqn:E; [eauto |].
    apply csv_row_None in E. contradiction.
Qed.

(** [X17] With a latency threshold of 0, the default when [-l] is not
    given, the dynamic mode stops after the first level it measures:
    the mean latency of any level is at least the threshold. *)
Theorem zero_threshold_measures_one_level {C} (m : Manager)
    (status_summary : PerfStatus)
    (concurrent_request_count max_concurrency : Z)
    (runs : list (list (Window C))) (e : Error)
    (summary : list PerfStatus) :
  0 <= concurrent_request_count ->
  concurrent_request_count + Z.of_nat (length runs) < 2 ^ 64 ->
  search_concurrency m status_summary concurrent_request_count
    max_concurrency 0 Success [] runs
  = SearchDone e summary ->
  (length summary <= 1)%nat.
Proof.
  intros Hc Hroom Hsearch.
  apply search_concurrency_summary in Hsearch as (new & -> & Hnew);
    [| exact Hc | exact Hroom].
  simpl. destruct new as [| out [| out' rest]]; simpl; try lia.
  destruct (Hnew 0%nat out eq_refl) as (_ & _ & Hpos & _ & Hlt).
  assert (0 <= client_avg_latency_ns out / (1000 * 1000))
    by (apply Z.div_pos; lia).
  specialize (Hlt ltac:(simpl; lia)). lia.
Qed.

(** ** Worker threads *)

Lemma adjust_concurrency_threads (m : Manager) (c : Z) :
  (if async_ m then threads_ m = [] \/ threads_ m = [AsyncWorker]
   else well_indexed (threads_ m)) ->
  let m' := adjust_concurrency m c in
  async_ m' = async_ m
  /\ (if async_ m then threads_ m' = [AsyncWorker]
      else well_indexed (threads_ m')
           /\ Z.of_nat (length (threads_ m'))
              = Z.max c (Z.of_nat (length (threads_ m)))).
Proof.
  intros Hinv. unfold adjust_concurrency. cbn [async_ threads_].
  split; [reflexivity |].
  destruct (async_ m); cbn [negb].
  - destruct Hinv as [-> | ->]; reflexivity.
  - destruct (launch_threads_spec (Z.to_nat c) c (threads_ m))
      as (_ & Hlen & Hwi); [lia | exact Hinv |].
    split; [exact Hwi | exact Hlen].
Qed.

Lemma stepped_threads (targets : list Z) (m : Manager) :
  (if async_ m then threads_ m = [] \/ threads_ m = [AsyncWorker]
   else well_indexed (threads_ m)) ->
  let m' := stepped m targets in
  async_ m' = async_ m
  /\ (if async_ m then threads_ m' = [] \/ threads_ m' = [AsyncWorker]
      else well_indexed (threads_ m')
           /\ Z.of_nat (length (threads_ m'))
              = fold_left Z.max targets (Z.of_nat (length (threads_ m)))).
Proof.
  unfold stepped. revert m.
  induction targets as [| c targets IH]; intros m Hinv; cbv zeta.
  - simpl. split; [reflexivity |]. destruct (async_ m); auto.
  - cbn [fold_left].
    destruct (adjust_concurrency_threads m c Hinv) as [Ha Ht].
    cbv zeta in Ha, Ht.
    specialize (IH (adjust_concurrency m c)). cbv zeta in IH.
    rewrite Ha in IH. destruct (async_ m).
    + destruct IH as [IHa IHt]; [right; exact Ht |].
      split; [exact IHa | exact IHt].
    + destruct Ht as [Hwi Hlen].
      destruct (IH Hwi) as (IHa & IHwi & IHlen).
      split; [exact IHa |]. split; [exact IHwi |].
      rewrite IHlen, Hlen, Z.max_comm. reflexivity.
Qed.

(** [X18] Worker threads are only ever added.  After any sequence of
    [Step]s on a new manager, a synchronous manager has as many threads
    as the highest concurrency requested so far, an asynchronous one at
    most its single worker; and the pause index the destructor sets is
    above the index of every thread, so that none of them stays in its
    wait. *)
Theorem destructor_wakes_every_worker (batch_size : Z)
    (stable_offset : spec_float)
    (measurement_window_ms max_measurement_count : Z) (async : bool)
    (model_version : Z) (targets : list Z) :
  let m := stepped (Create batch_size stable_offset measurement_window_ms
                      max_measurement_count async model_version) targets in
  forallb (sends_requests (pause_index_ (wake_all m))) (threads_ m) = true
  /\ (if async then (length (threads_ m) <= 1)%nat
      else Z.of_nat (length (threads_ m)) = fold_left Z.max targets 0).
Proof.
  cbv zeta.
  set (m0 := Create batch_size stable_offset measurement_window_ms
               max_measurement_count async model_version).
  destruct (stepped_threads targets m0) as [Ha Ht].
  { subst m0. cbn [Create async_ threads_]. destruct async; [left |];
      [reflexivity |]. intros i w Hi. discriminate. }
  cbv zeta in Ha, Ht. subst m0. cbn [Create async_ threads_ length] in Ht.
  cbn [wake_all pause_index_]. destruct async.
  - destruct Ht as [-> | ->]; split; simpl; auto.
  - destruct Ht as [Hwi Hlen]. split; [| exact Hlen].
    apply forallb_forall. intros w Hin.
    apply list_elem_of_In, list_elem_of_lookup in Hin as [i Hi].
    rewrite (Hwi i w Hi). cbn [sends_requests]. apply Z.ltb_lt.
    apply lookup_lt_Some in Hi. lia.
Qed.

Lemma max_input_byte_size_from_spec (model : string) (inputs : list (string * Z))
    (acc : Z) :
  0 <= acc ->
  Forall (fun input => snd input < 2 ^ 63) inputs ->
  match max_input_byte_size_from model acc inputs with
  | inr n =>
      acc <= n
      /\ Forall (fun input => 0 <= snd input <= n) inputs
      /\ (n = acc \/ Exists (fun input => snd input = n) inputs)
  | inl msg =>
      exists before name bs after,
        inputs = before ++ (name, bs) :: after
        /\ Forall (fun input => 0 <= snd input) before
        /\ bs < 0
        /\ msg = "input '" +:+ name
                 +:+ "' has variable-size shape, unable to create input values for model '"
                 +:+ model +:+ "'"
  end.
Proof.
  intros Hacc Hall. revert acc Hacc.
  induction Hall as [| [name bs] rest Hbs _ IH]; intros acc Hacc.
  - simpl. split; [lia |]. split; [constructor | left; reflexivity].
  - cbn [max_input_byte_size_from]. simpl in Hbs.
    destruct (Z.ltb_spec bs 0) as [Hneg | Hpos].
    + exists [], name, bs, rest. repeat split; [constructor | exact Hneg].
    + rewrite u64_small by lia.
      specialize (IH (Z.max acc bs) ltac:(lia)).
      destruct (max_input_byte_size_from model (Z.max acc bs) rest)
        as [msg | n].
      * destruct IH as (before & nm & b & after & -> & Hb & Hn & ->).
        exists ((name, bs) :: before), nm, b, after.
        repeat split; [constructor; [exact Hpos | exact Hb] | exact Hn].
      * destruct IH as (Hle & Hfa & Hex). split; [lia |]. split.
        -- constructor; [simpl; lia | exact Hfa].
        -- destruct Hex as [-> | Hex]; [| right; constructor 2; exact Hex].
           destruct (Z.max_spec acc bs) as [[_ ->] | [_ ->]];
             [right; constructor 1; reflexivity | left; reflexivity].
Qed.

(** [X19] The buffer of random input values is large enough for every
    input: when the sizing loop succeeds, no input has a negative size,
    every input's size is at most the buffer size, and the buffer is no
    larger than needed (its size is that of some input, or 0 when there
    are none).  The loop fails exactly when some input has a negative
    (variable) size, and then names the first such input. *)
Theorem input_buffer_covers_every_input (model : string)
    (inputs : list (string * Z)) :
  Forall (fun input => snd input < 2 ^ 63) inputs ->
  match max_input_byte_size model inputs with
  | inr n =>
      Forall (fun input => 0 <= snd input <= n) inputs
      /\ (inputs = [] -> n = 0)
      /\ (inputs <> [] -> Exists (fun input => snd input = n) inputs)
  | inl msg =>
      exists before name bs after,
        inputs = before ++ (name, bs) :: after
        /\ Forall (fun input => 0 <= snd input) before
        /\ bs < 0
        /\ msg = "input '" +:+ name
                 +:+ "' has variable-size shape, unable to create input values for model '"
                 +:+ model +:+ "'"
  end.
Proof.
  intros Hall. unfold max_input_byte_size.
  pose proof (max_input_byte_size_from_spec model inputs 0 ltac:(lia) Hall)
    as H.
  destruct (max_input_byte_size_from model 0 inputs) as [msg | n];
    [exact H |].
  destruct H as (Hle & Hfa & Hex). split; [exact Hfa |]. split.
  - intros ->. destruct Hex as [-> | Hex]; [reflexivity |].
    inversion Hex.
  - intros Hne. destruct Hex as [-> | Hex]; [| exact Hex].
    destruct inputs as [| [name bs] rest]; [contradiction |].
    inversion Hfa as [| ? ? Hbs Hrest]; subst. simpl in Hbs.
    constructor 1. simpl. lia.
Qed.

(** ** The asynchronous worker *)

Lemma issue_requests_starts (clock_gettime : Z -> timespec) (fuel : nat)
    (pause_index : Z) (s : AsyncState) :
  fresh_ids s ->
  let s' := issue_requests clock_gettime fuel pause_index s in
  next_request_id s <= next_request_id s'
  /\ fresh_ids s'
  /\ (forall id, next_request_id s <= id < next_request_id s' ->
        requests_start_time s' !! id = Some (clock_gettime id))
  /\ (forall id, id < next_request_id s ->
        requests_start_time s' !! id = requests_start_time s !! id).
Proof.
  revert s. induction fuel as [| fuel IH]; intros s Hfresh; cbv zeta.
  - simpl. split; [lia |]. split; [exact Hfresh |]. split; [lia | auto].
  - cbn [issue_requests].
    destruct (Z.ltb_spec (Z.of_nat (size (requests_start_time s)))
                pause_index) as [Hlt | Hge];
      [| split; [lia |]; split; [exact Hfresh |]; split; [lia | auto]].
    assert (Hnone : requests_start_time s !! next_request_id s = None).
    { destruct (requests_start_time s !! next_request_id s) eqn:E;
        [| reflexivity].
      assert (next_request_id s < next_request_id s)
        by (apply Hfresh; rewrite E; eauto).
      lia. }
    rewrite Hnone.
    set (s1 := {| requests_start_time :=
                    <[next_request_id s :=
                        clock_gettime (next_request_id s)]>
                      (requests_start_time s);
                  next_request_id := next_request_id s + 1 |}).
    assert (Hfresh1 : fresh_ids s1).
    { intros id Hid. simpl in *.
      destruct (decide (next_request_id s = id)) as [<- | Hne]; [lia |].
      rewrite lookup_insert_ne in Hid by exact Hne.
      specialize (Hfresh id Hid). lia. }
    destruct (IH s1 Hfresh1) as (Hle & Hf & Hnew & Hold).
    cbv zeta in Hle, Hf, Hnew, Hold. simpl next_request_id in Hle, Hnew, Hold.
    split; [lia |]. split; [exact Hf |]. split.
    + intros id Hid.
      destruct (decide (id = next_request_id s)) as [-> | Hne].
      * rewrite Hold by lia. simpl. apply lookup_insert_eq.
      * apply Hnew. lia.
    + intros id Hid. rewrite Hold by lia. simpl.
      apply lookup_insert_ne. lia.
Qed.

(** [X20] Every request the fill loop of the asynchronous worker issues
    is found when it completes, with the clock reading taken when it was
    issued: the recorded timestamp pairs that start time with the end
    time, the request leaves the set of requests in flight, and a second
    completion of the same id finds nothing. *)
Theorem async_request_keeps_its_start_time (clock_gettime : Z -> timespec)
    (fuel : nat) (pause_index : Z) (s : AsyncState) (id : Z)
    (end_time end_time' : timespec) :
  fresh_ids s ->
  let s' := issue_requests clock_gettime fuel pause_index s in
  next_request_id s <= id < next_request_id s' ->
  exists s'',
    complete_request id end_time s' = Some (s'', (clock_gettime id, end_time))
    /\ requests_start_time s'' = delete id (requests_start_time s')
    /\ size (requests_start_time s'') = Nat.pred (size (requests_start_time s'))
    /\ complete_request id end_time' s'' = None.
Proof.
  intros Hfresh s' Hid.
  destruct (issue_requests_starts clock_gettime fuel pause_index s Hfresh)
    as (_ & _ & Hnew & _).
  specialize (Hnew id Hid). fold s' in Hnew.
  unfold complete_request. rewrite Hnew.
  eexists. split; [reflexivity |]. cbn [requests_start_time].
  split; [reflexivity |]. split.
  - apply map_size_delete_Some. rewrite Hnew. eauto.
  - rewrite lookup_delete_eq. reflexivity.
Qed.

(** ** The report *)

Lemma div_add_le (x y n : Z) :
  0 < n -> x / n + y / n <= (x + y) / n.
Proof.
  intros Hn. apply Z.div_le_lower_bound; [exact Hn |].
  pose proof (Z.mul_div_le x n Hn). pose proof (Z.mul_div_le y n Hn). lia.
Qed.

(** [X21] When the server counted at least one request and its queue
    and compute times together do not exceed its cumulative time, the
    overhead [Report] prints is the difference of the printed averages,
    computed without wrap-around: it lies between 0 and the average
    request latency. *)
Theorem report_overhead_does_not_wrap (summary : PerfStatus) :
  0 < server_request_count summary ->
  0 <= server_queue_time_ns summary ->
  0 <= server_compute_time_ns summary ->
  server_queue_time_ns summary + server_compute_time_ns summary
  <= server_cumm_time_ns summary < 2 ^ 64 ->
  exists r,
    Report summary = Some r
    /\ overhead_us r = cumm_avg_us r - queue_avg_us r - compute_avg_us r
    /\ 0 <= overhead_us r <= cumm_avg_us r.
Proof.
  intros Hcnt Hq Hk [Hsum Hc]. unfold Report, udiv.
  destruct (Z.eqb_spec (server_request_count summary) 0) as [E | _];
    [lia |].
  simpl. eexists. split; [reflexivity |].
  cbn [overhead_us cumm_avg_us queue_avg_us compute_avg_us].
  set (n := server_request_count summary) in *.
  set (c := server_cumm_time_ns summary) in *.
  set (q := server_queue_time_ns summary) in *.
  set (k := server_compute_time_ns summary) in *.
  assert (Hq' : 0 <= q / 1000 / n)
    by (apply Z.div_pos; [apply Z.div_pos |]; lia).
  assert (Hk' : 0 <= k / 1000 / n)
    by (apply Z.div_pos; [apply Z.div_pos |]; lia).
  assert (Hle : q / 1000 / n + k / 1000 / n <= c / 1000 / n).
  { etransitivity; [apply div_add_le; exact Hcnt |].
    apply Z.div_le_mono; [exact Hcnt |].
    etransitivity; [apply div_add_le; lia |].
    apply Z.div_le_mono; lia. }
  assert (Hc' : c / 1000 / n < 2 ^ 64).
  { apply Z.le_lt_trans with c; [| exact Hc].
    etransitivity; [apply Z.div_le_upper_bound with (q := c / 1000) |].
    - exact Hcnt.
    - assert (0 <= c / 1000) by (apply Z.div_pos; lia). nia.
    - apply Z.div_le_upper_bound; lia. }
  rewrite (u64_small (c / 1000 / n - q / 1000 / n)) by lia.
  rewrite u64_small by lia. lia.
Qed.

(** ** Instances of the further properties *)

(** A failed request without batch size on a server that tracks "m". *)
Lemma failed_request_is_recorded_witness :
  lookup_stats (UpdateFailedInferStats "m" 1 0 5000 Witness.tracked) "m" 1 0
  = Some (new_failed_stats 5000)
  /\ lookup_stats (UpdateFailedInferStats "m" 1 0 5000 Witness.tracked)
       "m" 1 1
     = lookup_stats Witness.tracked "m" 1 1.
Proof.
  destruct (@failed_request_is_recorded unit "m" 1 0 5000 Witness.tracked
              Scenario.stalled_status) as [Hentry Hother].
  - vm_compute. reflexivity.
  - split.
    + etransitivity; [exact Hentry | vm_compute; reflexivity].
    + apply Hother. vm_compute. discriminate.
Defined.

(** A failure and a success for the same entry, in both orders. *)
Lemma failed_and_successful_updates_commute_witness :
  UpdateFailedInferStats "m" 1 1 5000
    (UpdateSuccessInferStats "m" 1 1 1 8000 7000 6000 Witness.tracked)
  = UpdateSuccessInferStats "m" 1 1 1 8000 7000 6000
      (UpdateFailedInferStats "m" 1 1 5000 Witness.tracked).
Proof.
  apply (@failed_and_successful_updates_commute unit "m" 1 1 5000 "m" 1 1 1
           8000 7000 6000 Witness.tracked); lia.
Defined.

(** Two requests of batch size 4 and one of batch size 8: 16
    inferences. *)
Lemma inference_count_matches_statistics_witness :
  model_inference_count Example.session_version = 16
  /\ u64 (accounted_inferences (infer_stats Example.session_version)) = 16.
Proof.
  split; [reflexivity |].
  rewrite <- (@inference_count_matches_statistics unit Scenario.repository
                Example.session "m" Example.session_status 1
                Example.session_version).
  - reflexivity.
  - vm_compute. reflexivity.
  - vm_compute. reflexivity.
  - vm_compute. reflexivity.
Defined.

(** A request of 5000 ns on the server that has answered 15. *)
Lemma timed_request_reaches_the_statistics_witness :
  success
  <$> lookup_stats
        (ModelInferStats.destroy
           (ModelInferStats.ScopedTimer.destroy (Scenario.at_ns 100 5000)
              (ModelInferStats.StartRequestTimer (Scenario.at_ns 100 0)
                 ModelInferStats.ScopedTimer.new)
              Example.request)
           Witness.tracked) "m" 1 1
  = Some {| count := 16; total_time_ns := 118000005000 |}.
Proof.
  pose proof (@timed_request_reaches_the_statistics unit Example.request
                (Scenario.at_ns 100 0) (Scenario.at_ns 100 5000)
                Witness.tracked Scenario.stalled_status) as H.
  cbv zeta in H. simpl ModelInferStats.failed_ in H.
  simpl ModelInferStats.batch_size_ in H. cbv iota in H.
  etransitivity; [apply H; vm_compute; reflexivity | vm_compute; reflexivity].
Defined.

(** One window suffices for a manager that measures once. *)
Lemma step_takes_a_bounded_number_of_measurements_witness :
  is_Some (snd (Step Scenario.two_workers Scenario.blank 2
                  [Scenario.stalled_window; Scenario.stalled_window]))
  /\ Step Scenario.two_workers Scenario.blank 2
       [Scenario.stalled_window; Scenario.stalled_window]
     = Step Scenario.two_workers Scenario.blank 2 [Scenario.stalled_window].
Proof.
  apply (@step_takes_a_bounded_number_of_measurements unit
           Scenario.two_workers Scenario.blank 2
           [Scenario.stalled_window; Scenario.stalled_window]).
  vm_compute. lia.
Defined.

(** A single measurement is reported as stable. *)
Lemma short_runs_are_never_unstable_witness :
  max_measurement_count_ Scenario.two_workers < 3
  /\ snd (Step Scenario.two_workers Scenario.blank 2
            [Scenario.stalled_window])
     = Some (Success, Example.stalled_out, true)
  /\ true = true.
Proof.
  split; [reflexivity |]. split; [vm_compute; reflexivity |].
  apply (@short_runs_are_never_unstable unit Scenario.two_workers
           Scenario.blank 2 [Scenario.stalled_window] Success
           Example.stalled_out true);
    [reflexivity | vm_compute; reflexivity].
Defined.

(** The second of two levels measured under a threshold of 300 ms. *)
Lemma search_reports_consecutive_levels_witness :
  concurrency Example.second_level = u32 (1 + Z.of_nat 1)
  /\ (1 + Z.of_nat 1 <= 2 \/ 2 = 0)
  /\ ((2 < length Example.levels)%nat ->
      client_avg_latency_ns Example.second_level / (1000 * 1000) < 300)
  /\ is_Some (Report Example.second_level)
  /\ is_Some (csv_row Example.second_level).
Proof.
  apply (@search_reports_consecutive_levels unit Example.single_shot
           Scenario.blank 1 2 300 [[Example.quick_window];
                                   [Example.quick_window]]
           Success Example.levels);
    [lia | simpl; lia | vm_compute; reflexivity | reflexivity].
Defined.

(** A search with the threshold 0 over the same windows. *)
Lemma zero_threshold_measures_one_level_witness :
  (length Example.first_only <= 1)%nat.
Proof.
  apply (@zero_threshold_measures_one_level unit Example.single_shot
           Scenario.blank 1 0 [[Example.quick_window];
                               [Example.quick_window]]
           Success Example.first_only);
    [lia | simpl; lia | vm_compute; reflexivity].
Defined.

(** Inputs of 64 and 16 bytes get a buffer of 64 bytes. *)
Lemma input_buffer_covers_every_input_witness :
  max_input_byte_size "m" Example.two_inputs = inr 64
  /\ Forall (fun input => 0 <= snd input <= 64) Example.two_inputs.
Proof.
  split; [vm_compute; reflexivity |].
  pose proof (input_buffer_covers_every_input "m" Example.two_inputs) as H.
  change (max_input_byte_size "m" Example.two_inputs)
    with (@inr string Z 64) in H.
  apply H. repeat constructor.
Defined.

(** The second of two requests issued by an idle worker. *)
Lemma async_request_keeps_its_start_time_witness :
  exists s'',
    complete_request 1 (Scenario.at_ns 101 0)
      (issue_requests Example.clock 3 2 Example.idle)
    = Some (s'', (Example.clock 1, Scenario.at_ns 101 0))
    /\ requests_start_time s''
       = delete 1 (requests_start_time
                     (issue_requests Example.clock 3 2 Example.idle))
    /\ size (requests_start_time s'')
       = Nat.pred (size (requests_start_time
                           (issue_requests Example.clock 3 2 Example.idle)))
    /\ complete_request 1 (Scenario.at_ns 102 0) s'' = None.
Proof.
  apply (async_request_keeps_its_start_time Example.clock 3 2 Example.idle 1
           (Scenario.at_ns 101 0) (Scenario.at_ns 102 0)).
  - intros id [x Hx]. vm_compute in Hx. discriminate.
  - vm_compute. split; [discriminate | reflexivity].
Defined.

(** The entry of batch size 4 after the session: two successes. *)
Lemma entry_counts_stay_equal_witness :
  count (compute Example.session_entry) = count (success Example.session_entry)
  /\ count (queue Example.session_entry)
     = count (success Example.session_entry).
Proof.
  apply (@entry_counts_stay_equal unit Scenario.repository Example.session
           "m" 1 4 Example.session_entry).
  vm_compute. reflexivity.
Defined.

(** The report of a level with 8 s of cumulative time, of which 7 s are
    compute and 0.2 ms queue time. *)
Lemma report_overhead_does_not_wrap_witness :
  exists r,
    Report Example.second_level = Some r
    /\ overhead_us r = cumm_avg_us r - queue_avg_us r - compute_avg_us r
    /\ 0 <= overhead_us r <= cumm_avg_us r.
Proof.
  apply (report_overhead_does_not_wrap Example.second_level);
    vm_compute; try split; (reflexivity || discriminate).
Defined.

(** One request answered between two snapshots of a server whose
    monitor reports version 1 as available, measured at the latest
    version. *)
Lemma client_counts_the_requests_between_snapshots_witness :
  exists out,
    summarize_server Example.latest_version Scenario.blank
      (SetModelVersionReadyState Example.the_name
         Example.version_1_available Scenario.stalled_status)
      (SetModelVersionReadyState Example.the_name
         Example.version_1_available Example.after_status)
    = (Success, out)
    /\ server_request_count out = 1.
Proof.
  destruct (@client_counts_the_requests_between_snapshots unit
              Example.the_name Scenario.repository Example.latest_version
              Scenario.blank "m" Example.server_before Example.server_after
              Example.between "inference:0" "inference:0" 1 1000 1 6000
              (Some Example.version_1_available)
              (Some Example.version_1_available)
              (SetModelVersionReadyState Example.the_name
                 Example.version_1_available Scenario.stalled_status)
              (SetModelVersionReadyState Example.the_name
                 Example.version_1_available Example.after_status))
    as (out & Hout & Hcount).
  - vm_compute. reflexivity.
  - vm_compute. reflexivity.
  - vm_compute. reflexivity.
  - vm_compute. reflexivity.
  - vm_compute. lia.
  - exists out. split; [exact Hout |]. rewrite Hcount.
    vm_compute. reflexivity.
Defined.
